(** * Rail itinerary search: the engine of [Phase1/rail_search.py]

    A shallow embedding of the time arithmetic, the route filter, the
    connection search with its deduplication, and the ranking of
    [rail_search.py], followed by the properties of the specification.

    Conventions of the embedding.
    - Python [int] is [Z]; [str] is [string] (ASCII text: [lower], [strip]
      and [title] act on the ASCII letters and the ASCII white space).
    - [datetime.time] is a record of its four fields; [datetime.datetime]
      is a number of microseconds, [today * 86400000000 + clock]; a
      [timedelta] is a number of microseconds.
    - [float] fares are an abstract type [price] with the comparisons
      [<], [==], [<=] and the builtin [sum]; what the ranking needs of the
      order (it holds of floats that are not NaN) is stated as hypotheses.
    - an exception is a value of [exn]; a function that may raise returns
      [exn + A].
    - [dict] is [gmap], [set] is [gset]; a loop that appends to a list is
      the list of what it appends ([filter], [flat_map]), a loop over a
      state is a [fold_left].
    - the parameters [dep_city] and [arr_city] of the functions are named
      [from_city] and [to_city], the fields of [Route] having these names;
      [search_itineraries] takes the routes [load_routes] returns. *)

From Stdlib Require Import ZArith Ascii String List Sorted DecimalString
  Permutation.
From stdpp Require Import base decidable option list gmap strings fin_maps sorting.

Local Open Scope string_scope.
Local Open Scope Z_scope.

(** ** Clock times *)

Module Clock.

(** [datetime.time(hour, minute, second, microsecond)]. *)
Record time : Type := Time {
  hour : Z;
  minute : Z;
  second : Z;
  microsecond : Z
}.

(** The ranges the constructor of [datetime.time] enforces. *)
Definition time_ok (t : time) : Prop :=
  0 <= hour t < 24 /\ 0 <= minute t < 60 /\
  0 <= second t < 60 /\ 0 <= microsecond t < 1000000.

Definition hm (h m : Z) : time := Time h m 0 0.

Definition us_per_minute : Z := 60000000.
Definition us_per_day : Z := 86400000000.

(** Microseconds since midnight. *)
Definition time_us (t : time) : Z :=
  ((hour t * 60 + minute t) * 60 + second t) * 1000000 + microsecond t.

(** [datetime.combine(date, t)], the date being a day number. *)
Definition combine (date : Z) (t : time) : Z :=
  date * us_per_day + time_us t.

(** [int(delta.total_seconds() // 60)].  [total_seconds] is the float
    nearest to [delta / 10**6]; below two days that float lies in the same
    minute as the exact quotient, so the floor is that of the integers. *)
Definition whole_minutes (delta : Z) : Z := delta / us_per_minute.

Section Today.
(** The date [datetime.today()] reads.  One evaluation reads it twice;
    both reads fall on the same date [today]. *)
Variable today : Z.

Definition minutes_between (t1 t2 : time) : Z :=
  let d1 := combine today t1 in
  let d2 := combine today t2 in
  let d2 := if d2 <? d1 then d2 + 1 * us_per_day else d2 in
  whole_minutes (d2 - d1).
End Today.

(** The two reads of the clock kept apart.  [minutes_between] reads
    [datetime.today()] once for [d1] and once for [d2]: [today1] and
    [today2] are the dates of the two reads, day numbers from 1 to
    [max_ordinal], the number of [date.max].  Adding a day to a time of the
    last date raises [OverflowError]. *)
Definition max_ordinal : Z := 3652059.

Inductive outcome : Type :=
| Returns (minutes : Z)
| Raises_OverflowError.

Definition minutes_between_reads (today1 today2 : Z) (t1 t2 : time)
    : outcome :=
  let d1 := combine today1 t1 in
  let d2 := combine today2 t2 in
  if d2 <? d1
  then if max_ordinal <? today2 + 1 then Raises_OverflowError
       else Returns (whole_minutes (d2 + 1 * us_per_day - d1))
  else Returns (whole_minutes (d2 - d1)).

End Clock.
Export Clock.

(** ** Strings *)

Module Str.

Definition is_upper (c : ascii) : bool :=
  let n := N_of_ascii c in ((65 <=? n) && (n <=? 90))%N.
Definition is_lower (c : ascii) : bool :=
  let n := N_of_ascii c in ((97 <=? n) && (n <=? 122))%N.
Definition is_cased (c : ascii) : bool := is_upper c || is_lower c.

Definition lower_char (c : ascii) : ascii :=
  if is_upper c then ascii_of_N (N_of_ascii c + 32) else c.
Definition upper_char (c : ascii) : ascii :=
  if is_lower c then ascii_of_N (N_of_ascii c - 32) else c.

(** [s.lower()] *)
Fixpoint lower (s : string) : string :=
  match s with
  | EmptyString => EmptyString
  | String c s' => String (lower_char c) (lower s')
  end.

(** [s.title()]: a letter that follows a letter is lowered, any other
    letter is raised. *)
Fixpoint title_from (prev_cased : bool) (s : string) : string :=
  match s with
  | EmptyString => EmptyString
  | String c s' =>
      String (if prev_cased then lower_char c else upper_char c)
             (title_from (is_cased c) s')
  end.
Definition title (s : string) : string := title_from false s.

(** White space of [str.strip()] among the ASCII characters. *)
Definition is_space (c : ascii) : bool :=
  let n := N_of_ascii c in
  ((9 <=? n) && (n <=? 13) || (28 <=? n) && (n <=? 32))%N.

Fixpoint lstrip (s : string) : string :=
  match s with
  | EmptyString => EmptyString
  | String c s' => if is_space c then lstrip s' else s
  end.

(** The string without its trailing white space. *)
Fixpoint rstrip (s : string) : string :=
  match s with
  | EmptyString => EmptyString
  | String c s' =>
      match rstrip s' with
      | EmptyString => if is_space c then EmptyString else String c EmptyString
      | r => String c r
      end
  end.

(** [s.strip()] *)
Definition strip (s : string) : string := rstrip (lstrip s).

(** [p in s]: [p] occurs in [s] as a substring. *)
Fixpoint contains (p s : string) : bool :=
  String.prefix p s ||
  match s with
  | EmptyString => false
  | String _ s' => contains p s'
  end.

(** Truth value of a string: it is not empty. *)
Definition truthy (s : string) : bool :=
  match s with EmptyString => false | _ => true end.

End Str.

(** ** Exceptions and parsing *)

(** [ValueError(f"Unrecognized time format: {s!r}")]: the exception carries
    the string the message quotes. *)
Inductive exn : Type :=
| ValueError_unrecognized_time_format (s : string).

Module Parse.

Definition digit (c : ascii) : option Z :=
  let n := N_of_ascii c in
  if ((48 <=? n) && (n <=? 57))%N then Some (Z.of_N n - 48) else None.

(** The directive [%M] of [strptime], the regular expression
    [[0-5]\d|\d]: the alternatives are tried in this order and the first
    that matches is taken.  The result is the minute and the rest of the
    input. *)
Definition match_M (s : string) : option (Z * string) :=
  match s with
  | String a (String b rest) =>
      match digit a, digit b with
      | Some x, Some y =>
          if x <=? 5 then Some (x * 10 + y, rest)
          else Some (x, String b rest)
      | Some x, None => Some (x, String b rest)
      | None, _ => None
      end
  | String a EmptyString =>
      match digit a with Some x => Some (x, EmptyString) | None => None end
  | EmptyString => None
  end.

(** The three alternatives of [%H], the regular expression
    [2[0-3]|[0-1]\d|\d], each as hour and rest of the input. *)
Definition H_alt1 (s : string) : option (Z * string) :=
  match s with
  | String a (String b rest) =>
      match digit a, digit b with
      | Some x, Some y =>
          if (x =? 2) && (y <=? 3) then Some (x * 10 + y, rest) else None
      | _, _ => None
      end
  | _ => None
  end.

Definition H_alt2 (s : string) : option (Z * string) :=
  match s with
  | String a (String b rest) =>
      match digit a, digit b with
      | Some x, Some y => if x <=? 1 then Some (x * 10 + y, rest) else None
      | _, _ => None
      end
  | _ => None
  end.

Definition H_alt3 (s : string) : option (Z * string) :=
  match s with
  | String a rest =>
      match digit a with Some x => Some (x, rest) | None => None end
  | EmptyString => None
  end.

(** What follows the hour in the pattern: the separator, when the format
    has one, then [%M]. *)
Definition after_H (sep : option ascii) (s : string) : option (Z * string) :=
  match sep with
  | None => match_M s
  | Some c =>
      match s with
      | String c' rest => if Ascii.eqb c c' then match_M rest else None
      | EmptyString => None
      end
  end.

(** One alternative of the hour followed by the rest of the pattern. *)
Definition try_H (alt : string -> option (Z * string)) (sep : option ascii)
    (s : string) : option (Z * Z * string) :=
  match alt s with
  | Some (h, rest) =>
      match after_H sep rest with
      | Some (m, rest') => Some (h, m, rest')
      | None => None
      end
  | None => None
  end.

(** [datetime.strptime(s, fmt).time()] for the formats [%H:%M], [%H.%M]
    and [%H%M] ([sep] is the separator): the pattern is matched at the
    start of [s], backtracking over the alternatives of the hour; text
    left over after the match is an error ([None] stands for the
    [ValueError] of [strptime]). *)
Definition strptime_time (sep : option ascii) (s : string) : option time :=
  let found :=
    match try_H H_alt1 sep s with
    | Some r => Some r
    | None =>
        match try_H H_alt2 sep s with
        | Some r => Some r
        | None => try_H H_alt3 sep s
        end
    end in
  match found with
  | Some (h, m, EmptyString) => Some (hm h m)
  | _ => None
  end.

Definition parse_time (s : string) : exn + time :=
  let s := Str.strip s in
  match strptime_time (Some ":"%char) s with
  | Some t => inr t
  | None =>
      match strptime_time (Some "."%char) s with
      | Some t => inr t
      | None =>
          match strptime_time None s with
          | Some t => inr t
          | None => inl (ValueError_unrecognized_time_format s)
          end
      end
  end.

End Parse.
Export Parse.

(** ** Data model *)

(** What the engine does with a fare: the builtin [sum] and the
    comparisons [<], [==] and [<=] of [float]. *)
Class Fare (price : Type) : Type := {
  fare_sum : list price -> price;
  fare_lt : price -> price -> bool;
  fare_eq : price -> price -> bool;
  fare_le : price -> price -> bool
}.

(** Fares are totally ordered: [<] is a strict order, [==] holds of the
    fares neither of which is below the other, and [<=] is "not above".
    Floats other than NaN satisfy these laws. *)
Class FareOrder (price : Type) `{Fare price} : Prop := {
  fare_lt_irrefl : forall a, fare_lt a a = false;
  fare_lt_trans : forall a b c,
    fare_lt a b = true -> fare_lt b c = true -> fare_lt a c = true;
  fare_eq_spec : forall a b,
    fare_eq a b = true <-> fare_lt a b = false /\ fare_lt b a = false;
  fare_eq_trans : forall a b c,
    fare_eq a b = true -> fare_eq b c = true -> fare_eq a c = true;
  fare_le_spec : forall a b, fare_le a b = true <-> fare_lt b a = false
}.

(** Whole amounts (cents) as fares. *)
#[export] Instance Z_fare : Fare Z := {
  fare_sum l := fold_left Z.add l 0;
  fare_lt := Z.ltb;
  fare_eq := Z.eqb;
  fare_le := Z.leb
}.

Record Route (price : Type) : Type := mkRoute {
  route_id : string;
  dep_city : string;
  arr_city : string;
  dep_time : time;
  arr_time : time;
  train_type : string;
  days : gset string;
  price_first : price;
  price_second : price
}.
Arguments mkRoute {price}.
Arguments route_id {price}.
Arguments dep_city {price}.
Arguments arr_city {price}.
Arguments dep_time {price}.
Arguments arr_time {price}.
Arguments train_type {price}.
Arguments days {price}.
Arguments price_first {price}.
Arguments price_second {price}.

Record Leg (price : Type) : Type := mkLeg { route : Route price }.
Arguments mkLeg {price}.
Arguments route {price}.

Record Itinerary (price : Type) : Type := mkItinerary {
  legs : list (Leg price);
  transfers_minutes : list Z
}.
Arguments mkItinerary {price}.
Arguments legs {price}.
Arguments transfers_minutes {price}.

(** The keyword arguments [find_connected_itineraries] hands on to
    [filter_routes]. *)
Record Filters (price : Type) : Type := mkFilters {
  f_train_type : option string;
  f_days : option (list string);
  f_dep_time_from : option string;
  f_dep_time_to : option string;
  f_arr_time_from : option string;
  f_arr_time_to : option string;
  f_max_price_first : option price;
  f_max_price_second : option price
}.
Arguments mkFilters {price}.
Arguments f_train_type {price}.
Arguments f_days {price}.
Arguments f_dep_time_from {price}.
Arguments f_dep_time_to {price}.
Arguments f_arr_time_from {price}.
Arguments f_arr_time_to {price}.
Arguments f_max_price_first {price}.
Arguments f_max_price_second {price}.

Definition no_filters {price : Type} : Filters price :=
  mkFilters None None None None None None None None.

Definition DAY_ALIASES : gmap string string :=
  list_to_map [
    ("mon", "Mon"); ("monday", "Mon");
    ("tue", "Tue"); ("tuesday", "Tue");
    ("wed", "Wed"); ("wednesday", "Wed");
    ("thu", "Thu"); ("thursday", "Thu");
    ("fri", "Fri"); ("friday", "Fri");
    ("sat", "Sat"); ("saturday", "Sat");
    ("sun", "Sun"); ("sunday", "Sun")
  ].

(** [sum] of a list of [int]. *)
Definition sum_Z (l : list Z) : Z := fold_left Z.add l 0.

(** ** The engine *)

Section Engine.
Context {price : Type} `{Fare price}.
(** The date [datetime.today()] reads during the call. *)
Variable today : Z.

(** [Route.duration_minutes] *)
Definition duration_minutes (r : Route price) : Z :=
  let dt_dep := combine today (dep_time r) in
  let dt_arr := combine today (arr_time r) in
  let dt_arr := if dt_arr <? dt_dep then dt_arr + 1 * us_per_day else dt_arr in
  whole_minutes (dt_arr - dt_dep).

(** [Leg.duration_minutes] *)
Definition leg_duration_minutes (l : Leg price) : Z :=
  duration_minutes (route l).

(** [Itinerary.duration_minutes] *)
Definition itinerary_duration_minutes (it : Itinerary price) : Z :=
  sum_Z (map leg_duration_minutes (legs it)) + sum_Z (transfers_minutes it).

(** [Itinerary.price] *)
Definition itinerary_price (it : Itinerary price) (cls : string) : price :=
  if String.eqb (Str.lower cls) "first"
  then fare_sum (map (fun leg => price_first (route leg)) (legs it))
  else fare_sum (map (fun leg => price_second (route leg)) (legs it)).

(** [Itinerary.num_stops] *)
Definition num_stops (it : Itinerary price) : Z :=
  Z.max 0 (Z.of_nat (length (legs it)) - 1).

(** [x.lower() if x else None] *)
Definition lower_if (x : option string) : option string :=
  match x with
  | Some s => if Str.truthy s then Some (Str.lower s) else None
  | None => None
  end.

(** [parse_time(x) if x else None] *)
Definition parse_time_if (x : option string) : exn + option time :=
  match x with
  | Some s =>
      if Str.truthy s
      then match parse_time s with
           | inr t => inr (Some t)
           | inl e => inl e
           end
      else inr None
  | None => inr None
  end.

(** [DAY_ALIASES.get(d.strip().lower(), d.strip().title())] *)
Definition day_token (d : string) : string :=
  default (Str.title (Str.strip d)) (DAY_ALIASES !! Str.lower (Str.strip d)).

(** [set(... for d in days) if days else None] *)
Definition day_set_of (ds : option (list string)) : option (gset string) :=
  match ds with
  | Some (d :: l) => Some (list_to_set (map day_token (d :: l)))
  | Some [] => None
  | None => None
  end.

(** [norm and norm not in field.lower()] *)
Definition misses (norm : option string) (field : string) : bool :=
  match norm with
  | Some p => Str.truthy p && negb (Str.contains p (Str.lower field))
  | None => false
  end.

(** [day_set and not (r.days & day_set)] *)
Definition no_common_day (day_set : option (gset string)) (r : Route price) : bool :=
  match day_set with
  | Some ds => bool_decide (ds <> ∅) && negb (bool_decide (days r ∩ ds <> ∅))
  | None => false
  end.

(** The statements of the loop of [filter_routes] on the departure
    window, from [if dtf and minutes_between(...) < 0] to the [elif];
    [true] stands for [continue].  (The statement before them ends in
    [pass] on both paths.) *)
Definition dep_window_skips (dtf dtt : option time) (r : Route price) : bool :=
  if match dtf with
     | Some f => minutes_between today f (dep_time r) <? 0
     | None => false
     end
  then true
  else
    match dtf, dtt with
    | Some f, Some t =>
        let dmin := minutes_between today f (dep_time r) in
        let dmax := minutes_between today f t in
        if dmax >=? 0
        then negb ((0 <=? dmin) && (dmin <=? dmax))
        else false
    | Some f, None => minutes_between today f (dep_time r) <? 0
    | None, _ => false
    end.

(** [if atf and att: ...] *)
Definition arr_window_skips (atf att : option time) (r : Route price) : bool :=
  match atf, att with
  | Some f, Some t =>
      let amin := minutes_between today f (arr_time r) in
      let amax := minutes_between today f t in
      if amax >=? 0
      then negb ((0 <=? amin) && (amin <=? amax))
      else false
  | _, _ => false
  end.

(** [max_price is not None and fare > max_price] *)
Definition over_price (max_price : option price) (fare : price) : bool :=
  match max_price with
  | Some m => fare_lt m fare
  | None => false
  end.

(** The body of the loop of [filter_routes]: [true] when the route
    reaches [out.append(r)]. *)
Definition route_kept (dep_city_norm arr_city_norm train_type_norm : option string)
    (day_set : option (gset string)) (dtf dtt atf att : option time)
    (max_price_first max_price_second : option price) (r : Route price) : bool :=
  if misses dep_city_norm (dep_city r) then false
  else if misses arr_city_norm (arr_city r) then false
  else if misses train_type_norm (train_type r) then false
  else if no_common_day day_set r then false
  else if dep_window_skips dtf dtt r then false
  else if arr_window_skips atf att r then false
  else if over_price max_price_first (price_first r) then false
  else if over_price max_price_second (price_second r) then false
  else true.

Definition filter_routes (routes : list (Route price))
    (from_city to_city : option string) (q : Filters price)
    : exn + list (Route price) :=
  let dep_city_norm := lower_if from_city in
  let arr_city_norm := lower_if to_city in
  let train_type_norm := lower_if (f_train_type q) in
  let day_set := day_set_of (f_days q) in
  match parse_time_if (f_dep_time_from q) with
  | inl e => inl e
  | inr dtf =>
  match parse_time_if (f_dep_time_to q) with
  | inl e => inl e
  | inr dtt =>
  match parse_time_if (f_arr_time_from q) with
  | inl e => inl e
  | inr atf =>
  match parse_time_if (f_arr_time_to q) with
  | inl e => inl e
  | inr att =>
      inr (List.filter
             (route_kept dep_city_norm arr_city_norm train_type_norm day_set
                         dtf dtt atf att
                         (f_max_price_first q) (f_max_price_second q))
             routes)
  end end end end.

(** [routes_by_dep.setdefault(r.dep_city.lower(), []).append(r)] *)
Definition index_add (routes_by_dep : gmap string (list (Route price)))
    (r : Route price) : gmap string (list (Route price)) :=
  let k := Str.lower (dep_city r) in
  <[k := (default [] (routes_by_dep !! k) ++ [r])%list]> routes_by_dep.

Definition index_routes (filtered : list (Route price))
    : gmap string (list (Route price)) :=
  fold_left index_add filtered ∅.

Definition routes_from_city (routes_by_dep : gmap string (list (Route price)))
    (city : string) : list (Route price) :=
  default [] (routes_by_dep !! Str.lower city).

(** The three phases of [find_connected_itineraries], each the list of
    the itineraries its loops append, in order. *)
Definition direct_phase (routes_by_dep : gmap string (list (Route price)))
    (from_city to_city : string) : list (Itinerary price) :=
  flat_map (fun r =>
    if String.eqb (Str.lower (arr_city r)) (Str.lower to_city)
    then [mkItinerary [mkLeg r] []]
    else [])
    (routes_from_city routes_by_dep from_city).

Definition one_stop_phase (routes_by_dep : gmap string (list (Route price)))
    (from_city to_city : string) (min_transfer : Z) : list (Itinerary price) :=
  flat_map (fun r1 =>
    flat_map (fun r2 =>
      if negb (String.eqb (Str.lower (arr_city r2)) (Str.lower to_city))
      then []
      else
        let transfer := minutes_between today (arr_time r1) (dep_time r2) in
        if transfer <? min_transfer then []
        else [mkItinerary [mkLeg r1; mkLeg r2] [transfer]])
      (routes_from_city routes_by_dep (arr_city r1)))
    (routes_from_city routes_by_dep from_city).

Definition two_stop_phase (routes_by_dep : gmap string (list (Route price)))
    (from_city to_city : string) (min_transfer : Z) : list (Itinerary price) :=
  flat_map (fun r1 =>
    flat_map (fun r2 =>
      let transfer1 := minutes_between today (arr_time r1) (dep_time r2) in
      if transfer1 <? min_transfer then []
      else
        flat_map (fun r3 =>
          if negb (String.eqb (Str.lower (arr_city r3)) (Str.lower to_city))
          then []
          else
            let transfer2 := minutes_between today (arr_time r2) (dep_time r3) in
            if transfer2 <? min_transfer then []
            else [mkItinerary [mkLeg r1; mkLeg r2; mkLeg r3]
                              [transfer1; transfer2]])
          (routes_from_city routes_by_dep (arr_city r2)))
      (routes_from_city routes_by_dep (arr_city r1)))
    (routes_from_city routes_by_dep from_city).

(** [results] before the deduplication. *)
Definition enumerate (routes_by_dep : gmap string (list (Route price)))
    (from_city to_city : string) (max_stops min_transfer : Z)
    : list (Itinerary price) :=
  (direct_phase routes_by_dep from_city to_city
   ++ (if max_stops >=? 1
       then one_stop_phase routes_by_dep from_city to_city min_transfer
       else [])
   ++ (if max_stops >=? 2
       then two_stop_phase routes_by_dep from_city to_city min_transfer
       else []))%list.

(** [tuple(leg.route.route_id for leg in it.legs)] *)
Definition route_ids (it : Itinerary price) : list string :=
  map (fun leg => route_id (route leg)) (legs it).

(** One turn of the deduplication loop on the state [(seen, deduped)]. *)
Definition dedupe_step (st : gset (list string) * list (Itinerary price))
    (it : Itinerary price) : gset (list string) * list (Itinerary price) :=
  let key := route_ids it in
  if bool_decide (key ∈ st.1) then st
  else ({[key]} ∪ st.1, (st.2 ++ [it])%list).

Definition dedupe (results : list (Itinerary price)) : list (Itinerary price) :=
  (fold_left dedupe_step results (∅, [])).2.

Definition find_connected_itineraries (routes : list (Route price))
    (from_city to_city : string) (max_stops min_transfer : Z)
    (kwargs : Filters price) : exn + list (Itinerary price) :=
  match filter_routes routes None None kwargs with
  | inl e => inl e
  | inr filtered =>
      let routes_by_dep := index_routes filtered in
      inr (dedupe (enumerate routes_by_dep from_city to_city
                             max_stops min_transfer))
  end.

(** [a < b] on the tuples that are the sort keys: the first components
    that differ decide. *)
Definition tuple_lt {A B : Type} (eqA ltA : A -> A -> bool)
    (eqB ltB : B -> B -> bool) (a b : A * B) : bool :=
  if negb (eqA a.1 b.1) then ltA a.1 b.1
  else if negb (eqB a.2 b.2) then ltB a.2 b.2
  else false.

(** [list.sort(key=...)] is stable: an element goes after the elements
    that are not greater than it.  [insert_by] puts a keyed element into
    a sorted list so, and [sort_by_key] does it for each element in
    turn, the keys computed once. *)
Fixpoint insert_by {K A : Type} (lt : K -> K -> bool) (x : K * A)
    (l : list (K * A)) : list (K * A) :=
  match l with
  | [] => [x]
  | y :: l' => if lt x.1 y.1 then x :: y :: l' else y :: insert_by lt x l'
  end.

Definition sort_by_key {K A : Type} (lt : K -> K -> bool) (key : A -> K)
    (l : list A) : list A :=
  map snd (fold_left (fun acc x => insert_by lt x acc)
                     (map (fun a => (key a, a)) l) []).

(** [l[:limit]] *)
Definition slice_to {A : Type} (l : list A) (limit : Z) : list A :=
  if limit <? 0
  then firstn (Z.to_nat (Z.of_nat (length l) + limit)) l
  else firstn (Z.to_nat limit) l.

(** [search_itineraries], from the routes [load_routes] has read. *)
Definition search_itineraries (routes : list (Route price))
    (from_city to_city : option string) (kwargs : Filters price)
    (cls : string) (max_stops min_transfer : Z) (sort_by : string)
    (limit : option Z) : exn + list (Itinerary price) :=
  match find_connected_itineraries routes (default EmptyString from_city)
          (default EmptyString to_city) max_stops min_transfer kwargs with
  | inl e => inl e
  | inr itineraries =>
      let itineraries :=
        if String.eqb sort_by "price"
        then sort_by_key (tuple_lt fare_eq fare_lt Z.eqb Z.ltb)
               (fun it => (itinerary_price it cls, itinerary_duration_minutes it))
               itineraries
        else sort_by_key (tuple_lt Z.eqb Z.ltb fare_eq fare_lt)
               (fun it => (itinerary_duration_minutes it, itinerary_price it cls))
               itineraries in
      inr (match limit with
           | Some n => slice_to itineraries n
           | None => itineraries
           end)
  end.
End Engine.

(** [Route.duration_minutes] with its two reads of [datetime.today()] kept
    apart, as [minutes_between_reads]. *)
Definition duration_minutes_reads {price : Type} (today1 today2 : Z)
    (r : Route price) : outcome :=
  let dt_dep := combine today1 (dep_time r) in
  let dt_arr := combine today2 (arr_time r) in
  if dt_arr <? dt_dep
  then if max_ordinal <? today2 + 1 then Raises_OverflowError
       else Returns (whole_minutes (dt_arr + 1 * us_per_day - dt_dep))
  else Returns (whole_minutes (dt_arr - dt_dep)).

(** ** Formatting, day sets and direct search *)

Module Format.

(** [f"{z:02d}"]: the decimal digits, with a zero in front of a single
    digit; a minus sign counts for the width. *)
Definition format_02d (z : Z) : string :=
  let s := NilZero.string_of_int (Z.to_int z) in
  if (String.length s <? 2)%nat then String "0"%char s else s.

(** [format_hhmm]: [divmod(minutes, 60)] is the floor division and its
    remainder. *)
Definition format_hhmm (minutes : Z) : string :=
  let h := minutes / 60 in
  let m := minutes mod 60 in
  (format_02d h ++ ":" ++ format_02d m)%string.

End Format.
Export Format.

Module Days.

(** [ch.isalpha()] on an ASCII character. *)
Definition is_alpha (c : ascii) : bool := Str.is_upper c || Str.is_lower c.

(** [s.replace(a, b)] for single characters. *)
Fixpoint replace_char (a b : ascii) (s : string) : string :=
  match s with
  | EmptyString => EmptyString
  | String c s' =>
      String (if Ascii.eqb c a then b else c) (replace_char a b s')
  end.

(** [s.split(sep)] for a single character: the fields between the
    separators, empty fields included. *)
Fixpoint split_on (sep : ascii) (s : string) : list string :=
  match s with
  | EmptyString => [EmptyString]
  | String c s' =>
      if Ascii.eqb c sep then EmptyString :: split_on sep s'
      else match split_on sep s' with
           | w :: ws => String c w :: ws
           | [] => [String c EmptyString]
           end
  end.

(** ["".join(ch for ch in s if f(ch))] *)
Fixpoint keep_chars (f : ascii -> bool) (s : string) : string :=
  match s with
  | EmptyString => EmptyString
  | String c s' => if f c then String c (keep_chars f s') else keep_chars f s'
  end.

(** [s[:n]] *)
Fixpoint take_chars (n : nat) (s : string) : string :=
  match n, s with
  | S n', String c s' => String c (take_chars n' s')
  | _, _ => EmptyString
  end.

(** The body of the loop of [parse_days]: the day code of a part. *)
Definition day_of_part (p : string) : string :=
  let key := Str.lower p in
  let key := keep_chars is_alpha key in
  default (Str.title (take_chars 3 p)) (DAY_ALIASES !! key).

(** The parts of [parse_days]: the stripped fields that are not empty. *)
Definition day_parts (s : string) : list string :=
  List.filter Str.truthy
    (map Str.strip (split_on ","%char (replace_char "/"%char ","%char s))).

Definition parse_days (s : string) : gset string :=
  if negb (Str.truthy s) then ∅
  else list_to_set (map day_of_part (day_parts s)).

End Days.
Export Days.

Module Table.

(** One turn of the loop of [wrap], the helper of [print_table], on the
    state [(out, line)]. *)
Definition wrap_step (width : Z) (st : list string * string) (part : string)
    : list string * string :=
  let '(out, line) := st in
  if Z.of_nat (String.length line) + 1 + Z.of_nat (String.length part) <=? width
  then (out, Str.strip (line ++ " " ++ part)%string)
  else ((out ++ [line])%list, part).

(** [wrap(text, width)] of [print_table]. *)
Definition wrap (text : string) (width : Z) : list string :=
  if Z.of_nat (String.length text) <=? width then [text]
  else
    let '(out, line) :=
      fold_left (wrap_step width) (split_on " "%char text) ([], EmptyString) in
    if Str.truthy line then (out ++ [line])%list else out.

End Table.
Export Table.

(** [find_direct_itineraries] *)
Definition find_direct_itineraries {price : Type} `{Fare price} (today : Z)
    (routes : list (Route price)) (from_city to_city : option string)
    (kwargs : Filters price) : exn + list (Itinerary price) :=
  match filter_routes today routes from_city to_city kwargs with
  | inl e => inl e
  | inr filtered => inr (map (fun r => mkItinerary [mkLeg r] []) filtered)
  end.

(** The properties [Itinerary.dep_city], [arr_city], [dep_time] and
    [arr_time]: [None] stands for the [IndexError] of [legs[0]] and
    [legs[-1]] on an itinerary without legs. *)
Definition itinerary_dep_city {price : Type} (it : Itinerary price)
    : option string :=
  option_map (fun leg => dep_city (route leg)) (head (legs it)).
Definition itinerary_arr_city {price : Type} (it : Itinerary price)
    : option string :=
  option_map (fun leg => arr_city (route leg)) (last (legs it)).
Definition itinerary_dep_time {price : Type} (it : Itinerary price)
    : option time :=
  option_map (fun leg => dep_time (route leg)) (head (legs it)).
Definition itinerary_arr_time {price : Type} (it : Itinerary price)
    : option time :=
  option_map (fun leg => arr_time (route leg)) (last (legs it)).

(** ** Sample data *)

Module Sample.

Definition every_day : gset string :=
  list_to_set ["Mon"; "Tue"; "Wed"; "Thu"; "Fri"; "Sat"; "Sun"].

Definition R1 : Route Z :=
  mkRoute "R1" "Paris" "Lyon" (hm 8 0) (hm 10 0) "TGV" every_day 9000 6000.
Definition R2 : Route Z :=
  mkRoute "R2" "Lyon" "Nice" (hm 10 30) (hm 13 0) "TER" every_day 7000 4000.
(** A night train, arriving after midnight. *)
Definition R3 : Route Z :=
  mkRoute "R3" "Nice" "Genova" (hm 23 0) (hm 1 0) "Nightjet" {["Sat"]} 5000 3000.
(** A late arrival and an early connection. *)
Definition R4 : Route Z :=
  mkRoute "R4" "Paris" "Lyon" (hm 21 30) (hm 23 50) "TGV" every_day 9000 6000.
Definition R5 : Route Z :=
  mkRoute "R5" "Lyon" "Nice" (hm 0 10) (hm 3 0) "TER" every_day 7000 4000.
(** A second train at the fare and the duration of [R1]. *)
Definition R7 : Route Z :=
  mkRoute "R7" "Paris" "Lyon" (hm 12 0) (hm 14 0) "TGV" every_day 9000 6000.
(** A circular service. *)
Definition R6 : Route Z :=
  mkRoute "R6" "Paris" "Paris" (hm 9 0) (hm 9 45) "RER" every_day 500 300.

Definition a_day : Z := 739925.

(** The connection over midnight of [R4] and [R5]. *)
Definition night_connection : Itinerary Z :=
  mkItinerary [mkLeg R4; mkLeg R5] [20].

(** Departures between 22:00 and 02:00. *)
Definition night_window : Filters Z :=
  mkFilters None None (Some "22:00") (Some "02:00") None None None None.
(** A day token that is no day. *)
Definition funday : Filters Z :=
  mkFilters None (Some ["Funday"]) None None None None None None.
(** A bound given as the empty string. *)
Definition empty_bound : Filters Z :=
  mkFilters None None (Some EmptyString) (Some "10:00") None None None None.
(** A bound that is no time. *)
Definition two_am : Filters Z :=
  mkFilters None None (Some "22:00") (Some " 2 am ") None None None None.

End Sample.

Import Sample.

(** ** Vocabulary of the specification *)

Module Spec.

(** The forward gap on the clock from [t1] to [t2] in microseconds: a day
    is added when [t2] is earlier than [t1]. *)
Definition clock_gap (t1 t2 : time) : Z :=
  (if time_us t2 <? time_us t1 then time_us t2 + us_per_day else time_us t2)
  - time_us t1.

(** Membership of a clock time [c] in a window: with both bounds, [c] is
    on the arc from [from] forward to [to]; a window that lacks a bound
    holds every time. *)
Definition window_passes (today : Z) (from to : option time) (c : time) : Prop :=
  match from, to with
  | Some f, Some t => minutes_between today f c <= minutes_between today f t
  | _, _ => True
  end.

(** A bound, when present, is a clock time in range. *)
Definition bound_ok (b : option time) : Prop :=
  match b with Some t => time_ok t | None => True end.

(** The constraints without the four bounds of the time windows. *)
Definition without_windows {price : Type} (q : Filters price) : Filters price :=
  mkFilters (f_train_type q) (f_days q) None None None None
            (f_max_price_first q) (f_max_price_second q).

(** The bounds of the time windows the caller supplied. *)
Definition time_bounds {price : Type} (q : Filters price) : list (option string) :=
  [f_dep_time_from q; f_dep_time_to q; f_arr_time_from q; f_arr_time_to q].

(** A bound that is supplied (not empty) and that [parse_time] rejects. *)
Definition unparseable (x : option string) : Prop :=
  exists s e, x = Some s /\ s <> EmptyString /\ parse_time s = inl e.

(** Position [i] of [l] holds the first itinerary with its tuple of route
    identifiers. *)
Definition first_occurrence {price : Type} (l : list (Itinerary price))
    (i : nat) : Prop :=
  exists it, l !! i = Some it /\
    forall j it', (j < i)%nat -> l !! j = Some it' -> route_ids it' <> route_ids it.

(** [out] is [l] restricted to its first occurrences, in the order of [l]:
    [idx] lists the positions kept, increasing. *)
Definition keeps_first_occurrences {price : Type}
    (l out : list (Itinerary price)) : Prop :=
  exists idx : list nat,
    StronglySorted lt idx /\
    Forall2 (fun i it => l !! i = Some it) idx out /\
    forall i, In i idx <-> first_occurrence l i.

(** Every adjacent pair of [l] is in the relation [R]. *)
Definition adjacent_pairs {A : Type} (R : A -> A -> Prop) (l : list A) : Prop :=
  forall i a b, l !! i = Some a -> l !! S i = Some b -> R a b.

(** The route departs from the city whose name in lower case is [k]. *)
Definition departs_from {price : Type} (k : string) (r : Route price) : bool :=
  String.eqb (Str.lower (dep_city r)) k.

(** Elements decorated with their sort key: the order [Rk] of the keys on
    the decorated elements, and the decoration being the key. *)
Definition by_key_of {K A : Type} (Rk : K -> K -> Prop) (p q : K * A) : Prop :=
  Rk p.1 q.1.
Definition keyed_by {K A : Type} (key : A -> K) (p : K * A) : Prop :=
  p.1 = key p.2.

(** The two orders of the ranking. *)
Definition duration_then_price {price : Type} `{Fare price} (today : Z)
    (cls : string) (a b : Itinerary price) : Prop :=
  itinerary_duration_minutes today a < itinerary_duration_minutes today b \/
  (itinerary_duration_minutes today a = itinerary_duration_minutes today b /\
   fare_le (itinerary_price a cls) (itinerary_price b cls) = true).

Definition price_then_duration {price : Type} `{Fare price} (today : Z)
    (cls : string) (a b : Itinerary price) : Prop :=
  fare_lt (itinerary_price a cls) (itinerary_price b cls) = true \/
  (fare_eq (itinerary_price a cls) (itinerary_price b cls) = true /\
   itinerary_duration_minutes today a <= itinerary_duration_minutes today b).

End Spec.
Import Spec.

(** ** Vocabulary of the further properties *)

Module Shape.

(** A clock time without seconds, as [parse_time] yields them. *)
Definition whole_minute (t : time) : Prop :=
  second t = 0 /\ microsecond t = 0.

(** Minutes since midnight. *)
Definition minute_of_day (t : time) : Z := hour t * 60 + minute t.

(** [parse_time] reads [format_hhmm minutes] back as the hour and the
    minute of [minutes]. *)
Definition reads_back (minutes : Z) : bool :=
  match parse_time (format_hhmm minutes) with
  | inr t =>
      (hour t =? minutes / 60) && (minute t =? minutes mod 60)
      && (second t =? 0) && (microsecond t =? 0)
  | inl _ => false
  end.

(** Each leg arrives in the city the next leg departs from, the names
    compared in lower case. *)
Fixpoint legs_chain {price : Type} (ls : list (Leg price)) : Prop :=
  match ls with
  | a :: ((b :: _) as rest) =>
      Str.lower (arr_city (route a)) = Str.lower (dep_city (route b))
      /\ legs_chain rest
  | _ => True
  end.

(** The waits between consecutive legs. *)
Fixpoint waits {price : Type} (today : Z) (ls : list (Leg price)) : list Z :=
  match ls with
  | a :: ((b :: _) as rest) =>
      minutes_between today (arr_time (route a)) (dep_time (route b))
      :: waits today rest
  | _ => []
  end.

(** A constraint given as [None] or as the empty string. *)
Definition blank (x : option string) : Prop :=
  x = None \/ x = Some EmptyString.

(** No day asked for: [None] or the empty list. *)
Definition no_days (x : option (list string)) : Prop :=
  x = None \/ x = Some [].

(** The constraints without the days of the week. *)
Definition without_days {price : Type} (q : Filters price) : Filters price :=
  mkFilters (f_train_type q) None (f_dep_time_from q) (f_dep_time_to q)
            (f_arr_time_from q) (f_arr_time_to q)
            (f_max_price_first q) (f_max_price_second q).

(** The connections from [origin] to [destination] over the routes
    [filtered]: a direct route; with [max_stops >= 1], two routes with a
    wait of at least [min_transfer] between them; with [max_stops >= 2],
    three routes with such waits.  A route departs from the city the search
    or the leg before it names, in lower case. *)
Inductive connection {price : Type} (today : Z) (filtered : list (Route price))
    (origin destination : string) (max_stops min_transfer : Z)
    : Itinerary price -> Prop :=
| connection_direct r :
    In r filtered ->
    Str.lower (dep_city r) = Str.lower origin ->
    Str.lower (arr_city r) = Str.lower destination ->
    connection today filtered origin destination max_stops min_transfer
      (mkItinerary [mkLeg r] [])
| connection_one_stop r1 r2 :
    1 <= max_stops ->
    In r1 filtered -> In r2 filtered ->
    Str.lower (dep_city r1) = Str.lower origin ->
    Str.lower (dep_city r2) = Str.lower (arr_city r1) ->
    Str.lower (arr_city r2) = Str.lower destination ->
    min_transfer <= minutes_between today (arr_time r1) (dep_time r2) ->
    connection today filtered origin destination max_stops min_transfer
      (mkItinerary [mkLeg r1; mkLeg r2]
         [minutes_between today (arr_time r1) (dep_time r2)])
| connection_two_stops r1 r2 r3 :
    2 <= max_stops ->
    In r1 filtered -> In r2 filtered -> In r3 filtered ->
    Str.lower (dep_city r1) = Str.lower origin ->
    Str.lower (dep_city r2) = Str.lower (arr_city r1) ->
    Str.lower (dep_city r3) = Str.lower (arr_city r2) ->
    Str.lower (arr_city r3) = Str.lower destination ->
    min_transfer <= minutes_between today (arr_time r1) (dep_time r2) ->
    min_transfer <= minutes_between today (arr_time r2) (dep_time r3) ->
    connection today filtered origin destination max_stops min_transfer
      (mkItinerary [mkLeg r1; mkLeg r2; mkLeg r3]
         [minutes_between today (arr_time r1) (dep_time r2);
          minutes_between today (arr_time r2) (dep_time r3)]).

(** Two keys neither of which is below the other. *)
Definition tied {K : Type} (lt : K -> K -> bool) (k a : K) : bool :=
  negb (lt k a) && negb (lt a k).

(** Two itineraries that the ranking does not tell apart: equal durations
    and equal fares in the class. *)
Definition same_rank {price : Type} `{Fare price} (today : Z) (cls : string)
    (k a : Itinerary price) : bool :=
  (itinerary_duration_minutes today a =? itinerary_duration_minutes today k)
  && fare_eq (itinerary_price a cls) (itinerary_price k cls).

(** A line that [wrap] may return for a text and a width: it fits the
    width, or it is a whole field of the text between two spaces, or it is
    empty. *)
Definition wrapped_line (text : string) (width : Z) (line : string) : Prop :=
  Z.of_nat (String.length line) <= width
  \/ In line (split_on " "%char text)
  \/ line = EmptyString.

(** A text of ASCII characters only: on such a text [lower], [strip],
    [title] and the other functions of strings are those of Python. *)
Fixpoint ascii_text (s : string) : bool :=
  match s with
  | EmptyString => true
  | String c s' => (N_of_ascii c <? 128)%N && ascii_text s'
  end.

End Shape.
Import Shape.

(** ** Examples *)

Example parse_time_colon : parse_time " 08:05 " = inr (hm 8 5).
Proof. reflexivity. Qed.
Example parse_time_compact : parse_time "930" = inr (hm 9 30).
Proof. reflexivity. Qed.
Example parse_time_dot : parse_time "23.59" = inr (hm 23 59).
Proof. reflexivity. Qed.
Example parse_time_bad :
  parse_time "25:00" = inl (ValueError_unrecognized_time_format "25:00").
Proof. reflexivity. Qed.
Example title_words : Str.title "hello wORLD-x1y" = "Hello World-X1Y".
Proof. reflexivity. Qed.
Example day_token_alias : day_token " saturday " = "Sat".
Proof. vm_compute. reflexivity. Qed.

(** ** Time arithmetic *)

Section TimeFacts.
Implicit Types t : time.

Lemma time_us_range t : time_ok t -> 0 <= time_us t < us_per_day.
Proof.
  unfold time_ok, time_us, us_per_day. intros (Hh & Hm & Hs & Hu). lia.
Qed.

Lemma minutes_between_clock today t1 t2 :
  minutes_between today t1 t2 = whole_minutes (clock_gap t1 t2).
Proof.
  unfold minutes_between, clock_gap, combine. f_equal.
  destruct (Z.ltb_spec (today * us_per_day + time_us t2)
                       (today * us_per_day + time_us t1));
    destruct (Z.ltb_spec (time_us t2) (time_us t1)); lia.
Qed.

Lemma clock_gap_range t1 t2 :
  time_ok t1 -> time_ok t2 -> 0 <= clock_gap t1 t2 < us_per_day.
Proof.
  intros H1 H2. apply time_us_range in H1, H2. unfold clock_gap.
  destruct (Z.ltb_spec (time_us t2) (time_us t1)); lia.
Qed.

Lemma minutes_between_range today t1 t2 :
  time_ok t1 -> time_ok t2 -> 0 <= minutes_between today t1 t2 <= 1439.
Proof.
  intros H1 H2. rewrite minutes_between_clock.
  pose proof (clock_gap_range t1 t2 H1 H2) as Hg.
  unfold whole_minutes, us_per_minute, us_per_day in *. split.
  - apply Z.div_pos; lia.
  - assert (clock_gap t1 t2 / 60000000 < 1440); [|lia].
    apply Z.div_lt_upper_bound; lia.
Qed.

Lemma minutes_between_today today t1 t2 :
  minutes_between today t1 t2 = minutes_between 0 t1 t2.
Proof. by rewrite !minutes_between_clock. Qed.
End TimeFacts.

(** C5: for valid clock times the minute distance lies in [[0, 1439]], it
    is [0] from a time to itself, and when [t2] is earlier than [t1] on
    the clock it is the distance wrapped forward by 24 hours. *)
Theorem C5_minutes_between_range (today : Z) (t1 t2 : time) :
  time_ok t1 -> time_ok t2 ->
  0 <= minutes_between today t1 t2 <= 1439 /\
  minutes_between today t1 t1 = 0 /\
  (time_us t2 < time_us t1 ->
   minutes_between today t1 t2
   = whole_minutes (time_us t2 + 24 * 60 * us_per_minute - time_us t1)).
Proof.
  intros H1 H2. split; [by apply minutes_between_range|]. split.
  - rewrite minutes_between_clock. unfold clock_gap.
    rewrite Z.ltb_irrefl, Z.sub_diag. reflexivity.
  - intros Hlt. rewrite minutes_between_clock. unfold clock_gap.
    apply Z.ltb_lt in Hlt. rewrite Hlt. reflexivity.
Qed.

Lemma C5_witness :
  time_ok (hm 23 0) /\ time_ok (hm 1 0) /\
  (0 <= minutes_between a_day (hm 23 0) (hm 1 0) <= 1439 /\
   minutes_between a_day (hm 23 0) (hm 23 0) = 0 /\
   (time_us (hm 1 0) < time_us (hm 23 0) ->
    minutes_between a_day (hm 23 0) (hm 1 0)
    = whole_minutes (time_us (hm 1 0) + 24 * 60 * us_per_minute
                     - time_us (hm 23 0)))).
Proof.
  assert (Ha : time_ok (hm 23 0)) by (unfold time_ok; simpl; lia).
  assert (Hb : time_ok (hm 1 0)) by (unfold time_ok; simpl; lia).
  split; [exact Ha|]. split; [exact Hb|].
  exact (C5_minutes_between_range a_day (hm 23 0) (hm 1 0) Ha Hb).
Defined.

(** C6: the duration of a route is the minute distance from its departure
    time to its arrival time; a day is added when the arrival is earlier on
    the clock, so the night train 23:00 -> 01:00 lasts 120 minutes. *)
Theorem C6_duration_is_minutes_between {price : Type} (today : Z)
    (r : Route price) :
  duration_minutes today r
  = minutes_between today (dep_time r) (arr_time r) /\
  duration_minutes today r
  = whole_minutes
      ((if time_us (arr_time r) <? time_us (dep_time r)
        then time_us (arr_time r) + us_per_day
        else time_us (arr_time r))
       - time_us (dep_time r)) /\
  duration_minutes today R3 = 120.
Proof.
  assert (Hd : forall r' : Route price, duration_minutes today r'
             = minutes_between today (dep_time r') (arr_time r'))
    by reflexivity.
  split; [apply Hd|]. split.
  - rewrite Hd, minutes_between_clock. reflexivity.
  - change (minutes_between today (hm 23 0) (hm 1 0) = 120).
    rewrite minutes_between_clock. reflexivity.
Qed.

(** ** The date read from the clock does not matter *)

Section DateFacts.
Context {price : Type} `{Fare price}.
Implicit Types (r : Route price) (it : Itinerary price).
Implicit Types (routes : list (Route price)) (q : Filters price).
Implicit Types m : gmap string (list (Route price)).

Lemma duration_minutes_today today r :
  duration_minutes today r = duration_minutes 0 r.
Proof. apply minutes_between_today. Qed.

Lemma itinerary_duration_today today it :
  itinerary_duration_minutes today it = itinerary_duration_minutes 0 it.
Proof.
  unfold itinerary_duration_minutes. do 2 f_equal.
  apply map_ext. intros l. apply duration_minutes_today.
Qed.

Lemma route_kept_today today dcn acn ttn ds dtf dtt atf att mpf mps r :
  route_kept today dcn acn ttn ds dtf dtt atf att mpf mps r
  = route_kept 0 dcn acn ttn ds dtf dtt atf att mpf mps r.
Proof.
  unfold route_kept, dep_window_skips, arr_window_skips.
  destruct dtf as [f|], dtt as [t|], atf as [f'|], att as [t'|];
    rewrite ?(minutes_between_today today); reflexivity.
Qed.

Lemma filter_routes_today today routes fc tc q :
  filter_routes today routes fc tc q = filter_routes 0 routes fc tc q.
Proof.
  unfold filter_routes.
  repeat match goal with
         | |- context [parse_time_if ?x] => destruct (parse_time_if x); [reflexivity|]
         end.
  f_equal. apply filter_ext. intros r. apply route_kept_today.
Qed.

Lemma one_stop_phase_today today m fc tc mt :
  one_stop_phase today m fc tc mt = one_stop_phase 0 m fc tc mt.
Proof.
  unfold one_stop_phase. apply flat_map_ext. intros r1.
  apply flat_map_ext. intros r2.
  by rewrite (minutes_between_today today).
Qed.

Lemma two_stop_phase_today today m fc tc mt :
  two_stop_phase today m fc tc mt = two_stop_phase 0 m fc tc mt.
Proof.
  unfold two_stop_phase. apply flat_map_ext. intros r1.
  apply flat_map_ext. intros r2.
  rewrite (minutes_between_today today). cbv zeta.
  destruct (_ <? mt); [reflexivity|].
  apply flat_map_ext. intros r3.
  by rewrite (minutes_between_today today).
Qed.

Lemma enumerate_today today m fc tc ms mt :
  enumerate today m fc tc ms mt = enumerate 0 m fc tc ms mt.
Proof.
  unfold enumerate.
  by rewrite one_stop_phase_today, two_stop_phase_today.
Qed.

Lemma find_connected_itineraries_today today routes fc tc ms mt q :
  find_connected_itineraries today routes fc tc ms mt q
  = find_connected_itineraries 0 routes fc tc ms mt q.
Proof.
  unfold find_connected_itineraries.
  rewrite filter_routes_today.
  destruct (filter_routes 0 routes None None q); [reflexivity|].
  by rewrite enumerate_today.
Qed.

Lemma sort_by_key_ext {K A : Type} (lt : K -> K -> bool) (k1 k2 : A -> K) l :
  (forall a, k1 a = k2 a) -> sort_by_key lt k1 l = sort_by_key lt k2 l.
Proof.
  intros Hk. unfold sort_by_key. do 2 f_equal.
  apply map_ext. intros a. by rewrite Hk.
Qed.

Lemma search_itineraries_today today routes fc tc q cls ms mt sort_by limit :
  search_itineraries today routes fc tc q cls ms mt sort_by limit
  = search_itineraries 0 routes fc tc q cls ms mt sort_by limit.
Proof.
  unfold search_itineraries.
  rewrite find_connected_itineraries_today.
  destruct (find_connected_itineraries 0 _ _ _ _ _ _) as [e|its];
    [reflexivity|].
  destruct (String.eqb sort_by "price").
  - rewrite (sort_by_key_ext _ _
               (fun it => (itinerary_price it cls, itinerary_duration_minutes 0 it)));
      [reflexivity|].
    intros it. by rewrite itinerary_duration_today.
  - rewrite (sort_by_key_ext _ _
               (fun it => (itinerary_duration_minutes 0 it, itinerary_price it cls)));
      [reflexivity|].
    intros it. by rewrite itinerary_duration_today.
Qed.
End DateFacts.

(** When both reads of [datetime.today()] fall on one date, the date
    cancels out: evaluated on two dates, [minutes_between] and
    [Route.duration_minutes] agree, and so do the filter, the connection
    search and the ranked search. *)
Lemma one_date_cancels {price : Type} `{Fare price} (day1 day2 : Z)
    (t1 t2 : time) (r : Route price) (routes : list (Route price))
    (from_city to_city : option string) (origin destination : string)
    (max_stops min_transfer : Z) (q : Filters price)
    (cls sort_by : string) (limit : option Z) :
  minutes_between day1 t1 t2 = minutes_between day2 t1 t2 /\
  duration_minutes day1 r = duration_minutes day2 r /\
  filter_routes day1 routes from_city to_city q
  = filter_routes day2 routes from_city to_city q /\
  find_connected_itineraries day1 routes origin destination max_stops min_transfer q
  = find_connected_itineraries day2 routes origin destination max_stops min_transfer q /\
  search_itineraries day1 routes from_city to_city q cls max_stops min_transfer sort_by limit
  = search_itineraries day2 routes from_city to_city q cls max_stops min_transfer sort_by limit.
Proof.
  repeat split.
  - by rewrite (minutes_between_today day1), (minutes_between_today day2).
  - by rewrite (duration_minutes_today day1), (duration_minutes_today day2).
  - by rewrite (filter_routes_today day1), (filter_routes_today day2).
  - by rewrite (find_connected_itineraries_today day1),
       (find_connected_itineraries_today day2).
  - by rewrite (search_itineraries_today day1), (search_itineraries_today day2).
Qed.

(** ** The two reads of the clock *)

Section ReadsFacts.
Implicit Types t : time.

(** With both reads on one date before the last, the two-read functions
    return what the one-date functions return. *)
Lemma minutes_between_one_date today t1 t2 :
  today < max_ordinal ->
  minutes_between_reads today today t1 t2
  = Returns (minutes_between today t1 t2).
Proof.
  intros Hd. unfold minutes_between_reads, minutes_between. cbv zeta.
  destruct (combine today t2 <? combine today t1); [|done].
  by rewrite (proj2 (Z.ltb_ge _ _)) by lia.
Qed.

Lemma duration_minutes_one_date {price : Type} today (r : Route price) :
  today < max_ordinal ->
  duration_minutes_reads today today r = Returns (duration_minutes today r).
Proof.
  intros Hd. unfold duration_minutes_reads, duration_minutes. cbv zeta.
  destruct (combine today (arr_time r) <? combine today (dep_time r)); [|done].
  by rewrite (proj2 (Z.ltb_ge _ _)) by lia.
Qed.

(** The second read one date after the first: no day is added, the date
    of the second read has added it. *)
Lemma whole_minutes_next_date today t1 t2 :
  time_us t1 <= time_us t2 ->
  (combine (today + 1) t2 <? combine today t1) = false /\
  (combine today t2 <? combine today t1) = false /\
  whole_minutes (combine (today + 1) t2 - combine today t1)
  = whole_minutes (combine today t2 - combine today t1) + 1440.
Proof.
  intros Hle. unfold combine, whole_minutes.
  split; [apply Z.ltb_ge; unfold us_per_day; lia|].
  split; [apply Z.ltb_ge; lia|].
  replace ((today + 1) * us_per_day + time_us t2
           - (today * us_per_day + time_us t1))
    with (1440 * us_per_minute
          + (today * us_per_day + time_us t2
             - (today * us_per_day + time_us t1)))
    by (unfold us_per_day, us_per_minute; lia).
  rewrite Z.add_comm, Z.div_add by done. reflexivity.
Qed.
End ReadsFacts.

(** C10: the results do depend on the dates the clock is read on.  When
    the date changes between the two reads of [datetime.today()] of one
    evaluation, [minutes_between] and [Route.duration_minutes] return, for
    a second time not earlier on the clock than the first, 1440 minutes
    more than with both reads on one date: 1440 from 08:00 to 08:00, where
    every other evaluation returns 0. *)
Theorem C10_reads_on_two_dates {price : Type} (today : Z) (t1 t2 : time)
    (r : Route price) :
  time_us t1 <= time_us t2 ->
  time_us (dep_time r) <= time_us (arr_time r) ->
  minutes_between_reads today today t1 t2
  = Returns (minutes_between today t1 t2) /\
  minutes_between_reads today (today + 1) t1 t2
  = Returns (minutes_between today t1 t2 + 1440) /\
  duration_minutes_reads today today r = Returns (duration_minutes today r) /\
  duration_minutes_reads today (today + 1) r
  = Returns (duration_minutes today r + 1440) /\
  minutes_between_reads a_day a_day (hm 8 0) (hm 8 0) = Returns 0 /\
  minutes_between_reads a_day (a_day + 1) (hm 8 0) (hm 8 0) = Returns 1440.
Proof.
  intros Ht Hr.
  destruct (whole_minutes_next_date today t1 t2 Ht) as (E1 & E2 & E3).
  destruct (whole_minutes_next_date today (dep_time r) (arr_time r) Hr)
    as (F1 & F2 & F3).
  unfold minutes_between_reads, duration_minutes_reads, minutes_between,
    duration_minutes. cbv zeta.
  rewrite E1, E2, E3, F1, F2, F3. repeat split; reflexivity.
Qed.

Lemma C10_witness :
  time_us (hm 8 0) <= time_us (hm 10 0) /\
  time_us (dep_time R1) <= time_us (arr_time R1) /\
  minutes_between_reads a_day a_day (hm 8 0) (hm 10 0)
  = Returns (minutes_between a_day (hm 8 0) (hm 10 0)) /\
  minutes_between_reads a_day (a_day + 1) (hm 8 0) (hm 10 0)
  = Returns (minutes_between a_day (hm 8 0) (hm 10 0) + 1440) /\
  duration_minutes_reads a_day a_day R1 = Returns (duration_minutes a_day R1) /\
  duration_minutes_reads a_day (a_day + 1) R1
  = Returns (duration_minutes a_day R1 + 1440) /\
  minutes_between_reads a_day a_day (hm 8 0) (hm 8 0) = Returns 0 /\
  minutes_between_reads a_day (a_day + 1) (hm 8 0) (hm 8 0) = Returns 1440.
Proof.
  assert (Ht : time_us (hm 8 0) <= time_us (hm 10 0)) by (by vm_compute).
  assert (Hr : time_us (dep_time R1) <= time_us (arr_time R1))
    by (by vm_compute).
  split; [exact Ht|]. split; [exact Hr|].
  exact (C10_reads_on_two_dates a_day (hm 8 0) (hm 10 0) R1 Ht Hr).
Defined.

(** On the last date of the calendar a wrap past midnight has no next day. *)
Example last_date_overflow :
  minutes_between_reads max_ordinal max_ordinal (hm 23 0) (hm 1 0)
  = Raises_OverflowError.
Proof. reflexivity. Qed.

(** ** Parsing yields clock times *)

Section ParseFacts.
Lemma digit_range c x : digit c = Some x -> 0 <= x <= 9.
Proof.
  unfold digit. destruct (_ && _)%bool eqn:E; [|discriminate].
  intros [= <-]. apply andb_prop in E as [E1 E2].
  apply N.leb_le in E1, E2. lia.
Qed.

Lemma match_M_range s m rest :
  match_M s = Some (m, rest) -> 0 <= m < 60.
Proof.
  unfold match_M. destruct s as [|a [|b s']].
  - discriminate.
  - destruct (digit a) as [x|] eqn:Ea; [|discriminate].
    intros [= <- _]. apply digit_range in Ea. lia.
  - destruct (digit a) as [x|] eqn:Ea; [|discriminate].
    apply digit_range in Ea.
    destruct (digit b) as [y|] eqn:Eb.
    + apply digit_range in Eb.
      destruct (Z.leb_spec x 5); intros [= <- _]; lia.
    + intros [= <- _]. lia.
Qed.

Lemma H_alt1_range s h rest : H_alt1 s = Some (h, rest) -> 0 <= h < 24.
Proof.
  unfold H_alt1. destruct s as [|a [|b s']]; try discriminate.
  destruct (digit a) as [x|] eqn:Ea; [|discriminate].
  destruct (digit b) as [y|] eqn:Eb; [|discriminate].
  apply digit_range in Ea, Eb.
  destruct (_ && _)%bool eqn:E; [|discriminate].
  apply andb_prop in E as [E1 E2].
  apply Z.eqb_eq in E1. apply Z.leb_le in E2.
  intros [= <- _]. lia.
Qed.

Lemma H_alt2_range s h rest : H_alt2 s = Some (h, rest) -> 0 <= h < 24.
Proof.
  unfold H_alt2. destruct s as [|a [|b s']]; try discriminate.
  destruct (digit a) as [x|] eqn:Ea; [|discriminate].
  destruct (digit b) as [y|] eqn:Eb; [|discriminate].
  apply digit_range in Ea, Eb.
  destruct (Z.leb_spec x 1); [|discriminate].
  intros [= <- _]. lia.
Qed.

Lemma H_alt3_range s h rest : H_alt3 s = Some (h, rest) -> 0 <= h < 24.
Proof.
  unfold H_alt3. destruct s as [|a s']; [discriminate|].
  destruct (digit a) as [x|] eqn:Ea; [|discriminate].
  apply digit_range in Ea. intros [= <- _]. lia.
Qed.

Lemma try_H_range alt sep s h m rest :
  (forall s' h' rest', alt s' = Some (h', rest') -> 0 <= h' < 24) ->
  try_H alt sep s = Some (h, m, rest) -> 0 <= h < 24 /\ 0 <= m < 60.
Proof.
  intros Halt. unfold try_H.
  destruct (alt s) as [[h' r']|] eqn:Ea; [|discriminate].
  destruct (after_H sep r') as [[m' r'']|] eqn:Em; [|discriminate].
  intros [= <- <- _]. split; [by eapply Halt|].
  unfold after_H in Em. destruct sep as [c|].
  - destruct r' as [|c' r']; [discriminate|].
    destruct (Ascii.eqb c c'); [|discriminate].
    by eapply match_M_range.
  - by eapply match_M_range.
Qed.

Lemma strptime_time_ok sep s t : strptime_time sep s = Some t -> time_ok t.
Proof.
  unfold strptime_time.
  assert (Hok : forall h m, 0 <= h < 24 /\ 0 <= m < 60 -> time_ok (hm h m))
    by (unfold time_ok, hm; simpl; lia).
  destruct (try_H H_alt1 sep s) as [[[h m] r]|] eqn:E1.
  { destruct r; [|discriminate]. intros [= <-]. apply Hok.
    eapply try_H_range; [apply H_alt1_range|exact E1]. }
  destruct (try_H H_alt2 sep s) as [[[h m] r]|] eqn:E2.
  { destruct r; [|discriminate]. intros [= <-]. apply Hok.
    eapply try_H_range; [apply H_alt2_range|exact E2]. }
  destruct (try_H H_alt3 sep s) as [[[h m] r]|] eqn:E3; [|discriminate].
  destruct r; [|discriminate]. intros [= <-]. apply Hok.
  eapply try_H_range; [apply H_alt3_range|exact E3].
Qed.

Lemma parse_time_ok s t : parse_time s = inr t -> time_ok t.
Proof.
  unfold parse_time.
  destruct (strptime_time (Some ":"%char) _) eqn:E1;
    [intros [= <-]; by eapply strptime_time_ok|].
  destruct (strptime_time (Some "."%char) _) eqn:E2;
    [intros [= <-]; by eapply strptime_time_ok|].
  destruct (strptime_time None _) eqn:E3; [|discriminate].
  intros [= <-]. by eapply strptime_time_ok.
Qed.

(** The error of [parse_time] quotes the stripped input. *)
Lemma parse_time_error s e :
  parse_time s = inl e ->
  e = ValueError_unrecognized_time_format (Str.strip s).
Proof.
  unfold parse_time.
  repeat (destruct (strptime_time _ _); [discriminate|]).
  by intros [= <-].
Qed.

Lemma parse_time_if_ok x t : parse_time_if x = inr (Some t) -> time_ok t.
Proof.
  unfold parse_time_if. destruct x as [s|]; [|discriminate].
  destruct (Str.truthy s); [|discriminate].
  destruct (parse_time s) eqn:E; [discriminate|].
  intros [= <-]. by eapply parse_time_ok.
Qed.
End ParseFacts.

(** ** The route filter *)

Section FilterFacts.
Context {price : Type} `{Fare price}.
Implicit Types (r : Route price) (routes : list (Route price)).
Implicit Types (q : Filters price) (dtf dtt atf att : option time).

Lemma dep_window_skips_spec today dtf dtt r :
  bound_ok dtf -> bound_ok dtt -> time_ok (dep_time r) ->
  dep_window_skips today dtf dtt r = false
  <-> window_passes today dtf dtt (dep_time r).
Proof.
  intros Hf Ht Hr. unfold dep_window_skips, window_passes.
  destruct dtf as [f|]; [|done]. simpl in Hf.
  pose proof (minutes_between_range today f (dep_time r) Hf Hr) as Hmin.
  destruct (Z.ltb_spec (minutes_between today f (dep_time r)) 0); [lia|].
  destruct dtt as [t|]; [|done]. simpl in Ht.
  pose proof (minutes_between_range today f t Hf Ht) as Hmax.
  cbv zeta. unfold Z.geb.
  destruct (Z.compare_spec (minutes_between today f t) 0); try lia;
    rewrite negb_false_iff, andb_true_iff, !Z.leb_le; lia.
Qed.

Lemma arr_window_skips_spec today atf att r :
  bound_ok atf -> bound_ok att -> time_ok (arr_time r) ->
  arr_window_skips today atf att r = false
  <-> window_passes today atf att (arr_time r).
Proof.
  intros Hf Ht Hr. unfold arr_window_skips, window_passes.
  destruct atf as [f|]; [|done]. destruct att as [t|]; [|done].
  simpl in Hf, Ht.
  pose proof (minutes_between_range today f (arr_time r) Hf Hr) as Hmin.
  pose proof (minutes_between_range today f t Hf Ht) as Hmax.
  cbv zeta. unfold Z.geb.
  destruct (Z.compare_spec (minutes_between today f t) 0); try lia;
    rewrite negb_false_iff, andb_true_iff, !Z.leb_le; lia.
Qed.

Lemma route_kept_windows today dcn acn ttn ds dtf dtt atf att mpf mps r :
  bound_ok dtf -> bound_ok dtt -> bound_ok atf -> bound_ok att ->
  time_ok (dep_time r) -> time_ok (arr_time r) ->
  route_kept today dcn acn ttn ds dtf dtt atf att mpf mps r = true
  <-> route_kept today dcn acn ttn ds None None None None mpf mps r = true
      /\ window_passes today dtf dtt (dep_time r)
      /\ window_passes today atf att (arr_time r).
Proof.
  intros Hdf Hdt Haf Hat Hd Ha.
  rewrite <- (dep_window_skips_spec today dtf dtt r Hdf Hdt Hd).
  rewrite <- (arr_window_skips_spec today atf att r Haf Hat Ha).
  unfold route_kept.
  repeat (match goal with
          | |- context [if ?b then false else _] =>
              lazymatch b with
              | dep_window_skips _ _ _ _ => fail
              | arr_window_skips _ _ _ _ => fail
              | _ => destruct b; [intuition discriminate|]
              end
          end).
  change (dep_window_skips today None None r) with false.
  change (arr_window_skips today None None r) with false. cbv iota.
  destruct (dep_window_skips today dtf dtt r),
           (arr_window_skips today atf att r); intuition discriminate.
Qed.

Lemma filter_routes_succeeds today routes fc tc q dtf dtt atf att :
  parse_time_if (f_dep_time_from q) = inr dtf ->
  parse_time_if (f_dep_time_to q) = inr dtt ->
  parse_time_if (f_arr_time_from q) = inr atf ->
  parse_time_if (f_arr_time_to q) = inr att ->
  filter_routes today routes fc tc q
  = inr (List.filter
           (route_kept today (lower_if fc) (lower_if tc)
              (lower_if (f_train_type q)) (day_set_of (f_days q))
              dtf dtt atf att (f_max_price_first q) (f_max_price_second q))
           routes).
Proof. intros E1 E2 E3 E4. unfold filter_routes. by rewrite E1, E2, E3, E4. Qed.

Lemma filter_routes_subset today routes fc tc q out r :
  filter_routes today routes fc tc q = inr out -> In r out -> In r routes.
Proof.
  unfold filter_routes.
  repeat (destruct (parse_time_if _); [discriminate|]).
  intros [= <-] Hin. by apply filter_In in Hin as [? _].
Qed.
End FilterFacts.

(** C1: with both bounds of a window supplied, a route passes the check of
    that window exactly when its time lies on the arc from [from] forward
    to [to], [minutes_between(from, time) <= minutes_between(from, to)];
    a window with only one bound supplied restricts nothing.  The routes
    [filter_routes] returns are those it returns without the windows that
    pass both windows. *)
Theorem C1_time_windows {price : Type} `{Fare price} (today : Z)
    (routes : list (Route price)) (from_city to_city : option string)
    (q : Filters price) (dtf dtt atf att : option time) :
  parse_time_if (f_dep_time_from q) = inr dtf ->
  parse_time_if (f_dep_time_to q) = inr dtt ->
  parse_time_if (f_arr_time_from q) = inr atf ->
  parse_time_if (f_arr_time_to q) = inr att ->
  (forall r, In r routes -> time_ok (dep_time r) /\ time_ok (arr_time r)) ->
  exists out out0,
    filter_routes today routes from_city to_city q = inr out /\
    filter_routes today routes from_city to_city (without_windows q) = inr out0 /\
    forall r, In r out <->
      In r out0 /\
      window_passes today dtf dtt (dep_time r) /\
      window_passes today atf att (arr_time r).
Proof.
  intros E1 E2 E3 E4 Hok.
  eexists _, _. split; [by apply filter_routes_succeeds|].
  split; [by apply (filter_routes_succeeds _ _ _ _ _ None None None None)|].
  intros r. simpl. rewrite !filter_In.
  assert (Hb : forall x b, parse_time_if x = inr b -> bound_ok b).
  { intros x [t|] Hx; [|done]. by eapply parse_time_if_ok. }
  split.
  - intros [Hin Hk]. destruct (Hok r Hin) as [Hd Ha].
    apply route_kept_windows in Hk; eauto. tauto.
  - intros ([Hin Hk] & Hw1 & Hw2). destruct (Hok r Hin) as [Hd Ha].
    split; [done|]. apply route_kept_windows; eauto.
Qed.

Lemma C1_witness :
  exists out out0,
    filter_routes a_day [R1; R2; R3] None None night_window = inr out /\
    filter_routes a_day [R1; R2; R3] None None (without_windows night_window)
    = inr out0 /\
    forall r, In r out <->
      In r out0 /\
      window_passes a_day (Some (hm 22 0)) (Some (hm 2 0)) (dep_time r) /\
      window_passes a_day None None (arr_time r).
Proof.
  apply (C1_time_windows a_day [R1; R2; R3] None None night_window
           (Some (hm 22 0)) (Some (hm 2 0)) None None); try reflexivity.
  intros r [<-|[<-|[<-|[]]]]; unfold time_ok; simpl; lia.
Defined.

(** ** Invalid constraint values *)

Section ErrorFacts.
Context {price : Type} `{Fare price}.
Implicit Types (routes : list (Route price)) (q : Filters price).

Lemma parse_time_if_inl x e :
  parse_time_if x = inl e ->
  exists s, x = Some s /\ s <> EmptyString /\ parse_time s = inl e.
Proof.
  unfold parse_time_if. destruct x as [s|]; [|discriminate].
  destruct s as [|c s]; [discriminate|]. simpl.
  destruct (parse_time (String c s)) eqn:E; [|discriminate].
  intros [= <-]. by exists (String c s).
Qed.

Lemma parse_time_if_inr x b : parse_time_if x = inr b -> ~ unparseable x.
Proof.
  unfold parse_time_if. intros Hx (s & e & -> & Hs & He).
  destruct s as [|c s]; [done|]. simpl in Hx. by rewrite He in Hx.
Qed.

Lemma filter_routes_inl today routes fc tc q e :
  filter_routes today routes fc tc q = inl e ->
  exists s, In (Some s) (time_bounds q) /\ s <> EmptyString /\ parse_time s = inl e.
Proof.
  unfold filter_routes, time_bounds.
  destruct (parse_time_if (f_dep_time_from q)) as [e1|dtf] eqn:E1.
  { intros [= <-]. apply parse_time_if_inl in E1 as (s & Hs & ? & ?).
    exists s. rewrite <- Hs. simpl. tauto. }
  destruct (parse_time_if (f_dep_time_to q)) as [e2|dtt] eqn:E2.
  { intros [= <-]. apply parse_time_if_inl in E2 as (s & Hs & ? & ?).
    exists s. rewrite <- Hs. simpl. tauto. }
  destruct (parse_time_if (f_arr_time_from q)) as [e3|atf] eqn:E3.
  { intros [= <-]. apply parse_time_if_inl in E3 as (s & Hs & ? & ?).
    exists s. rewrite <- Hs. simpl. tauto. }
  destruct (parse_time_if (f_arr_time_to q)) as [e4|att] eqn:E4.
  { intros [= <-]. apply parse_time_if_inl in E4 as (s & Hs & ? & ?).
    exists s. rewrite <- Hs. simpl. tauto. }
  discriminate.
Qed.

Lemma filter_routes_inr today routes fc tc q out :
  filter_routes today routes fc tc q = inr out ->
  forall x, In x (time_bounds q) -> ~ unparseable x.
Proof.
  unfold filter_routes, time_bounds.
  destruct (parse_time_if (f_dep_time_from q)) as [e1|dtf] eqn:E1;
    [discriminate|].
  destruct (parse_time_if (f_dep_time_to q)) as [e2|dtt] eqn:E2;
    [discriminate|].
  destruct (parse_time_if (f_arr_time_from q)) as [e3|atf] eqn:E3;
    [discriminate|].
  destruct (parse_time_if (f_arr_time_to q)) as [e4|att] eqn:E4;
    [discriminate|].
  intros _ x [<-|[<-|[<-|[<-|[]]]]]; by eapply parse_time_if_inr.
Qed.

(** Whether the filter fails, and how, does not depend on the cities. *)
Lemma filter_routes_inl_cities today routes fc tc fc' tc' q e :
  filter_routes today routes fc tc q = inl e ->
  filter_routes today routes fc' tc' q = inl e.
Proof.
  unfold filter_routes.
  repeat (destruct (parse_time_if _); [done|]). discriminate.
Qed.
End ErrorFacts.

(** C8, as the code has it: a supplied bound of a time window that is not
    empty and that [parse_time] rejects makes the filter, the connection
    search and the ranked search fail at once with the [ValueError] that
    quotes the bound (stripped).  Nothing else makes them fail: when every
    bound that is not empty parses, the three return normally, whatever the
    day tokens.  A bound given as the empty string is not parsed, it
    counts as absent; a day token outside [DAY_ALIASES] is not rejected, it
    enters the requested set of days in title case. *)
Theorem C8_unparseable_bound_fails {price : Type} `{Fare price} (today : Z)
    (routes : list (Route price)) (from_city to_city : option string)
    (origin destination : string) (q : Filters price)
    (cls sort_by : string) (max_stops min_transfer : Z) (limit : option Z) :
  ((exists x, In x (time_bounds q) /\ unparseable x) ->
   exists s, In (Some s) (time_bounds q) /\ s <> EmptyString /\
     let e := ValueError_unrecognized_time_format (Str.strip s) in
     parse_time s = inl e /\
     filter_routes today routes from_city to_city q = inl e /\
     find_connected_itineraries today routes origin destination
       max_stops min_transfer q = inl e /\
     search_itineraries today routes from_city to_city q cls
       max_stops min_transfer sort_by limit = inl e) /\
  ((forall x, In x (time_bounds q) -> ~ unparseable x) ->
   (exists out, filter_routes today routes from_city to_city q = inr out) /\
   (exists out,
      find_connected_itineraries today routes origin destination
        max_stops min_transfer q = inr out) /\
   (exists out,
      search_itineraries today routes from_city to_city q cls
        max_stops min_transfer sort_by limit = inr out)) /\
  (parse_time EmptyString
   = inl (ValueError_unrecognized_time_format EmptyString) /\
   parse_time_if (Some EmptyString) = inr None /\
   ~ unparseable (Some EmptyString)) /\
  (forall d, DAY_ALIASES !! Str.lower (Str.strip d) = None ->
             day_token d = Str.title (Str.strip d)).
Proof.
  assert (Hreturns : forall fc tc,
            (forall x, In x (time_bounds q) -> ~ unparseable x) ->
            exists out, filter_routes today routes fc tc q = inr out).
  { intros fc tc Hgood.
    destruct (filter_routes today routes fc tc q) as [e|out] eqn:E;
      [|by exists out].
    destruct (filter_routes_inl _ _ _ _ _ _ E) as (s & Hin & Hne & Hp).
    destruct (Hgood _ Hin). by exists s, e. }
  split; [|split; [|split]].
  - intros (x & Hx & Hbad).
    destruct (filter_routes today routes from_city to_city q) as [e|out] eqn:E.
    + destruct (filter_routes_inl _ _ _ _ _ _ E) as (s & Hin & Hne & Hp).
      pose proof (parse_time_error _ _ Hp) as ->.
      exists s. repeat split; try done.
      * unfold find_connected_itineraries.
        by rewrite (filter_routes_inl_cities _ _ _ _ None None _ _ E).
      * unfold search_itineraries, find_connected_itineraries.
        by rewrite (filter_routes_inl_cities _ _ _ _ None None _ _ E).
    + by destruct (filter_routes_inr _ _ _ _ _ _ E x Hx).
  - intros Hgood. split; [by apply Hreturns|].
    destruct (Hreturns None None Hgood) as [filtered Hf].
    split.
    + unfold find_connected_itineraries. rewrite Hf. by eexists.
    + unfold search_itineraries, find_connected_itineraries. rewrite Hf.
      by eexists.
  - split; [reflexivity|]. split; [reflexivity|].
    by intros (s & e & [= <-] & Hne & _).
  - intros d Hd. unfold day_token. by rewrite Hd.
Qed.

Lemma C8_witness :
  exists s, In (Some s) (time_bounds two_am) /\ s <> EmptyString /\
    let e := ValueError_unrecognized_time_format (Str.strip s) in
    parse_time s = inl e /\
    filter_routes a_day [R1; R2; R3] None None two_am = inl e /\
    find_connected_itineraries a_day [R1; R2; R3] "Paris" "Nice" 2 10 two_am
    = inl e /\
    search_itineraries a_day [R1; R2; R3] (Some "Paris") (Some "Nice") two_am
      "second" 2 10 "duration" (Some 50) = inl e.
Proof.
  apply (proj1 (C8_unparseable_bound_fails a_day [R1; R2; R3] None None
                  "Paris" "Nice" two_am "second" "duration" 2 10 (Some 50))).
  exists (Some " 2 am "). split; [simpl; tauto|].
  exists " 2 am ", (ValueError_unrecognized_time_format "2 am").
  split; [reflexivity|]. split; [discriminate|reflexivity].
Defined.

(** C8 as stated fails on the day tokens and on the empty bound: the token
    [Funday] is no key of [DAY_ALIASES], and the calls return normally,
    with no route; the bound given as the empty string is rejected by
    [parse_time], and the calls return normally, the window ignored. *)
Lemma C8_unknown_day_token_accepted :
  DAY_ALIASES !! Str.lower (Str.strip "Funday") = None /\
  filter_routes a_day [R1; R2; R3] None None funday = inr [] /\
  ~ (exists e, search_itineraries a_day [R1; R2; R3] (Some "Paris")
                 (Some "Nice") funday "second" 2 10 "duration" (Some 50)
               = inl e) /\
  (exists e, parse_time EmptyString = inl e) /\
  filter_routes a_day [R1; R2; R3] None None empty_bound
  = inr [R1; R2; R3] /\
  ~ (exists e, search_itineraries a_day [R1; R2; R3] (Some "Paris")
                 (Some "Nice") empty_bound "second" 2 10 "duration" (Some 50)
               = inl e).
Proof.
  split; [by vm_compute|]. split; [by vm_compute|].
  split; [intros [e He]; vm_compute in He; discriminate|].
  split; [by eexists|]. split; [by vm_compute|].
  intros [e He]. vm_compute in He. discriminate.
Qed.

(** ** The index by departure city *)

Section IndexFacts.
Context {price : Type}.
Implicit Types (r : Route price) (l : list (Route price)).
Implicit Types m : gmap string (list (Route price)).

Lemma index_add_lookup m r k :
  default [] (index_add m r !! k)
  = (default [] (m !! k) ++ (if departs_from k r then [r] else []))%list.
Proof.
  unfold index_add, departs_from. cbv zeta. rewrite lookup_insert.
  destruct (String.eqb_spec (Str.lower (dep_city r)) k) as [->|Hne].
  - by rewrite decide_True.
  - rewrite decide_False by done. by rewrite app_nil_r.
Qed.

Lemma fold_index_add_lookup l m k :
  default [] (fold_left index_add l m !! k)
  = (default [] (m !! k) ++ List.filter (departs_from k) l)%list.
Proof.
  revert m. induction l as [|r l IH]; intros m; simpl.
  - by rewrite app_nil_r.
  - rewrite IH, index_add_lookup, <- app_assoc.
    by destruct (departs_from k r).
Qed.

(** The routes the index holds for a city are the filtered routes that
    depart from it, in their order. *)
Lemma routes_from_city_index l city :
  routes_from_city (index_routes l) city
  = List.filter (departs_from (Str.lower city)) l.
Proof.
  unfold routes_from_city, index_routes.
  by rewrite fold_index_add_lookup, lookup_empty.
Qed.

Lemma in_routes_from_city l city r :
  In r (routes_from_city (index_routes l) city)
  <-> In r l /\ Str.lower (dep_city r) = Str.lower city.
Proof.
  rewrite routes_from_city_index, filter_In. unfold departs_from.
  by rewrite String.eqb_eq.
Qed.

Lemma flat_map_nil {A B : Type} (f : A -> list B) (xs : list A) :
  (forall x, In x xs -> f x = []) -> flat_map f xs = [].
Proof.
  induction xs as [|x xs IH]; intros Hf; simpl; [done|].
  rewrite Hf by (by left). apply IH. intros y Hy. apply Hf. by right.
Qed.
End IndexFacts.

(** ** The connection search *)

Section SearchFacts.
Context {price : Type} `{Fare price}.
Implicit Types (r : Route price) (it : Itinerary price).
Implicit Types (routes filtered : list (Route price)) (q : Filters price).
Implicit Types m : gmap string (list (Route price)).

Lemma in_direct_phase m origin destination it :
  In it (direct_phase m origin destination) <->
  exists r, In r (routes_from_city m origin) /\
    Str.lower (arr_city r) = Str.lower destination /\
    it = mkItinerary [mkLeg r] [].
Proof.
  unfold direct_phase. rewrite in_flat_map. split.
  - intros (r & Hr & Hit). exists r. split; [done|].
    destruct (String.eqb_spec (Str.lower (arr_city r)) (Str.lower destination));
      [|done].
    destruct Hit as [<-|[]]. done.
  - intros (r & Hr & Heq & ->). exists r. split; [done|].
    rewrite (proj2 (String.eqb_eq _ _) Heq). by left.
Qed.

Lemma in_one_stop_phase today m origin destination mt it :
  In it (one_stop_phase today m origin destination mt) <->
  exists r1 r2,
    In r1 (routes_from_city m origin) /\
    In r2 (routes_from_city m (arr_city r1)) /\
    Str.lower (arr_city r2) = Str.lower destination /\
    mt <= minutes_between today (arr_time r1) (dep_time r2) /\
    it = mkItinerary [mkLeg r1; mkLeg r2]
           [minutes_between today (arr_time r1) (dep_time r2)].
Proof.
  unfold one_stop_phase. rewrite in_flat_map. split.
  - intros (r1 & Hr1 & Hit). apply in_flat_map in Hit as (r2 & Hr2 & Hit).
    exists r1, r2. do 2 (split; [done|]).
    destruct (String.eqb_spec (Str.lower (arr_city r2)) (Str.lower destination));
      [|done].
    simpl in Hit.
    destruct (Z.ltb_spec (minutes_between today (arr_time r1) (dep_time r2)) mt);
      [done|].
    destruct Hit as [<-|[]]. done.
  - intros (r1 & r2 & Hr1 & Hr2 & Heq & Hmt & ->). exists r1.
    split; [done|]. apply in_flat_map. exists r2. split; [done|].
    rewrite (proj2 (String.eqb_eq _ _) Heq). simpl.
    rewrite (proj2 (Z.ltb_ge _ _) Hmt). by left.
Qed.

Lemma in_two_stop_phase today m origin destination mt it :
  In it (two_stop_phase today m origin destination mt) <->
  exists r1 r2 r3,
    In r1 (routes_from_city m origin) /\
    In r2 (routes_from_city m (arr_city r1)) /\
    In r3 (routes_from_city m (arr_city r2)) /\
    Str.lower (arr_city r3) = Str.lower destination /\
    mt <= minutes_between today (arr_time r1) (dep_time r2) /\
    mt <= minutes_between today (arr_time r2) (dep_time r3) /\
    it = mkItinerary [mkLeg r1; mkLeg r2; mkLeg r3]
           [minutes_between today (arr_time r1) (dep_time r2);
            minutes_between today (arr_time r2) (dep_time r3)].
Proof.
  unfold two_stop_phase. rewrite in_flat_map. split.
  - intros (r1 & Hr1 & Hit). apply in_flat_map in Hit as (r2 & Hr2 & Hit).
    cbv zeta in Hit.
    destruct (Z.ltb_spec (minutes_between today (arr_time r1) (dep_time r2)) mt);
      [done|].
    apply in_flat_map in Hit as (r3 & Hr3 & Hit).
    exists r1, r2, r3. do 3 (split; [done|]).
    destruct (String.eqb_spec (Str.lower (arr_city r3)) (Str.lower destination));
      [|done].
    simpl in Hit.
    destruct (Z.ltb_spec (minutes_between today (arr_time r2) (dep_time r3)) mt);
      [done|].
    destruct Hit as [<-|[]]. done.
  - intros (r1 & r2 & r3 & Hr1 & Hr2 & Hr3 & Heq & Hmt1 & Hmt2 & ->).
    exists r1. split; [done|]. apply in_flat_map. exists r2. split; [done|].
    cbv zeta. rewrite (proj2 (Z.ltb_ge _ _) Hmt1).
    apply in_flat_map. exists r3. split; [done|].
    rewrite (proj2 (String.eqb_eq _ _) Heq). simpl.
    rewrite (proj2 (Z.ltb_ge _ _) Hmt2). by left.
Qed.

Lemma in_enumerate today m origin destination ms mt it :
  In it (enumerate today m origin destination ms mt) <->
  In it (direct_phase m origin destination) \/
  (1 <= ms /\ In it (one_stop_phase today m origin destination mt)) \/
  (2 <= ms /\ In it (two_stop_phase today m origin destination mt)).
Proof.
  unfold enumerate. rewrite !in_app_iff. unfold Z.geb.
  destruct (Z.compare_spec ms 1), (Z.compare_spec ms 2); simpl;
    intuition lia.
Qed.
End SearchFacts.

(** C2: in the one-stop phase, for a route [r1] that departs the origin
    and a route [r2] that departs the arrival city of [r1] and arrives at
    the destination (cities compared in lower case), the two-leg itinerary
    with the transfer [minutes_between(r1.arr_time, r2.dep_time)] is
    appended exactly when the transfer is at least [min_transfer]; nothing
    else is asked of the two clock times, so a transfer over midnight
    passes with its wrapped gap.  The same holds of the results of the
    enumeration when [max_stops >= 1]. *)
Theorem C2_one_stop_transfer {price : Type} `{Fare price} (today : Z)
    (filtered : list (Route price)) (origin destination : string)
    (max_stops min_transfer : Z) (r1 r2 : Route price) :
  In r1 filtered -> Str.lower (dep_city r1) = Str.lower origin ->
  In r2 filtered -> Str.lower (dep_city r2) = Str.lower (arr_city r1) ->
  Str.lower (arr_city r2) = Str.lower destination ->
  let transfer := minutes_between today (arr_time r1) (dep_time r2) in
  let it := mkItinerary [mkLeg r1; mkLeg r2] [transfer] in
  (In it (one_stop_phase today (index_routes filtered) origin destination
            min_transfer)
   <-> min_transfer <= transfer) /\
  (1 <= max_stops ->
   (In it (enumerate today (index_routes filtered) origin destination
             max_stops min_transfer)
    <-> min_transfer <= transfer)).
Proof.
  intros Hr1 Hd1 Hr2 Hd2 Ha2 transfer it.
  assert (Hone : In it (one_stop_phase today (index_routes filtered) origin
                          destination min_transfer)
                 <-> min_transfer <= transfer).
  { rewrite in_one_stop_phase. split.
    - intros (r1' & r2' & _ & _ & _ & Hmt & Heq).
      unfold it in Heq. by injection Heq as -> -> _.
    - intros Hmt. exists r1, r2.
      split; [by apply in_routes_from_city|].
      split; [by apply in_routes_from_city|]. done. }
  split; [exact Hone|]. intros Hms. rewrite in_enumerate, <- Hone. split.
  - intros [Hdir|[[_ Hin]|[_ Htwo]]]; [|done|].
    + apply in_direct_phase in Hdir as (r & _ & _ & Heq). discriminate.
    + apply in_two_stop_phase in Htwo
        as (r & r' & r'' & _ & _ & _ & _ & _ & _ & Heq).
      discriminate.
  - intros Hin. right. left. done.
Qed.

Lemma C2_witness :
  In R4 [R4; R5] /\ Str.lower (dep_city R4) = Str.lower "paris" /\
  In R5 [R4; R5] /\ Str.lower (dep_city R5) = Str.lower (arr_city R4) /\
  Str.lower (arr_city R5) = Str.lower "NICE" /\
  minutes_between a_day (arr_time R4) (dep_time R5) = 20 /\
  (In (mkItinerary [mkLeg R4; mkLeg R5] [20])
      (one_stop_phase a_day (index_routes [R4; R5]) "paris" "NICE" 10)
   <-> 10 <= 20) /\
  (1 <= 2 ->
   (In (mkItinerary [mkLeg R4; mkLeg R5] [20])
       (enumerate a_day (index_routes [R4; R5]) "paris" "NICE" 2 10)
    <-> 10 <= 20)).
Proof.
  assert (H4 : In R4 [R4; R5]) by (by left).
  assert (H5 : In R5 [R4; R5]) by (right; by left).
  split; [exact H4|]. split; [reflexivity|]. split; [exact H5|].
  split; [reflexivity|]. split; [reflexivity|]. split; [reflexivity|].
  exact (C2_one_stop_transfer a_day [R4; R5] "paris" "NICE" 2 10 R4 R5
           H4 eq_refl H5 eq_refl eq_refl).
Defined.

(** C9, as the code has it: when no route of the collection both departs
    and arrives at [c] (in lower case), a search without stops from [c] to
    [c] returns no itinerary. *)
Theorem C9_direct_same_city {price : Type} `{Fare price} (today : Z)
    (routes filtered : list (Route price)) (c : string) (min_transfer : Z)
    (q : Filters price) :
  filter_routes today routes None None q = inr filtered ->
  (forall r, In r routes ->
     ~ (Str.lower (dep_city r) = Str.lower c /\
        Str.lower (arr_city r) = Str.lower c)) ->
  find_connected_itineraries today routes c c 0 min_transfer q = inr [].
Proof.
  intros Hf Hloop. unfold find_connected_itineraries. rewrite Hf.
  assert (Hdir : direct_phase (index_routes filtered) c c = []).
  { unfold direct_phase. apply flat_map_nil. intros r Hr.
    apply in_routes_from_city in Hr as [Hin Hdep].
    destruct (String.eqb_spec (Str.lower (arr_city r)) (Str.lower c)); [|done].
    destruct (Hloop r); [|done]. by eapply filter_routes_subset. }
  unfold enumerate. rewrite Hdir. reflexivity.
Qed.

Lemma C9_witness :
  find_connected_itineraries a_day [R1; R2] "Lyon" "Lyon" 0 10 no_filters
  = inr [].
Proof.
  apply (C9_direct_same_city a_day [R1; R2] [R1; R2] "Lyon" 10 no_filters).
  - reflexivity.
  - intros r [<-|[<-|[]]] [Hd Ha]; vm_compute in Hd, Ha; discriminate.
Defined.

(** C9 as stated fails on a circular service: the route [R6] leaves Paris
    and arrives in Paris, and the search without stops returns it. *)
Lemma C9_circular_route_found :
  find_connected_itineraries a_day [R6] "Paris" "Paris" 0 10 no_filters
  = inr [mkItinerary [mkLeg R6] []] /\
  find_connected_itineraries a_day [R6] "Paris" "Paris" 0 10 no_filters
  <> inr [].
Proof.
  assert (E : find_connected_itineraries a_day [R6] "Paris" "Paris" 0 10
                no_filters = inr [mkItinerary [mkLeg R6] []])
    by (by vm_compute).
  split; [exact E|]. rewrite E. discriminate.
Qed.

(** ** Deduplication *)

Section DedupeFacts.
Context {price : Type}.
Implicit Types (it x : Itinerary price) (l : list (Itinerary price)).

Lemma dedupe_fold_snoc l x st :
  fold_left dedupe_step (l ++ [x]) st
  = dedupe_step (fold_left dedupe_step l st) x.
Proof. by rewrite fold_left_app. Qed.

(** [seen] holds the keys of the itineraries read so far. *)
Lemma seen_keys l k :
  k ∈ (fold_left dedupe_step l (∅, [])).1 <-> In k (map route_ids l).
Proof.
  induction l as [|x l IH] using rev_ind.
  - simpl. set_solver.
  - rewrite dedupe_fold_snoc, map_app, in_app_iff. unfold dedupe_step.
    simpl. case_bool_decide as Hseen; simpl.
    + rewrite IH. split; [tauto|]. intros [Hk|[<-|[]]]; [done|].
      by apply IH.
    + rewrite elem_of_union, elem_of_singleton, IH. intuition.
Qed.

Lemma dedupe_snoc_seen l x :
  In (route_ids x) (map route_ids l) -> dedupe (l ++ [x]) = dedupe l.
Proof.
  intros Hin. unfold dedupe. rewrite dedupe_fold_snoc. unfold dedupe_step.
  rewrite bool_decide_eq_true_2; [done|]. by apply seen_keys.
Qed.

Lemma dedupe_snoc_new l x :
  ~ In (route_ids x) (map route_ids l) ->
  dedupe (l ++ [x]) = (dedupe l ++ [x])%list.
Proof.
  intros Hin. unfold dedupe. rewrite dedupe_fold_snoc. unfold dedupe_step.
  rewrite bool_decide_eq_false_2; [done|]. by rewrite seen_keys.
Qed.

Lemma in_keys_dec l x :
  {In (route_ids x) (map route_ids l)} + {~ In (route_ids x) (map route_ids l)}.
Proof. apply in_dec. apply (List.list_eq_dec String.string_dec). Qed.

(** The deduplication keeps every key and adds none. *)
Lemma dedupe_keys l k :
  In k (map route_ids (dedupe l)) <-> In k (map route_ids l).
Proof.
  induction l as [|x l IH] using rev_ind; [done|].
  destruct (in_keys_dec l x) as [Hin|Hnew].
  - rewrite dedupe_snoc_seen, IH, map_app, in_app_iff by done.
    split; [tauto|]. intros [Hk|[<-|[]]]; done.
  - rewrite dedupe_snoc_new, !map_app, !in_app_iff, IH by done. done.
Qed.

Lemma dedupe_NoDup l : List.NoDup (map route_ids (dedupe l)).
Proof.
  induction l as [|x l IH] using rev_ind; [constructor|].
  destruct (in_keys_dec l x) as [Hin|Hnew].
  - by rewrite dedupe_snoc_seen.
  - rewrite dedupe_snoc_new, map_app by done.
    apply List.NoDup_app;
      [done|apply List.NoDup_cons; [intros []|apply List.NoDup_nil]|].
    intros k Hk [<-|[]]. by apply Hnew, dedupe_keys.
Qed.

Lemma dedupe_length_le l1 l2 :
  (forall k, In k (map route_ids l2) -> In k (map route_ids l1)) ->
  (length (dedupe l2) <= length (dedupe l1))%nat.
Proof.
  intros Hsub.
  rewrite <- (length_map route_ids (dedupe l2)).
  rewrite <- (length_map route_ids (dedupe l1)).
  apply NoDup_incl_length; [apply dedupe_NoDup|].
  intros k Hk. apply dedupe_keys. apply Hsub. by apply dedupe_keys.
Qed.

Lemma first_occurrence_snoc l x i :
  first_occurrence (l ++ [x]) i <->
  first_occurrence l i \/
  (i = length l /\ ~ In (route_ids x) (map route_ids l)).
Proof.
  unfold first_occurrence. split.
  - intros (it & Hi & Hfirst).
    apply lookup_snoc_Some in Hi as [[Hlt Hi]|[-> <-]].
    + left. exists it. split; [done|]. intros j it' Hj Hj'.
      apply (Hfirst j it' Hj). by apply lookup_app_l_Some.
    + right. split; [done|]. intros Hin.
      apply in_map_iff in Hin as (it' & Hkey & Hin').
      apply list_elem_of_In, list_elem_of_lookup in Hin' as [j Hj].
      apply (Hfirst j it'); [by eapply lookup_lt_Some| |done].
      by apply lookup_app_l_Some.
  - intros [(it & Hi & Hfirst)|[-> Hnew]].
    + exists it. split; [by apply lookup_app_l_Some|].
      intros j it' Hj Hj'. apply (Hfirst j it' Hj).
      apply lookup_lt_Some in Hi.
      by rewrite lookup_app_l in Hj' by lia.
    + exists x. split; [by apply list_lookup_middle|].
      intros j it' Hj Hj' Hkey. apply Hnew.
      rewrite lookup_app_l in Hj' by done.
      apply in_map_iff. exists it'. split; [done|].
      by eapply list_elem_of_In, list_elem_of_lookup_2.
Qed.

Lemma dedupe_keeps_first_occurrences l :
  keeps_first_occurrences l (dedupe l).
Proof.
  unfold keeps_first_occurrences.
  induction l as [|x l (idx & Hsorted & Hat & Hidx)] using rev_ind.
  - exists []. split; [constructor|]. split; [constructor|].
    intros i. split; [intros []|]. by intros (it & Hi & _).
  - destruct (in_keys_dec l x) as [Hin|Hnew].
    + rewrite dedupe_snoc_seen by done. exists idx.
      split; [done|]. split.
      * eapply Forall2_impl; [exact Hat|].
        intros i it Hi. by apply lookup_app_l_Some.
      * intros i. rewrite first_occurrence_snoc, Hidx. tauto.
    + rewrite dedupe_snoc_new by done. exists (idx ++ [length l])%list.
      split; [|split].
      * apply StronglySorted_app. split; [|split; [done|]].
        -- intros i j Hi Hj. apply list_elem_of_In, Hidx in Hi.
           destruct Hi as (it & Hi & _). apply lookup_lt_Some in Hi.
           apply list_elem_of_In in Hj as [<-|[]]. done.
        -- repeat constructor.
      * apply Forall2_app.
        -- eapply Forall2_impl; [exact Hat|].
           intros i it Hi. by apply lookup_app_l_Some.
        -- repeat constructor. by apply list_lookup_middle.
      * intros i. rewrite first_occurrence_snoc, in_app_iff, Hidx.
        simpl. intuition.
Qed.
End DedupeFacts.

(** C3: the list [find_connected_itineraries] returns holds no two
    itineraries with the same tuple of route identifiers; it is the list of
    the results of the enumeration restricted to the first occurrence of
    each tuple, in the order of the enumeration.  Two equal rows of one
    route give one itinerary. *)
Theorem C3_dedupe_first_occurrence {price : Type} `{Fare price} (today : Z)
    (routes filtered : list (Route price)) (origin destination : string)
    (max_stops min_transfer : Z) (q : Filters price) :
  filter_routes today routes None None q = inr filtered ->
  exists out,
    find_connected_itineraries today routes origin destination
      max_stops min_transfer q = inr out /\
    List.NoDup (map route_ids out) /\
    keeps_first_occurrences
      (enumerate today (index_routes filtered) origin destination
         max_stops min_transfer)
      out /\
    find_connected_itineraries a_day [R1; R1] "Paris" "Lyon" 2 10 no_filters
    = inr [mkItinerary [mkLeg R1] []].
Proof.
  intros Hf. eexists. split.
  { unfold find_connected_itineraries. rewrite Hf. reflexivity. }
  split; [apply dedupe_NoDup|]. split; [apply dedupe_keeps_first_occurrences|].
  by vm_compute.
Qed.

Lemma C3_witness :
  exists out,
    find_connected_itineraries a_day [R1; R1] "Paris" "Lyon" 2 10 no_filters
    = inr out /\
    List.NoDup (map route_ids out) /\
    keeps_first_occurrences
      (enumerate a_day (index_routes [R1; R1]) "Paris" "Lyon" 2 10) out /\
    find_connected_itineraries a_day [R1; R1] "Paris" "Lyon" 2 10 no_filters
    = inr [mkItinerary [mkLeg R1] []].
Proof.
  apply (C3_dedupe_first_occurrence a_day [R1; R1] [R1; R1] "Paris" "Lyon"
           2 10 no_filters).
  reflexivity.
Defined.

Section MonotoneFacts.
Context {price : Type} `{Fare price}.
Implicit Types m : gmap string (list (Route price)).

(** A larger minimum transfer appends a part of the itineraries. *)
Lemma enumerate_min_transfer today m origin destination ms (m1 m2 : Z)
    (it : Itinerary price) :
  m1 <= m2 ->
  In it (enumerate today m origin destination ms m2) ->
  In it (enumerate today m origin destination ms m1).
Proof.
  intros Hle. rewrite !in_enumerate.
  intros [Hd|[[Hms Hone]|[Hms Htwo]]]; [by left|right; left|right; right];
    (split; [done|]).
  - apply in_one_stop_phase in Hone as (r1 & r2 & ? & ? & ? & ? & ->).
    apply in_one_stop_phase. exists r1, r2. repeat split; try done. lia.
  - apply in_two_stop_phase in Htwo
      as (r1 & r2 & r3 & ? & ? & ? & ? & ? & ? & ->).
    apply in_two_stop_phase. exists r1, r2, r3.
    repeat split; try done; lia.
Qed.
End MonotoneFacts.

(** C7: for minimum transfers [m1 <= m2] the search with [m2] returns at
    most as many itineraries as the search with [m1], whatever the maximum
    of stops; the counts are those after the deduplication. *)
Theorem C7_min_transfer_monotone {price : Type} `{Fare price} (today : Z)
    (routes filtered : list (Route price)) (origin destination : string)
    (max_stops m1 m2 : Z) (q : Filters price) :
  m1 <= m2 ->
  filter_routes today routes None None q = inr filtered ->
  exists out1 out2,
    find_connected_itineraries today routes origin destination
      max_stops m1 q = inr out1 /\
    find_connected_itineraries today routes origin destination
      max_stops m2 q = inr out2 /\
    (length out2 <= length out1)%nat.
Proof.
  intros Hle Hf. unfold find_connected_itineraries. rewrite Hf.
  eexists _, _. split; [reflexivity|]. split; [reflexivity|].
  apply dedupe_length_le. intros k Hk.
  apply in_map_iff in Hk as (it & <- & Hin). apply in_map.
  by eapply enumerate_min_transfer.
Qed.

Lemma C7_witness :
  20 <= 45 /\
  exists out1 out2,
    find_connected_itineraries a_day [R1; R2] "Paris" "Nice" 1 20 no_filters
    = inr out1 /\
    find_connected_itineraries a_day [R1; R2] "Paris" "Nice" 1 45 no_filters
    = inr out2 /\
    (length out2 <= length out1)%nat.
Proof.
  split; [lia|].
  apply (C7_min_transfer_monotone a_day [R1; R2] [R1; R2] "Paris" "Nice"
           1 20 45 no_filters); [lia|reflexivity].
Defined.

(** The scenarios of the specification. *)
Example scenario_A :
  find_connected_itineraries a_day [R1] "Paris" "Lyon" 0 10 no_filters
  = inr [mkItinerary [mkLeg R1] []] /\
  itinerary_duration_minutes a_day (mkItinerary [mkLeg R1] []) = 120.
Proof. by vm_compute. Qed.

Example scenario_B :
  find_connected_itineraries a_day [R1; R2] "Paris" "Nice" 1 20 no_filters
  = inr [mkItinerary [mkLeg R1; mkLeg R2] [30]] /\
  itinerary_duration_minutes a_day (mkItinerary [mkLeg R1; mkLeg R2] [30])
  = 300.
Proof. by vm_compute. Qed.

Example scenario_C :
  find_connected_itineraries a_day [R1; R2] "Paris" "Nice" 1 45 no_filters
  = inr [].
Proof. by vm_compute. Qed.

(** A window over midnight, 22:00 to 02:00, keeps the 23:00 departure. *)
Example night_window_filter :
  filter_routes a_day [R1; R2; R3] None None night_window = inr [R3].
Proof. by vm_compute. Qed.

(** A connection over midnight: arrival 23:50, departure 00:10. *)
Example overnight_transfer :
  find_connected_itineraries a_day [R4; R5] "Paris" "Nice" 1 10 no_filters
  = inr [mkItinerary [mkLeg R4; mkLeg R5] [20]].
Proof. by vm_compute. Qed.

(** ** Ranking *)

Section SortFacts.
Context {K A : Type} (lt : K -> K -> bool) (key : A -> K).
(** [Rk] is an order the comparison [lt] decides. *)
Context (Rk : K -> K -> Prop).
Hypothesis lt_true : forall a b, lt a b = true -> Rk a b.
Hypothesis lt_false : forall a b, lt a b = false -> Rk b a.

Local Abbreviation by_key := (@by_key_of K A Rk).
Local Abbreviation keyed := (@keyed_by K A key).

Lemma insert_by_HdRel x y l :
  by_key y x -> HdRel by_key y l -> HdRel by_key y (insert_by lt x l).
Proof.
  intros Hyx Hhd. destruct l as [|z l]; simpl; [by constructor|].
  destruct (lt x.1 z.1); constructor; [done|]. by inversion Hhd.
Qed.

Lemma insert_by_Sorted x l :
  Sorted by_key l -> Sorted by_key (insert_by lt x l).
Proof.
  induction l as [|y l IH]; simpl; intros Hs.
  - by repeat constructor.
  - destruct (lt x.1 y.1) eqn:E.
    + constructor; [done|]. constructor. by apply lt_true.
    + inversion Hs as [|? ? Hs' Hhd]; subst. constructor; [by apply IH|].
      apply insert_by_HdRel; [|done]. by apply lt_false.
Qed.

Lemma insert_by_Forall (P : K * A -> Prop) x l :
  P x -> Forall P l -> Forall P (insert_by lt x l).
Proof.
  intros Hx. induction 1 as [|y l Hy Hl IH]; simpl; [by repeat constructor|].
  destruct (lt x.1 y.1); repeat constructor; done.
Qed.

Lemma fold_insert_by_Sorted xs acc :
  Forall keyed xs -> Forall keyed acc -> Sorted by_key acc ->
  let out := fold_left (fun acc x => insert_by lt x acc) xs acc in
  Forall keyed out /\ Sorted by_key out.
Proof.
  revert acc. induction xs as [|x xs IH]; simpl; intros acc Hxs Hacc Hs;
    [done|].
  inversion Hxs; subst.
  apply IH; [done|by apply insert_by_Forall|by apply insert_by_Sorted].
Qed.

Lemma map_snd_Sorted l :
  Forall keyed l -> Sorted by_key l ->
  Sorted (fun a b => Rk (key a) (key b)) (map snd l).
Proof.
  induction 2 as [|p l Hs IH Hhd]; simpl; [constructor|].
  inversion H; subst. constructor; [by apply IH|].
  destruct Hhd as [|q l Hpq]; simpl; constructor.
  inversion H3; subst. unfold by_key, keyed in *. congruence.
Qed.

Lemma sort_by_key_Sorted l :
  Sorted (fun a b => Rk (key a) (key b)) (sort_by_key lt key l).
Proof.
  unfold sort_by_key.
  destruct (fold_insert_by_Sorted (map (fun a => (key a, a)) l) [])
    as [Hk Hs]; [|constructor|constructor|by apply map_snd_Sorted].
  apply Forall_forall. intros p Hp.
  apply list_elem_of_In, in_map_iff in Hp as (a & <- & _). done.
Qed.
End SortFacts.

Section AdjacentFacts.
Context {A : Type} (R : A -> A -> Prop).

Lemma Sorted_firstn n (l : list A) : Sorted R l -> Sorted R (firstn n l).
Proof.
  revert l. induction n as [|n IH]; intros l Hs; simpl; [constructor|].
  destruct Hs as [|x l Hs Hhd]; [constructor|].
  constructor; [by apply IH|].
  destruct Hhd; destruct n; simpl; by constructor.
Qed.

Lemma Sorted_slice_to (l : list A) limit :
  Sorted R l -> Sorted R (slice_to l limit).
Proof. intros Hs. unfold slice_to. destruct (limit <? 0); by apply Sorted_firstn. Qed.

Lemma Sorted_adjacent_pairs (l : list A) : Sorted R l -> adjacent_pairs R l.
Proof.
  unfold adjacent_pairs. induction 1 as [|x l Hs IH Hhd]; intros i a b Ha Hb.
  - done.
  - destruct i as [|i]; simpl in *.
    + injection Ha as ->. destruct Hhd as [|y l Hxy]; [done|].
      simpl in Hb. by injection Hb as ->.
    + by eapply IH.
Qed.
End AdjacentFacts.

Section RankingFacts.
Context {price : Type} `{FareOrder price}.

Lemma fare_lt_asym (a b : price) : fare_lt a b = true -> fare_lt b a = false.
Proof.
  intros Hab. destruct (fare_lt b a) eqn:Hba; [|done].
  by rewrite <- (fare_lt_irrefl a), (fare_lt_trans a b a Hab Hba).
Qed.

Lemma fare_lt_le (a b : price) : fare_lt a b = true -> fare_le a b = true.
Proof. intros Hab. by apply fare_le_spec, fare_lt_asym. Qed.

Lemma fare_eq_le (a b : price) : fare_eq a b = true -> fare_le a b = true.
Proof. intros [_ Hba]%fare_eq_spec. by apply fare_le_spec. Qed.

Lemma fare_eq_sym (a b : price) : fare_eq a b = fare_eq b a.
Proof.
  apply eq_true_iff_eq. unfold is_true. rewrite !fare_eq_spec. tauto.
Qed.

Lemma fare_total (a b : price) :
  fare_eq a b = false -> fare_lt a b = false -> fare_lt b a = true.
Proof.
  intros Hne Hab. destruct (fare_lt b a) eqn:Hba; [done|].
  rewrite (proj2 (fare_eq_spec a b)) in Hne; done.
Qed.

Lemma duration_key_lt_true (a b : Z * price) :
  tuple_lt Z.eqb Z.ltb fare_eq fare_lt a b = true ->
  a.1 < b.1 \/ (a.1 = b.1 /\ fare_le a.2 b.2 = true).
Proof.
  unfold tuple_lt. destruct (Z.eqb_spec a.1 b.1) as [Heq|Hne]; simpl.
  - destruct (fare_eq a.2 b.2); simpl; [done|].
    intros Hlt. right. split; [done|]. by apply fare_lt_le.
  - intros Hlt%Z.ltb_lt. by left.
Qed.

Lemma duration_key_lt_false (a b : Z * price) :
  tuple_lt Z.eqb Z.ltb fare_eq fare_lt a b = false ->
  b.1 < a.1 \/ (b.1 = a.1 /\ fare_le b.2 a.2 = true).
Proof.
  unfold tuple_lt. destruct (Z.eqb_spec a.1 b.1) as [Heq|Hne]; simpl.
  - intros Hlt. right. split; [done|].
    destruct (fare_eq a.2 b.2) eqn:E; simpl in Hlt.
    + apply fare_eq_le. by rewrite fare_eq_sym.
    + apply fare_lt_le. by apply fare_total.
  - intros Hlt%Z.ltb_ge. left. lia.
Qed.

Lemma price_key_lt_true (a b : price * Z) :
  tuple_lt fare_eq fare_lt Z.eqb Z.ltb a b = true ->
  fare_lt a.1 b.1 = true \/ (fare_eq a.1 b.1 = true /\ a.2 <= b.2).
Proof.
  unfold tuple_lt. destruct (fare_eq a.1 b.1); simpl; [|by left].
  destruct (Z.eqb_spec a.2 b.2); simpl; [done|].
  intros Hlt%Z.ltb_lt. right. split; [done|lia].
Qed.

Lemma price_key_lt_false (a b : price * Z) :
  tuple_lt fare_eq fare_lt Z.eqb Z.ltb a b = false ->
  fare_lt b.1 a.1 = true \/ (fare_eq b.1 a.1 = true /\ b.2 <= a.2).
Proof.
  unfold tuple_lt. destruct (fare_eq a.1 b.1) eqn:E; simpl.
  - intros Hlt. right. split; [by rewrite fare_eq_sym|].
    destruct (Z.eqb_spec a.2 b.2); simpl in Hlt; [lia|].
    apply Z.ltb_ge in Hlt. lia.
  - intros Hlt. left. by apply fare_total.
Qed.
End RankingFacts.

(** The order of whole amounts is an order of fares. *)
Lemma Z_fare_order : FareOrder Z.
Proof.
  split; simpl.
  - intros a. apply Z.ltb_irrefl.
  - intros a b c Hab%Z.ltb_lt Hbc%Z.ltb_lt. apply Z.ltb_lt. lia.
  - intros a b. rewrite Z.eqb_eq, !Z.ltb_ge. lia.
  - intros a b c Hab%Z.eqb_eq Hbc%Z.eqb_eq. apply Z.eqb_eq. lia.
  - intros a b. by rewrite Z.leb_le, Z.ltb_ge.
Qed.

(** C4: in the list [search_itineraries] returns, sorted by duration (any
    mode other than ["price"]), each adjacent pair [(a, b)] has
    [a.duration < b.duration], or equal durations and
    [a.price(cls) <= b.price(cls)]; sorted by price, the keys change
    places: [a.price(cls) < b.price(cls)], or equal prices and
    [a.duration <= b.duration]. *)
Theorem C4_ranking_order {price : Type} `{FareOrder price} (today : Z)
    (routes : list (Route price)) (from_city to_city : option string)
    (q : Filters price) (cls : string) (max_stops min_transfer : Z)
    (sort_by : string) (limit : option Z) (found : list (Itinerary price)) :
  find_connected_itineraries today routes (default EmptyString from_city)
    (default EmptyString to_city) max_stops min_transfer q = inr found ->
  exists out,
    search_itineraries today routes from_city to_city q cls
      max_stops min_transfer sort_by limit = inr out /\
    (sort_by <> "price" -> adjacent_pairs (duration_then_price today cls) out) /\
    (sort_by = "price" -> adjacent_pairs (price_then_duration today cls) out).
Proof.
  intros Hfound. unfold search_itineraries. rewrite Hfound.
  eexists. split; [reflexivity|].
  assert (Hlimit : forall (R : Itinerary price -> Itinerary price -> Prop) l,
             Sorted R l ->
             adjacent_pairs R
               match limit with Some n => slice_to l n | None => l end).
  { intros R l Hs. apply Sorted_adjacent_pairs.
    destruct limit; [by apply Sorted_slice_to|done]. }
  split.
  - intros Hmode. apply String.eqb_neq in Hmode. rewrite Hmode.
    apply Hlimit.
    exact (sort_by_key_Sorted
             (tuple_lt Z.eqb Z.ltb fare_eq fare_lt)
             (fun it => (itinerary_duration_minutes today it,
                         itinerary_price it cls))
             (fun a b => a.1 < b.1 \/ (a.1 = b.1 /\ fare_le a.2 b.2 = true))
             duration_key_lt_true duration_key_lt_false found).
  - intros ->. simpl. apply Hlimit.
    exact (sort_by_key_Sorted
             (tuple_lt fare_eq fare_lt Z.eqb Z.ltb)
             (fun it => (itinerary_price it cls,
                         itinerary_duration_minutes today it))
             (fun a b => fare_lt a.1 b.1 = true
                         \/ (fare_eq a.1 b.1 = true /\ a.2 <= b.2))
             price_key_lt_true price_key_lt_false found).
Qed.

Lemma C4_witness :
  exists out,
    search_itineraries a_day [R1; R2; R4; R5] (Some "Paris") (Some "Nice")
      no_filters "second" 2 10 "duration" (Some 50) = inr out /\
    ("duration" <> "price" ->
     adjacent_pairs (duration_then_price a_day "second") out) /\
    ("duration" = "price" ->
     adjacent_pairs (price_then_duration a_day "second") out).
Proof.
  eapply (@C4_ranking_order Z Z_fare Z_fare_order a_day [R1; R2; R4; R5]
            (Some "Paris") (Some "Nice") no_filters "second" 2 10 "duration"
            (Some 50)).
  reflexivity.
Defined.

Example ranking_by_duration :
  (fun r => match r with
            | inr l => Some (map route_ids l)
            | inl _ => None
            end)
    (search_itineraries a_day [R1; R2; R4; R5] (Some "Paris") (Some "Nice")
       no_filters "second" 2 10 "duration" (Some 3))
  = Some [["R1"; "R2"]; ["R4"; "R5"]; ["R4"; "R2"]].
Proof. by vm_compute. Qed.


(** * Further properties of the module *)

(** ** Clock times read and written *)

Section ClockFacts.
Implicit Types t : time.

Lemma strptime_time_hm sep s t :
  strptime_time sep s = Some t ->
  exists h m, t = hm h m /\ 0 <= h < 24 /\ 0 <= m < 60.
Proof.
  unfold strptime_time.
  destruct (try_H H_alt1 sep s) as [[[h m] r]|] eqn:E1.
  { destruct r; [|discriminate]. intros [= <-]. exists h, m. split; [done|].
    eapply try_H_range; [apply H_alt1_range|exact E1]. }
  destruct (try_H H_alt2 sep s) as [[[h m] r]|] eqn:E2.
  { destruct r; [|discriminate]. intros [= <-]. exists h, m. split; [done|].
    eapply try_H_range; [apply H_alt2_range|exact E2]. }
  destruct (try_H H_alt3 sep s) as [[[h m] r]|] eqn:E3; [|discriminate].
  destruct r; [|discriminate]. intros [= <-]. exists h, m. split; [done|].
  eapply try_H_range; [apply H_alt3_range|exact E3].
Qed.

Lemma whole_minute_gap t1 t2 :
  whole_minute t1 -> whole_minute t2 ->
  clock_gap t1 t2
  = us_per_minute
    * ((if minute_of_day t2 <? minute_of_day t1
        then minute_of_day t2 + 1440 else minute_of_day t2)
       - minute_of_day t1).
Proof.
  intros [Hs1 Hu1] [Hs2 Hu2].
  unfold clock_gap, time_us, minute_of_day, us_per_day, us_per_minute.
  rewrite Hs1, Hu1, Hs2, Hu2.
  repeat match goal with
         | |- context [?a <? ?b] => destruct (Z.ltb_spec a b)
         end; lia.
Qed.

Lemma minute_of_day_range t : time_ok t -> 0 <= minute_of_day t < 1440.
Proof. unfold time_ok, minute_of_day. lia. Qed.

Lemma minutes_between_whole today t1 t2 :
  time_ok t1 -> time_ok t2 -> whole_minute t1 -> whole_minute t2 ->
  minutes_between today t1 t2
  = (minute_of_day t2 - minute_of_day t1) mod 1440.
Proof.
  intros H1 H2 W1 W2. rewrite minutes_between_clock, whole_minute_gap by done.
  unfold whole_minutes. rewrite Z.mul_comm, Z.div_mul by done.
  apply minute_of_day_range in H1, H2.
  destruct (Z.ltb_spec (minute_of_day t2) (minute_of_day t1)).
  - apply (Z.mod_unique _ _ (-1)); lia.
  - symmetry. apply Z.mod_small. lia.
Qed.
End ClockFacts.

(** X1: [parse_time] returns either a clock time of whole minutes in
    range, or the [ValueError] that quotes the stripped input. *)
Theorem X1_parse_time_result (s : string) :
  (exists h m, parse_time s = inr (hm h m) /\ 0 <= h < 24 /\ 0 <= m < 60)
  \/ parse_time s = inl (ValueError_unrecognized_time_format (Str.strip s)).
Proof.
  unfold parse_time.
  destruct (strptime_time (Some ":"%char) _) eqn:E1.
  { left. apply strptime_time_hm in E1 as (h & m & -> & ?). by exists h, m. }
  destruct (strptime_time (Some "."%char) _) eqn:E2.
  { left. apply strptime_time_hm in E2 as (h & m & -> & ?). by exists h, m. }
  destruct (strptime_time None _) eqn:E3.
  { left. apply strptime_time_hm in E3 as (h & m & -> & ?). by exists h, m. }
  by right.
Qed.

(** X2: a number of minutes below one day, written by [format_hhmm], is
    read back by [parse_time] as its hour and minute. *)
Theorem X2_format_parse_roundtrip (minutes : Z) :
  0 <= minutes < 1440 ->
  parse_time (format_hhmm minutes) = inr (hm (minutes / 60) (minutes mod 60)).
Proof.
  intros Hm.
  assert (Hall : forallb (fun n => reads_back (Z.of_nat n)) (seq 0 1440) = true)
    by (by vm_compute).
  rewrite forallb_forall in Hall.
  specialize (Hall (Z.to_nat minutes)).
  rewrite Z2Nat.id in Hall by lia.
  assert (Hin : In (Z.to_nat minutes) (seq 0 1440)) by (apply in_seq; lia).
  specialize (Hall Hin). unfold reads_back in Hall.
  destruct (parse_time (format_hhmm minutes)) as [e|[h m s u]]; [discriminate|].
  simpl in Hall.
  apply andb_prop in Hall as [Hall Hu]. apply andb_prop in Hall as [Hall Hs].
  apply andb_prop in Hall as [Hh Hmi].
  apply Z.eqb_eq in Hh, Hmi, Hs, Hu. by subst.
Qed.

Lemma X2_witness :
  0 <= 1439 < 1440 /\
  parse_time (format_hhmm 1439) = inr (hm (1439 / 60) (1439 mod 60)).
Proof. split; [lia|]. apply (X2_format_parse_roundtrip 1439). lia. Defined.

(** X3: between clock times of whole minutes, [minutes_between] is the
    difference of the minutes since midnight modulo 1440; the way there
    and the way back make one day, unless the times are equal. *)
Theorem X3_minutes_between_modulo (today : Z) (t1 t2 : time) :
  time_ok t1 -> time_ok t2 -> whole_minute t1 -> whole_minute t2 ->
  minutes_between today t1 t2
  = (minute_of_day t2 - minute_of_day t1) mod 1440 /\
  (minute_of_day t1 <> minute_of_day t2 ->
   minutes_between today t1 t2 + minutes_between today t2 t1 = 1440).
Proof.
  intros H1 H2 W1 W2. split; [by apply minutes_between_whole|].
  intros Hne. rewrite !minutes_between_whole by done.
  apply minute_of_day_range in H1, H2.
  destruct (Z.lt_ge_cases (minute_of_day t1) (minute_of_day t2)).
  - rewrite (Z.mod_small (minute_of_day t2 - minute_of_day t1)) by lia.
    rewrite <- (Z.mod_unique (minute_of_day t1 - minute_of_day t2) 1440 (-1)
                  (minute_of_day t1 - minute_of_day t2 + 1440)); lia.
  - rewrite (Z.mod_small (minute_of_day t1 - minute_of_day t2)) by lia.
    rewrite <- (Z.mod_unique (minute_of_day t2 - minute_of_day t1) 1440 (-1)
                  (minute_of_day t2 - minute_of_day t1 + 1440)); lia.
Qed.

Lemma X3_witness :
  minutes_between a_day (hm 22 0) (hm 2 0)
  = (minute_of_day (hm 2 0) - minute_of_day (hm 22 0)) mod 1440 /\
  (minute_of_day (hm 22 0) <> minute_of_day (hm 2 0) ->
   minutes_between a_day (hm 22 0) (hm 2 0)
   + minutes_between a_day (hm 2 0) (hm 22 0) = 1440).
Proof.
  apply (X3_minutes_between_modulo a_day (hm 22 0) (hm 2 0));
    unfold time_ok, whole_minute; simpl; lia.
Defined.

(** X4: waits add up around the clock: for whole minutes, the distance
    from [t1] to [t3] is the sum of the distances from [t1] to [t2] and
    from [t2] to [t3], less a day when the sum reaches one. *)
Theorem X4_minutes_between_adds (today : Z) (t1 t2 t3 : time) :
  time_ok t1 -> time_ok t2 -> time_ok t3 ->
  whole_minute t1 -> whole_minute t2 -> whole_minute t3 ->
  minutes_between today t1 t3
  = (minutes_between today t1 t2 + minutes_between today t2 t3) mod 1440.
Proof.
  intros H1 H2 H3 W1 W2 W3. rewrite !minutes_between_whole by done.
  rewrite <- Zplus_mod. f_equal. lia.
Qed.

Lemma X4_witness :
  minutes_between a_day (hm 21 30) (hm 3 0)
  = (minutes_between a_day (hm 21 30) (hm 23 50)
     + minutes_between a_day (hm 23 50) (hm 3 0)) mod 1440.
Proof.
  apply (X4_minutes_between_adds a_day (hm 21 30) (hm 23 50) (hm 3 0));
    unfold time_ok, whole_minute; simpl; lia.
Defined.

(** ** The filter as an operation on collections *)

Section FilterAlgebra.
Context {A : Type}.
Implicit Types (f g : A -> bool) (l : list A).

Lemma filter_all f l : (forall x, In x l -> f x = true) -> List.filter f l = l.
Proof.
  induction l as [|x l IH]; intros Hf; simpl; [done|].
  rewrite Hf by (by left). f_equal. apply IH. intros y Hy. apply Hf. by right.
Qed.

Lemma filter_twice f l : List.filter f (List.filter f l) = List.filter f l.
Proof. apply filter_all. intros x Hx. by apply filter_In in Hx as [_ ?]. Qed.

Lemma filter_swap f g l :
  List.filter f (List.filter g l) = List.filter g (List.filter f l).
Proof.
  induction l as [|x l IH]; simpl; [done|].
  destruct (f x) eqn:Ef, (g x) eqn:Eg; simpl; rewrite ?Ef, ?Eg, IH; done.
Qed.

Lemma filter_sublist f l : sublist (List.filter f l) l.
Proof.
  induction l as [|x l IH]; simpl; [constructor|].
  destruct (f x); by constructor.
Qed.
End FilterAlgebra.

Section FilterMore.
Context {price : Type} `{Fare price}.
Implicit Types (r : Route price) (routes out : list (Route price)).
Implicit Types (q : Filters price).

Lemma lower_if_blank x : blank x -> lower_if x = None.
Proof. by intros [->| ->]. Qed.

Lemma parse_time_if_blank x : blank x -> parse_time_if x = inr None.
Proof. by intros [->| ->]. Qed.

Lemma day_set_of_no_days x : no_days x -> day_set_of x = None.
Proof. by intros [->| ->]. Qed.

(** The result of the filter as a [List.filter], when it succeeds. *)
Lemma filter_routes_inr_filter today routes fc tc q out :
  filter_routes today routes fc tc q = inr out ->
  exists dtf dtt atf att,
    forall l, filter_routes today l fc tc q
      = inr (List.filter
               (route_kept today (lower_if fc) (lower_if tc)
                  (lower_if (f_train_type q)) (day_set_of (f_days q))
                  dtf dtt atf att (f_max_price_first q) (f_max_price_second q))
               l).
Proof.
  unfold filter_routes.
  destruct (parse_time_if (f_dep_time_from q)) as [|dtf]; [discriminate|].
  destruct (parse_time_if (f_dep_time_to q)) as [|dtt]; [discriminate|].
  destruct (parse_time_if (f_arr_time_from q)) as [|atf]; [discriminate|].
  destruct (parse_time_if (f_arr_time_to q)) as [|att]; [discriminate|].
  intros _. by exists dtf, dtt, atf, att.
Qed.

Lemma no_common_day_spec x r :
  no_common_day (day_set_of x) r = false <->
  no_days x \/ exists ds d, x = Some ds /\ In d ds /\ day_token d ∈ days r.
Proof.
  unfold no_days, no_common_day, day_set_of. destruct x as [[|d0 ds]|].
  - split; [intros _; left; by right|done].
  - rewrite andb_false_iff, negb_false_iff, !bool_decide_eq_false,
      bool_decide_eq_true.
    split.
    + intros [Hempty|Hcommon].
      * destruct Hempty. intros Heq.
        assert (Hin : day_token d0 ∈ (∅ : gset string))
          by (rewrite <- Heq; set_solver).
        set_solver.
      * right. apply set_choose_L in Hcommon as [c Hc].
        apply elem_of_intersection in Hc as [Hr Hs].
        apply elem_of_list_to_set, list_elem_of_In in Hs.
        change (In c (map day_token (d0 :: ds))) in Hs.
        apply in_map_iff in Hs as (d & <- & Hd). by exists (d0 :: ds), d.
    + intros [[?|?]|(ds' & d & [= <-] & Hd & Hr)]; try done.
      right. intros Heq.
      assert (Hin : day_token d ∈ days r ∩ list_to_set (map day_token (d0 :: ds))).
      { apply elem_of_intersection. split; [done|].
        apply elem_of_list_to_set, list_elem_of_In. by apply in_map. }
      rewrite Heq in Hin. set_solver.
  - split; [by left; left|done].
Qed.

Lemma route_kept_days today dcn acn ttn ds dtf dtt atf att mpf mps r :
  route_kept today dcn acn ttn ds dtf dtt atf att mpf mps r = true
  <-> route_kept today dcn acn ttn None dtf dtt atf att mpf mps r = true
      /\ no_common_day ds r = false.
Proof.
  unfold route_kept. change (no_common_day None r) with false.
  repeat (match goal with
          | |- context [if ?b then false else _] =>
              destruct b; [intuition discriminate|]
          end).
  tauto.
Qed.
End FilterMore.

(** X5: constraints given as [None], as the empty string or as the empty
    list of days restrict nothing: the filter returns the collection as it
    is, in its order. *)
Theorem X5_blank_constraints_keep_all {price : Type} `{Fare price}
    (today : Z) (routes : list (Route price))
    (from_city to_city : option string) (q : Filters price) :
  blank from_city -> blank to_city -> blank (f_train_type q) ->
  no_days (f_days q) ->
  Forall blank (time_bounds q) ->
  f_max_price_first q = None -> f_max_price_second q = None ->
  filter_routes today routes from_city to_city q = inr routes.
Proof.
  intros Hf Ht Htt Hd Hb Hp1 Hp2. unfold time_bounds in Hb.
  apply Forall_cons in Hb as [B1 Hb]. apply Forall_cons in Hb as [B2 Hb].
  apply Forall_cons in Hb as [B3 Hb]. apply Forall_cons in Hb as [B4 _].
  unfold filter_routes.
  rewrite !parse_time_if_blank, !lower_if_blank, day_set_of_no_days, Hp1, Hp2
    by done.
  f_equal. by apply filter_all.
Qed.

Lemma X5_witness :
  filter_routes a_day [R1; R2; R3] (Some EmptyString) None
    (mkFilters (Some EmptyString) (Some []) (Some EmptyString) None None None
               None None)
  = inr [R1; R2; R3].
Proof.
  apply (X5_blank_constraints_keep_all a_day [R1; R2; R3]);
    try (by left); try (by right); try reflexivity.
  repeat constructor; (by left) || (by right).
Defined.

(** X6: the filter is idempotent: filtering its result again with the same
    constraints returns the result. *)
Theorem X6_filter_idempotent {price : Type} `{Fare price} (today : Z)
    (routes out : list (Route price)) (from_city to_city : option string)
    (q : Filters price) :
  filter_routes today routes from_city to_city q = inr out ->
  filter_routes today out from_city to_city q = inr out.
Proof.
  intros Hout.
  destruct (filter_routes_inr_filter _ _ _ _ _ _ Hout)
    as (dtf & dtt & atf & att & Hall).
  rewrite Hall in Hout. injection Hout as <-.
  rewrite Hall. f_equal. apply filter_twice.
Qed.

Lemma X6_witness :
  filter_routes a_day [R3] None None night_window = inr [R3].
Proof.
  apply (X6_filter_idempotent a_day [R1; R2; R3] [R3] None None night_window).
  by vm_compute.
Defined.

(** X7: the filter only drops routes: its result is a subsequence of the
    collection, the routes kept in their order, none added or repeated. *)
Theorem X7_filter_sublist {price : Type} `{Fare price} (today : Z)
    (routes out : list (Route price)) (from_city to_city : option string)
    (q : Filters price) :
  filter_routes today routes from_city to_city q = inr out ->
  sublist out routes /\ (length out <= length routes)%nat.
Proof.
  intros Hout.
  destruct (filter_routes_inr_filter _ _ _ _ _ _ Hout)
    as (dtf & dtt & atf & att & Hall).
  rewrite Hall in Hout. injection Hout as <-.
  split; [apply filter_sublist|]. apply sublist_length, filter_sublist.
Qed.

Lemma X7_witness :
  sublist [R3] [R1; R2; R3] /\ (length [R3] <= length [R1; R2; R3])%nat.
Proof.
  apply (X7_filter_sublist a_day [R1; R2; R3] [R3] None None night_window).
  by vm_compute.
Defined.

(** X8: two filters commute: filtering by one set of constraints and then
    by another gives the same routes as doing it the other way round. *)
Theorem X8_filters_commute {price : Type} `{Fare price} (today : Z)
    (routes out1 out2 : list (Route price))
    (from1 to1 from2 to2 : option string) (q1 q2 : Filters price) :
  filter_routes today routes from1 to1 q1 = inr out1 ->
  filter_routes today routes from2 to2 q2 = inr out2 ->
  exists out,
    filter_routes today out1 from2 to2 q2 = inr out /\
    filter_routes today out2 from1 to1 q1 = inr out.
Proof.
  intros H1 H2.
  destruct (filter_routes_inr_filter _ _ _ _ _ _ H1)
    as (dtf & dtt & atf & att & Hall1).
  destruct (filter_routes_inr_filter _ _ _ _ _ _ H2)
    as (dtf' & dtt' & atf' & att' & Hall2).
  rewrite Hall1 in H1. injection H1 as <-.
  rewrite Hall2 in H2. injection H2 as <-.
  eexists. split; [apply Hall2|]. rewrite Hall1. f_equal. apply filter_swap.
Qed.

Lemma X8_witness :
  exists out,
    filter_routes a_day [R2; R5] None None night_window = inr out /\
    filter_routes a_day [R3; R5] None (Some "nice") no_filters = inr out.
Proof.
  apply (X8_filters_commute a_day [R1; R2; R3; R4; R5] [R2; R5] [R3; R5]
           None (Some "nice") None None no_filters night_window);
    by vm_compute.
Defined.

(** X9: a requested day matches by overlap, after the aliases: the routes
    the filter returns are those it returns without the day constraint
    that run on the day code [day_token d] of some requested day [d]. *)
Theorem X9_days_overlap {price : Type} `{Fare price} (today : Z)
    (routes out : list (Route price)) (from_city to_city : option string)
    (q : Filters price) :
  filter_routes today routes from_city to_city q = inr out ->
  exists out0,
    filter_routes today routes from_city to_city (without_days q) = inr out0 /\
    forall r, In r out <->
      In r out0 /\
      (no_days (f_days q) \/
       exists ds d, f_days q = Some ds /\ In d ds /\ day_token d ∈ days r).
Proof.
  intros Hout.
  destruct (filter_routes_inr_filter _ _ _ _ _ _ Hout)
    as (dtf & dtt & atf & att & Hall).
  rewrite Hall in Hout. injection Hout as <-.
  pose proof (Hall routes) as Hq. unfold filter_routes in Hq.
  unfold filter_routes, without_days. simpl.
  destruct (parse_time_if (f_dep_time_from q)) as [|dtf0]; [discriminate|].
  destruct (parse_time_if (f_dep_time_to q)) as [|dtt0]; [discriminate|].
  destruct (parse_time_if (f_arr_time_from q)) as [|atf0]; [discriminate|].
  destruct (parse_time_if (f_arr_time_to q)) as [|att0]; [discriminate|].
  eexists. split; [reflexivity|]. intros r.
  injection Hq as Hq. rewrite <- Hq, !filter_In, route_kept_days,
    no_common_day_spec. tauto.
Qed.

Lemma X9_witness :
  exists out0,
    filter_routes a_day [R1; R2; R3] None None
      (without_days (mkFilters None (Some [" saturday "]) None None None None
                               None None)) = inr out0 /\
    forall r, In r [R1; R2; R3] <->
      In r out0 /\
      (no_days (Some [" saturday "]) \/
       exists ds d, Some [" saturday "] = Some ds /\ In d ds
                    /\ day_token d ∈ days r).
Proof.
  apply (X9_days_overlap a_day [R1; R2; R3] [R1; R2; R3] None None
           (mkFilters None (Some [" saturday "]) None None None None None None)).
  by vm_compute.
Defined.

(** ** What the connection search returns *)

Section ConnectionFacts.
Context {price : Type} `{Fare price}.
Implicit Types (r : Route price) (it : Itinerary price).
Implicit Types (routes filtered : list (Route price)) (q : Filters price).

Lemma enumerate_connection today filtered origin destination ms mt it :
  In it (enumerate today (index_routes filtered) origin destination ms mt)
  <-> connection today filtered origin destination ms mt it.
Proof.
  rewrite in_enumerate, in_direct_phase, in_one_stop_phase, in_two_stop_phase.
  split.
  - intros [(r & Hr & Ha & ->)
           |[(Hms & r1 & r2 & Hr1 & Hr2 & Ha & Hw & ->)
            |(Hms & r1 & r2 & r3 & Hr1 & Hr2 & Hr3 & Ha & Hw1 & Hw2 & ->)]].
    + apply in_routes_from_city in Hr as [? ?]. by constructor.
    + apply in_routes_from_city in Hr1 as [? ?], Hr2 as [? ?].
      by constructor.
    + apply in_routes_from_city in Hr1 as [? ?], Hr2 as [? ?], Hr3 as [? ?].
      by constructor.
  - intros [r Hr Hd Ha|r1 r2 Hms Hr1 Hr2 Hd1 Hd2 Ha Hw
           |r1 r2 r3 Hms Hr1 Hr2 Hr3 Hd1 Hd2 Hd3 Ha Hw1 Hw2].
    + left. exists r. by rewrite in_routes_from_city.
    + right. left. split; [done|]. exists r1, r2.
      by rewrite !in_routes_from_city.
    + right. right. split; [done|]. exists r1, r2, r3.
      by rewrite !in_routes_from_city.
Qed.

Lemma dedupe_In (l : list (Itinerary price)) it : In it (dedupe l) -> In it l.
Proof.
  induction l as [|x l IH] using rev_ind; [done|].
  rewrite in_app_iff. destruct (in_keys_dec l x) as [Hseen|Hnew].
  - rewrite dedupe_snoc_seen by done. auto.
  - rewrite dedupe_snoc_new, in_app_iff by done. intros [?|?]; auto.
Qed.

Lemma find_connected_inr today routes filtered origin destination ms mt q :
  filter_routes today routes None None q = inr filtered ->
  find_connected_itineraries today routes origin destination ms mt q
  = inr (dedupe (enumerate today (index_routes filtered) origin destination
                   ms mt)).
Proof. intros Hf. unfold find_connected_itineraries. by rewrite Hf. Qed.

Lemma find_connected_inr_inv today routes origin destination ms mt q out :
  find_connected_itineraries today routes origin destination ms mt q = inr out ->
  exists filtered,
    filter_routes today routes None None q = inr filtered /\
    out = dedupe (enumerate today (index_routes filtered) origin destination
                    ms mt).
Proof.
  unfold find_connected_itineraries.
  destruct (filter_routes today routes None None q) as [|filtered];
    [discriminate|].
  intros [= <-]. by exists filtered.
Qed.

Lemma found_connection today routes origin destination ms mt q out it :
  find_connected_itineraries today routes origin destination ms mt q = inr out ->
  In it out ->
  exists filtered,
    filter_routes today routes None None q = inr filtered /\
    connection today filtered origin destination ms mt it.
Proof.
  intros Hfind Hin.
  apply find_connected_inr_inv in Hfind as (filtered & Hf & ->).
  exists filtered. split; [done|]. by apply enumerate_connection, dedupe_In.
Qed.
End ConnectionFacts.

(** X10: the connection search is sound and complete for the chains of at
    most [max_stops + 1] filtered routes: every itinerary returned is a
    direct route, or two or three routes that connect from the origin to
    the destination with waits of at least [min_transfer]; and every such
    chain is returned, up to an itinerary with the same route
    identifiers. *)
Theorem X10_connections_found {price : Type} `{Fare price} (today : Z)
    (routes filtered : list (Route price)) (origin destination : string)
    (max_stops min_transfer : Z) (q : Filters price) :
  filter_routes today routes None None q = inr filtered ->
  exists out,
    find_connected_itineraries today routes origin destination
      max_stops min_transfer q = inr out /\
    (forall it, In it out ->
       connection today filtered origin destination max_stops min_transfer it)
    /\
    (forall it,
       connection today filtered origin destination max_stops min_transfer it ->
       exists it', In it' out /\ route_ids it' = route_ids it).
Proof.
  intros Hf. eexists. split; [by apply find_connected_inr|]. split.
  - intros it Hin. by apply enumerate_connection, dedupe_In.
  - intros it Hc. apply enumerate_connection in Hc.
    assert (Hk : In (route_ids it)
                   (map route_ids
                      (dedupe (enumerate today (index_routes filtered) origin
                                 destination max_stops min_transfer))))
      by (apply dedupe_keys; by apply in_map).
    apply in_map_iff in Hk as (it' & Hkey & Hin). by exists it'.
Qed.

Lemma X10_witness :
  exists out,
    find_connected_itineraries a_day [R1; R2; R4; R5] "Paris" "Nice" 1 20
      no_filters = inr out /\
    (forall it, In it out ->
       connection a_day [R1; R2; R4; R5] "Paris" "Nice" 1 20 it) /\
    (forall it,
       connection a_day [R1; R2; R4; R5] "Paris" "Nice" 1 20 it ->
       exists it', In it' out /\ route_ids it' = route_ids it).
Proof.
  apply (X10_connections_found a_day [R1; R2; R4; R5] [R1; R2; R4; R5]
           "Paris" "Nice" 1 20 no_filters).
  reflexivity.
Defined.

(** X11: the shape of a returned itinerary: one to three legs and never
    more stops than [max_stops] allows; its transfers are the waits between
    its consecutive legs, one fewer than the legs, each at least
    [min_transfer]. *)
Theorem X11_itinerary_shape {price : Type} `{Fare price} (today : Z)
    (routes : list (Route price)) (origin destination : string)
    (max_stops min_transfer : Z) (q : Filters price)
    (out : list (Itinerary price)) (it : Itinerary price) :
  find_connected_itineraries today routes origin destination
    max_stops min_transfer q = inr out ->
  In it out ->
  (1 <= length (legs it) <= 3)%nat /\
  num_stops it = Z.of_nat (length (legs it)) - 1 /\
  num_stops it <= Z.max 0 max_stops /\
  transfers_minutes it = waits today (legs it) /\
  Z.of_nat (length (transfers_minutes it)) = num_stops it /\
  Forall (fun w => min_transfer <= w) (transfers_minutes it).
Proof.
  intros Hfind Hin.
  destruct (found_connection _ _ _ _ _ _ _ _ _ Hfind Hin) as (filtered & _ & Hc).
  destruct Hc; unfold num_stops; simpl; repeat split; try lia;
    repeat constructor; done.
Qed.

Lemma X11_witness :
  (1 <= length (legs night_connection) <= 3)%nat /\
  num_stops night_connection
  = Z.of_nat (length (legs night_connection)) - 1 /\
  num_stops night_connection <= Z.max 0 1 /\
  transfers_minutes night_connection
  = waits a_day (legs night_connection) /\
  Z.of_nat (length (transfers_minutes night_connection))
  = num_stops night_connection /\
  Forall (fun w => 10 <= w)
    (transfers_minutes night_connection).
Proof.
  apply (X11_itinerary_shape a_day [R4; R5] "Paris" "Nice" 1 10 no_filters
           [night_connection]).
  - by vm_compute.
  - by left.
Defined.

(** X12: the path of a returned itinerary: it departs from the origin and
    arrives at the destination, each leg departs from the city the leg
    before it arrives in (names compared in lower case), and every leg is
    a route of the collection. *)
Theorem X12_itinerary_path {price : Type} `{Fare price} (today : Z)
    (routes : list (Route price)) (origin destination : string)
    (max_stops min_transfer : Z) (q : Filters price)
    (out : list (Itinerary price)) (it : Itinerary price) :
  find_connected_itineraries today routes origin destination
    max_stops min_transfer q = inr out ->
  In it out ->
  (exists c, itinerary_dep_city it = Some c
             /\ Str.lower c = Str.lower origin) /\
  (exists c, itinerary_arr_city it = Some c
             /\ Str.lower c = Str.lower destination) /\
  legs_chain (legs it) /\
  Forall (fun leg => In (route leg) routes) (legs it).
Proof.
  intros Hfind Hin.
  destruct (found_connection _ _ _ _ _ _ _ _ _ Hfind Hin) as (filtered & Hf & Hc).
  assert (Hsub : forall r, In r filtered -> In r routes)
    by (intros r; by eapply filter_routes_subset).
  destruct Hc; (split; [eexists; split; [reflexivity|done]|]);
    (split; [eexists; split; [reflexivity|done]|]);
    simpl; repeat split; try done; repeat constructor; simpl; auto.
Qed.

Lemma X12_witness :
  (exists c, itinerary_dep_city night_connection = Some c
             /\ Str.lower c = Str.lower "paris") /\
  (exists c, itinerary_arr_city night_connection = Some c
             /\ Str.lower c = Str.lower "NICE") /\
  legs_chain (legs night_connection) /\
  Forall (fun leg => In (route leg) [R4; R5])
    (legs night_connection).
Proof.
  apply (X12_itinerary_path a_day [R4; R5] "paris" "NICE" 1 10 no_filters
           [night_connection]).
  - by vm_compute.
  - by left.
Defined.

(** ** Durations of the itineraries returned *)

Section DurationFacts.
Context {price : Type} `{Fare price}.
Implicit Types (r : Route price) (it : Itinerary price).

Lemma duration_minutes_eq today r :
  duration_minutes today r = minutes_between today (dep_time r) (arr_time r).
Proof. reflexivity. Qed.

Lemma direct_duration today r :
  itinerary_duration_minutes today (mkItinerary [mkLeg r] [])
  = minutes_between today (dep_time r) (arr_time r).
Proof.
  unfold itinerary_duration_minutes, leg_duration_minutes, sum_Z. simpl.
  rewrite duration_minutes_eq. lia.
Qed.

Lemma one_stop_duration today r1 r2 w :
  itinerary_duration_minutes today (mkItinerary [mkLeg r1; mkLeg r2] [w])
  = minutes_between today (dep_time r1) (arr_time r1) + w
    + minutes_between today (dep_time r2) (arr_time r2).
Proof.
  unfold itinerary_duration_minutes, leg_duration_minutes, sum_Z. simpl.
  rewrite !duration_minutes_eq. lia.
Qed.

Lemma two_stop_duration today r1 r2 r3 w1 w2 :
  itinerary_duration_minutes today
    (mkItinerary [mkLeg r1; mkLeg r2; mkLeg r3] [w1; w2])
  = minutes_between today (dep_time r1) (arr_time r1) + w1
    + minutes_between today (dep_time r2) (arr_time r2) + w2
    + minutes_between today (dep_time r3) (arr_time r3).
Proof.
  unfold itinerary_duration_minutes, leg_duration_minutes, sum_Z. simpl.
  rewrite !duration_minutes_eq. lia.
Qed.
End DurationFacts.

(** X13: the total duration of a returned itinerary, for routes with
    clock times in range: it is at least the number of stops times
    [min_transfer], it is not negative, and it is below one day for each
    leg and each transfer. *)
Theorem X13_duration_bounds {price : Type} `{Fare price} (today : Z)
    (routes : list (Route price)) (origin destination : string)
    (max_stops min_transfer : Z) (q : Filters price)
    (out : list (Itinerary price)) (it : Itinerary price) :
  (forall r, In r routes -> time_ok (dep_time r) /\ time_ok (arr_time r)) ->
  find_connected_itineraries today routes origin destination
    max_stops min_transfer q = inr out ->
  In it out ->
  num_stops it * min_transfer <= itinerary_duration_minutes today it /\
  0 <= itinerary_duration_minutes today it <= 1439 * (2 * num_stops it + 1).
Proof.
  intros Hok Hfind Hin.
  destruct (found_connection _ _ _ _ _ _ _ _ _ Hfind Hin) as (filtered & Hf & Hc).
  assert (Hr : forall r, In r filtered ->
                 time_ok (dep_time r) /\ time_ok (arr_time r))
    by (intros r Hr; apply Hok; by eapply filter_routes_subset).
  assert (Hmb : forall t1 t2, time_ok t1 -> time_ok t2 ->
                  0 <= minutes_between today t1 t2 <= 1439)
    by (intros; by apply minutes_between_range).
  destruct Hc as [r Hr1 _ _|r1 r2 _ Hr1 Hr2 _ _ _ Hw
                 |r1 r2 r3 _ Hr1 Hr2 Hr3 _ _ _ _ Hw1 Hw2].
  - rewrite direct_duration. destruct (Hr r Hr1) as [Hd Ha].
    pose proof (Hmb _ _ Hd Ha). unfold num_stops. simpl. lia.
  - rewrite one_stop_duration.
    destruct (Hr r1 Hr1) as [Hd1 Ha1], (Hr r2 Hr2) as [Hd2 Ha2].
    pose proof (Hmb _ _ Hd1 Ha1). pose proof (Hmb _ _ Hd2 Ha2).
    pose proof (Hmb _ _ Ha1 Hd2). unfold num_stops. simpl. lia.
  - rewrite two_stop_duration.
    destruct (Hr r1 Hr1) as [Hd1 Ha1], (Hr r2 Hr2) as [Hd2 Ha2],
             (Hr r3 Hr3) as [Hd3 Ha3].
    pose proof (Hmb _ _ Hd1 Ha1). pose proof (Hmb _ _ Hd2 Ha2).
    pose proof (Hmb _ _ Hd3 Ha3). pose proof (Hmb _ _ Ha1 Hd2).
    pose proof (Hmb _ _ Ha2 Hd3). unfold num_stops. simpl. lia.
Qed.

Lemma X13_witness :
  num_stops night_connection * 10
  <= itinerary_duration_minutes a_day night_connection /\
  0 <= itinerary_duration_minutes a_day night_connection
    <= 1439 * (2 * num_stops night_connection + 1).
Proof.
  apply (X13_duration_bounds a_day [R4; R5] "Paris" "Nice" 1 10 no_filters
           [night_connection]).
  - intros r [<-|[<-|[]]]; unfold time_ok; simpl; lia.
  - by vm_compute.
  - by left.
Defined.

(** X14: for routes with clock times of whole minutes, the total duration
    of a returned itinerary is the distance on the clock from its
    departure to its arrival plus a whole number of days: modulo 1440 it
    is [minutes_between(dep_time, arr_time)] of the itinerary. *)
Theorem X14_duration_modulo_day {price : Type} `{Fare price} (today : Z)
    (routes : list (Route price)) (origin destination : string)
    (max_stops min_transfer : Z) (q : Filters price)
    (out : list (Itinerary price)) (it : Itinerary price) :
  (forall r, In r routes ->
     (time_ok (dep_time r) /\ whole_minute (dep_time r)) /\
     (time_ok (arr_time r) /\ whole_minute (arr_time r))) ->
  find_connected_itineraries today routes origin destination
    max_stops min_transfer q = inr out ->
  In it out ->
  exists dep arr,
    itinerary_dep_time it = Some dep /\
    itinerary_arr_time it = Some arr /\
    itinerary_duration_minutes today it mod 1440
    = minutes_between today dep arr.
Proof.
  intros Hok Hfind Hin.
  destruct (found_connection _ _ _ _ _ _ _ _ _ Hfind Hin) as (filtered & Hf & Hc).
  assert (Hr : forall r, In r filtered ->
                 (time_ok (dep_time r) /\ whole_minute (dep_time r)) /\
                 (time_ok (arr_time r) /\ whole_minute (arr_time r)))
    by (intros r Hr; apply Hok; by eapply filter_routes_subset).
  destruct Hc as [r Hr1 _ _|r1 r2 _ Hr1 Hr2 _ _ _ _
                 |r1 r2 r3 _ Hr1 Hr2 Hr3 _ _ _ _ _ _];
    eexists _, _; (split; [reflexivity|]); (split; [reflexivity|]).
  - rewrite direct_duration. destruct (Hr r Hr1) as [[? ?] [? ?]].
    cbn [route]. rewrite !minutes_between_whole by done. apply Z.mod_mod. lia.
  - rewrite one_stop_duration.
    destruct (Hr r1 Hr1) as [[? ?] [? ?]], (Hr r2 Hr2) as [[? ?] [? ?]].
    cbn [route]. rewrite !minutes_between_whole by done.
    Z.div_mod_to_equations. lia.
  - rewrite two_stop_duration.
    destruct (Hr r1 Hr1) as [[? ?] [? ?]], (Hr r2 Hr2) as [[? ?] [? ?]],
             (Hr r3 Hr3) as [[? ?] [? ?]].
    cbn [route]. rewrite !minutes_between_whole by done.
    Z.div_mod_to_equations. lia.
Qed.

Lemma X14_witness :
  exists dep arr,
    itinerary_dep_time night_connection = Some dep /\
    itinerary_arr_time night_connection = Some arr /\
    itinerary_duration_minutes a_day night_connection mod 1440
    = minutes_between a_day dep arr.
Proof.
  apply (X14_duration_modulo_day a_day [R4; R5] "Paris" "Nice" 1 10 no_filters
           [night_connection]).
  - intros r [<-|[<-|[]]]; unfold time_ok, whole_minute; simpl; lia.
  - by vm_compute.
  - by left.
Defined.

(** ** The maximum of stops *)

Section StopsFacts.
Context {price : Type} `{Fare price}.
Implicit Types (it x : Itinerary price) (l : list (Itinerary price)).
Implicit Types m : gmap string (list (Route price)).

(** The deduplication reads its input from the left: what it keeps of a
    list it keeps of every longer list. *)
Lemma dedupe_app l1 l2 : exists more, dedupe (l1 ++ l2) = (dedupe l1 ++ more)%list.
Proof.
  induction l2 as [|x l2 [more IH]] using rev_ind.
  - exists []. by rewrite !app_nil_r.
  - rewrite app_assoc. destruct (in_keys_dec (l1 ++ l2) x) as [Hseen|Hnew].
    + exists more. by rewrite dedupe_snoc_seen.
    + exists (more ++ [x])%list.
      by rewrite dedupe_snoc_new, IH, app_assoc.
Qed.

Lemma enumerate_more_stops today m origin destination (ms1 ms2 : Z) mt :
  ms1 <= ms2 ->
  exists more,
    enumerate today m origin destination ms2 mt
    = (enumerate today m origin destination ms1 mt ++ more)%list.
Proof.
  intros Hle. unfold enumerate, Z.geb.
  destruct (Z.compare_spec ms1 1), (Z.compare_spec ms1 2),
           (Z.compare_spec ms2 1), (Z.compare_spec ms2 2); try lia;
    rewrite ?app_nil_r; try (by exists []; rewrite app_nil_r);
    try (by eexists; rewrite <- app_assoc);
    by eexists.
Qed.

Lemma enumerate_stops_clamp today m origin destination (ms : Z) mt :
  enumerate today m origin destination ms mt
  = enumerate today m origin destination (Z.max 0 (Z.min 2 ms)) mt.
Proof.
  unfold enumerate, Z.geb.
  destruct (Z.compare_spec ms 1), (Z.compare_spec ms 2),
           (Z.compare_spec (Z.max 0 (Z.min 2 ms)) 1),
           (Z.compare_spec (Z.max 0 (Z.min 2 ms)) 2); try lia; done.
Qed.
End StopsFacts.

(** X15: allowing more stops only adds itineraries at the end: the list
    returned for [ms1] is the beginning of the list returned for any
    [ms2 >= ms1].  Values of [max_stops] below 0 count as 0 and values
    above 2 as 2. *)
Theorem X15_more_stops_extend {price : Type} `{Fare price} (today : Z)
    (routes filtered : list (Route price)) (origin destination : string)
    (ms1 ms2 min_transfer : Z) (q : Filters price) :
  filter_routes today routes None None q = inr filtered ->
  ms1 <= ms2 ->
  (exists out1 more,
     find_connected_itineraries today routes origin destination
       ms1 min_transfer q = inr out1 /\
     find_connected_itineraries today routes origin destination
       ms2 min_transfer q = inr (out1 ++ more)%list) /\
  find_connected_itineraries today routes origin destination
    ms1 min_transfer q
  = find_connected_itineraries today routes origin destination
      (Z.max 0 (Z.min 2 ms1)) min_transfer q.
Proof.
  intros Hf Hle. rewrite !(find_connected_inr _ _ _ _ _ _ _ _ Hf). split.
  - destruct (enumerate_more_stops today (index_routes filtered) origin
                destination ms1 ms2 min_transfer Hle) as [more ->].
    destruct (dedupe_app
                (enumerate today (index_routes filtered) origin destination
                   ms1 min_transfer) more) as [more' ->].
    by eexists _, _.
  - by rewrite enumerate_stops_clamp.
Qed.

Lemma X15_witness :
  (exists out1 more,
     find_connected_itineraries a_day [R1; R2; R4; R5] "Paris" "Lyon" 0 10
       no_filters = inr out1 /\
     find_connected_itineraries a_day [R1; R2; R4; R5] "Paris" "Lyon" 7 10
       no_filters = inr (out1 ++ more)%list) /\
  find_connected_itineraries a_day [R1; R2; R4; R5] "Paris" "Lyon" 0 10
    no_filters
  = find_connected_itineraries a_day [R1; R2; R4; R5] "Paris" "Lyon"
      (Z.max 0 (Z.min 2 0)) 10 no_filters.
Proof.
  apply (X15_more_stops_extend a_day [R1; R2; R4; R5] [R1; R2; R4; R5]
           "Paris" "Lyon" 0 7 10 no_filters); [reflexivity|lia].
Defined.

(** ** Direct search by substring and by name *)

Section DirectFacts.
Context {price : Type} `{Fare price}.
Implicit Types (r : Route price) (routes : list (Route price)).

Lemma prefix_refl (s : string) : String.prefix s s = true.
Proof.
  induction s as [|c s IH]; simpl; [done|].
  by destruct (ascii_dec c c).
Qed.

Lemma contains_refl (s : string) : Str.contains s s = true.
Proof. destruct s; [done|]. cbn [Str.contains]. by rewrite prefix_refl. Qed.

Lemma misses_same_city (query field : string) :
  Str.lower field = Str.lower query ->
  misses (lower_if (Some query)) field = false.
Proof.
  intros Heq. unfold misses, lower_if.
  destruct (Str.truthy query); [|done].
  by rewrite Heq, contains_refl, andb_false_r.
Qed.

Lemma filter_routes_inr_parse today routes fc tc (q : Filters price) out :
  filter_routes today routes fc tc q = inr out ->
  exists dtf dtt atf att,
    parse_time_if (f_dep_time_from q) = inr dtf /\
    parse_time_if (f_dep_time_to q) = inr dtt /\
    parse_time_if (f_arr_time_from q) = inr atf /\
    parse_time_if (f_arr_time_to q) = inr att.
Proof.
  unfold filter_routes.
  destruct (parse_time_if (f_dep_time_from q)) as [|dtf]; [discriminate|].
  destruct (parse_time_if (f_dep_time_to q)) as [|dtt]; [discriminate|].
  destruct (parse_time_if (f_arr_time_from q)) as [|atf]; [discriminate|].
  destruct (parse_time_if (f_arr_time_to q)) as [|att]; [discriminate|].
  intros _. by exists dtf, dtt, atf, att.
Qed.

Lemma route_kept_cities today dcn acn ttn ds dtf dtt atf att mpf mps r :
  route_kept today dcn acn ttn ds dtf dtt atf att mpf mps r
  = negb (misses dcn (dep_city r)) && negb (misses acn (arr_city r))
    && route_kept today None None ttn ds dtf dtt atf att mpf mps r.
Proof.
  unfold route_kept. simpl.
  by destruct (misses dcn (dep_city r)), (misses acn (arr_city r)).
Qed.
End DirectFacts.

(** X16: [find_direct_itineraries] matches the cities by substring, the
    connection search by their whole names: every itinerary the connection
    search returns without stops from [origin] to [destination] is among
    those of [find_direct_itineraries] for these cities. *)
Theorem X16_direct_includes_connected {price : Type} `{Fare price}
    (today : Z) (routes : list (Route price)) (origin destination : string)
    (min_transfer : Z) (q : Filters price) (out : list (Itinerary price)) :
  find_connected_itineraries today routes origin destination
    0 min_transfer q = inr out ->
  exists direct,
    find_direct_itineraries today routes (Some origin) (Some destination) q
    = inr direct /\
    forall it, In it out -> In it direct.
Proof.
  intros Hfind.
  destruct (find_connected_inr_inv _ _ _ _ _ _ _ _ Hfind) as (filtered & Hf & _).
  destruct (filter_routes_inr_parse _ _ _ _ _ _ Hf)
    as (dtf & dtt & atf & att & E1 & E2 & E3 & E4).
  unfold find_direct_itineraries.
  rewrite (filter_routes_succeeds today routes (Some origin) (Some destination)
             q dtf dtt atf att E1 E2 E3 E4).
  eexists. split; [reflexivity|]. intros it Hin.
  destruct (found_connection _ _ _ _ _ _ _ _ _ Hfind Hin) as (filtered' & Hf' & Hc).
  rewrite Hf in Hf'. injection Hf' as <-.
  destruct Hc as [r Hr Hdep Harr|r1 r2 Hms|r1 r2 r3 Hms]; [|lia|lia].
  apply in_map_iff. exists r. split; [done|].
  rewrite (filter_routes_succeeds today routes None None q dtf dtt atf att
             E1 E2 E3 E4) in Hf.
  injection Hf as <-.
  apply filter_In in Hr as [Hr Hk]. apply filter_In. split; [done|].
  rewrite route_kept_cities, !misses_same_city by done. exact Hk.
Qed.

Lemma X16_witness :
  exists direct,
    find_direct_itineraries a_day [R1; R2; R4] (Some "Paris") (Some "Lyon")
      no_filters = inr direct /\
    forall it,
      In it [mkItinerary [mkLeg R1] []; mkItinerary [mkLeg R4] []] ->
      In it direct.
Proof.
  apply (X16_direct_includes_connected a_day [R1; R2; R4] "Paris" "Lyon" 10
           no_filters).
  by vm_compute.
Defined.

(** X17: the connection search and the ranked search do not depend on the
    case of the names of the origin and the destination. *)
Theorem X17_search_ignores_case {price : Type} `{Fare price} (today : Z)
    (routes : list (Route price))
    (origin origin' destination destination' : string)
    (max_stops min_transfer : Z) (q : Filters price)
    (cls sort_by : string) (limit : option Z) :
  Str.lower origin = Str.lower origin' ->
  Str.lower destination = Str.lower destination' ->
  find_connected_itineraries today routes origin destination
    max_stops min_transfer q
  = find_connected_itineraries today routes origin' destination'
      max_stops min_transfer q /\
  search_itineraries today routes (Some origin) (Some destination) q cls
    max_stops min_transfer sort_by limit
  = search_itineraries today routes (Some origin') (Some destination') q cls
      max_stops min_transfer sort_by limit.
Proof.
  intros Ho Hd.
  assert (Hfind : find_connected_itineraries today routes origin destination
                    max_stops min_transfer q
                  = find_connected_itineraries today routes origin'
                      destination' max_stops min_transfer q).
  { assert (Hfrom : forall m : gmap string (list (Route price)),
               routes_from_city m origin = routes_from_city m origin')
      by (intros m; unfold routes_from_city; by rewrite Ho).
    unfold find_connected_itineraries, enumerate, direct_phase,
      one_stop_phase, two_stop_phase.
    destruct (filter_routes today routes None None q); [done|].
    by rewrite !Hfrom, Hd. }
  split; [exact Hfind|]. unfold search_itineraries. simpl. by rewrite Hfind.
Qed.

Lemma X17_witness :
  find_connected_itineraries a_day [R1; R2] "PARIS" "nice" 1 20 no_filters
  = find_connected_itineraries a_day [R1; R2] "Paris" "Nice" 1 20 no_filters /\
  search_itineraries a_day [R1; R2] (Some "PARIS") (Some "nice") no_filters
    "second" 1 20 "duration" None
  = search_itineraries a_day [R1; R2] (Some "Paris") (Some "Nice") no_filters
      "second" 1 20 "duration" None.
Proof.
  apply (X17_search_ignores_case a_day [R1; R2] "PARIS" "Paris" "nice" "Nice"
           1 20 no_filters "second" "duration" None); reflexivity.
Defined.

(** ** The ranked search keeps what the connection search found *)

Section PermutationFacts.
Context {K A : Type} (lt : K -> K -> bool).

Lemma insert_by_Permutation (x : K * A) l :
  Permutation (insert_by lt x l) (x :: l).
Proof.
  induction l as [|y l IH]; simpl; [done|].
  destruct (lt x.1 y.1); [done|].
  rewrite IH. apply perm_swap.
Qed.

Lemma fold_insert_by_Permutation (xs acc : list (K * A)) :
  Permutation (fold_left (fun acc x => insert_by lt x acc) xs acc) (xs ++ acc).
Proof.
  revert acc. induction xs as [|x xs IH]; intros acc; simpl; [done|].
  rewrite IH, insert_by_Permutation. symmetry. apply Permutation_middle.
Qed.

Lemma sort_by_key_Permutation (key : A -> K) (l : list A) :
  Permutation (sort_by_key lt key l) l.
Proof.
  unfold sort_by_key.
  rewrite fold_insert_by_Permutation, app_nil_r, map_map. simpl.
  by rewrite map_id.
Qed.
End PermutationFacts.

Lemma slice_to_split {A : Type} (l : list A) (n : Z) :
  exists rest,
    l = (slice_to l n ++ rest)%list /\
    Z.of_nat (length (slice_to l n))
    = if n <? 0 then Z.max 0 (Z.of_nat (length l) + n)
      else Z.min n (Z.of_nat (length l)).
Proof.
  unfold slice_to. destruct (Z.ltb_spec n 0).
  - exists (skipn (Z.to_nat (Z.of_nat (length l) + n)) l).
    split; [by rewrite firstn_skipn|]. rewrite length_firstn. lia.
  - exists (skipn (Z.to_nat n) l).
    split; [by rewrite firstn_skipn|]. rewrite length_firstn. lia.
Qed.

(** X18: the ranked search loses nothing by sorting: without a cap it
    returns the itineraries of the connection search, each as often, in
    another order.  A cap [n >= 0] keeps the first [n] of them; a cap
    [n < 0] drops the last [-n]. *)
Theorem X18_ranking_keeps_results {price : Type} `{Fare price} (today : Z)
    (routes : list (Route price)) (from_city to_city : option string)
    (q : Filters price) (cls : string) (max_stops min_transfer : Z)
    (sort_by : string) (found : list (Itinerary price)) :
  find_connected_itineraries today routes (default EmptyString from_city)
    (default EmptyString to_city) max_stops min_transfer q = inr found ->
  exists ranked,
    search_itineraries today routes from_city to_city q cls
      max_stops min_transfer sort_by None = inr ranked /\
    Permutation found ranked /\
    forall n, exists out rest,
      search_itineraries today routes from_city to_city q cls
        max_stops min_transfer sort_by (Some n) = inr out /\
      ranked = (out ++ rest)%list /\
      Z.of_nat (length out)
      = if n <? 0 then Z.max 0 (Z.of_nat (length ranked) + n)
        else Z.min n (Z.of_nat (length ranked)).
Proof.
  intros Hfound. unfold search_itineraries. rewrite Hfound.
  eexists. split; [reflexivity|]. split.
  - destruct (String.eqb sort_by "price");
      symmetry; apply sort_by_key_Permutation.
  - intros n.
    match goal with
    | |- context [slice_to ?l n] =>
        destruct (slice_to_split l n) as (rest & Hsplit & Hlen)
    end.
    eexists _, rest. split; [reflexivity|]. by split.
Qed.

Lemma X18_witness :
  exists ranked,
    search_itineraries a_day [R1; R2; R4; R5] (Some "Paris") (Some "Nice")
      no_filters "second" 2 10 "price" None = inr ranked /\
    Permutation
      [mkItinerary [mkLeg R1; mkLeg R2] [30];
       mkItinerary [mkLeg R1; mkLeg R5] [850];
       mkItinerary [mkLeg R4; mkLeg R2] [640];
       mkItinerary [mkLeg R4; mkLeg R5] [20]] ranked /\
    forall n, exists out rest,
      search_itineraries a_day [R1; R2; R4; R5] (Some "Paris") (Some "Nice")
        no_filters "second" 2 10 "price" (Some n) = inr out /\
      ranked = (out ++ rest)%list /\
      Z.of_nat (length out)
      = if n <? 0 then Z.max 0 (Z.of_nat (length ranked) + n)
        else Z.min n (Z.of_nat (length ranked)).
Proof.
  apply (X18_ranking_keeps_results a_day [R1; R2; R4; R5] (Some "Paris")
           (Some "Nice") no_filters "second" 2 10 "price").
  by vm_compute.
Defined.

(** ** Unique route identifiers *)

Section NoDupFacts.
Context {A B K T : Type}.

Lemma NoDup_map_inj_on (f : A -> T) (l : list A) x y :
  List.NoDup (map f l) -> In x l -> In y l -> f x = f y -> x = y.
Proof.
  induction l as [|a l IH]; simpl; [done|].
  intros Hnd. apply List.NoDup_cons_iff in Hnd as [Ha Hnd].
  intros [<-|Hx] [<-|Hy] Heq; try done.
  - destruct Ha. rewrite Heq. by apply in_map.
  - destruct Ha. rewrite <- Heq. by apply in_map.
  - by apply IH.
Qed.

Lemma NoDup_map_filter (f : A -> T) (p : A -> bool) (l : list A) :
  List.NoDup (map f l) -> List.NoDup (map f (List.filter p l)).
Proof.
  induction l as [|a l IH]; simpl; [done|].
  intros Hnd. apply List.NoDup_cons_iff in Hnd as [Ha Hnd].
  destruct (p a); simpl; [|by apply IH].
  apply List.NoDup_cons; [|by apply IH].
  intros Hin. apply Ha. apply in_map_iff in Hin as (x & Hx & Hin).
  apply filter_In in Hin as [Hin _]. rewrite <- Hx. by apply in_map.
Qed.

Lemma map_flat_map (g : A -> list B) (key : B -> K) (l : list A) :
  map key (flat_map g l) = flat_map (fun x => map key (g x)) l.
Proof.
  induction l as [|a l IH]; simpl; [done|]. by rewrite map_app, IH.
Qed.

(** Keys that name the element they come from do not repeat, when the
    names do not. *)
Lemma NoDup_keys_flat_map (g : A -> list B) (key : B -> K) (tag : A -> T)
    (proj : K -> T) (l : list A) :
  List.NoDup (map tag l) ->
  (forall x b, In x l -> In b (g x) -> proj (key b) = tag x) ->
  (forall x, In x l -> List.NoDup (map key (g x))) ->
  List.NoDup (map key (flat_map g l)).
Proof.
  induction l as [|a l IH]; simpl; intros Hnd Htag Hin; [constructor|].
  apply List.NoDup_cons_iff in Hnd as [Ha Hnd].
  rewrite map_app. apply List.NoDup_app.
  - apply Hin. by left.
  - apply IH; [done| |]; intros; [apply Htag|apply Hin]; auto.
  - intros k Hk1 Hk2. apply Ha.
    apply in_map_iff in Hk1 as (b1 & <- & Hb1).
    apply in_map_iff in Hk2 as (b2 & Hkey & Hb2).
    apply in_flat_map in Hb2 as (x & Hx & Hb2).
    rewrite <- (Htag a b1) by auto. rewrite <- Hkey.
    rewrite (Htag x b2) by auto. by apply in_map.
Qed.
End NoDupFacts.

Section UniqueFacts.
Context {price : Type} `{Fare price}.
Implicit Types (r : Route price) (it : Itinerary price).
Implicit Types (filtered : list (Route price)).

Lemma dedupe_NoDup_id (l : list (Itinerary price)) :
  List.NoDup (map route_ids l) -> dedupe l = l.
Proof.
  induction l as [|x l IH] using rev_ind; [done|].
  rewrite map_app. intros Hnd.
  assert (Hl : List.NoDup (map route_ids l))
    by (by apply NoDup_app_remove_r in Hnd).
  assert (Hnew : ~ In (route_ids x) (map route_ids l)).
  { apply NoDup_remove_2 in Hnd. by rewrite app_nil_r in Hnd. }
  by rewrite dedupe_snoc_new, IH.
Qed.

Lemma routes_from_city_NoDup filtered city :
  List.NoDup (map route_id filtered) ->
  List.NoDup (map route_id (routes_from_city (index_routes filtered) city)).
Proof. intros Hnd. rewrite routes_from_city_index. by apply NoDup_map_filter. Qed.

Lemma direct_phase_NoDup filtered origin destination :
  List.NoDup (map route_id filtered) ->
  List.NoDup (map route_ids
                (direct_phase (index_routes filtered) origin destination)).
Proof.
  intros Hnd. unfold direct_phase.
  apply (NoDup_keys_flat_map _ route_ids route_id (hd EmptyString)).
  - by apply routes_from_city_NoDup.
  - intros r b _. destruct (String.eqb _ _); [|done]. by intros [<-|[]].
  - intros r _. destruct (String.eqb _ _); repeat constructor. by intros [].
Qed.

Lemma one_stop_phase_NoDup today filtered origin destination mt :
  List.NoDup (map route_id filtered) ->
  List.NoDup (map route_ids
                (one_stop_phase today (index_routes filtered) origin
                   destination mt)).
Proof.
  intros Hnd. unfold one_stop_phase.
  apply (NoDup_keys_flat_map _ route_ids route_id (hd EmptyString)).
  - by apply routes_from_city_NoDup.
  - intros r1 b _ Hb. apply in_flat_map in Hb as (r2 & _ & Hb).
    destruct (negb _); [done|]. simpl in Hb.
    destruct (_ <? mt); [done|]. by destruct Hb as [<-|[]].
  - intros r1 _.
    apply (NoDup_keys_flat_map _ route_ids route_id
             (fun k => nth 1 k EmptyString)).
    + by apply routes_from_city_NoDup.
    + intros r2 b _. destruct (negb _); [done|]. simpl.
      destruct (_ <? mt); [done|]. by intros [<-|[]].
    + intros r2 _. destruct (negb _); [constructor|]. simpl.
      destruct (_ <? mt); repeat constructor. by intros [].
Qed.

Lemma two_stop_phase_NoDup today filtered origin destination mt :
  List.NoDup (map route_id filtered) ->
  List.NoDup (map route_ids
                (two_stop_phase today (index_routes filtered) origin
                   destination mt)).
Proof.
  intros Hnd. unfold two_stop_phase.
  apply (NoDup_keys_flat_map _ route_ids route_id (hd EmptyString)).
  - by apply routes_from_city_NoDup.
  - intros r1 b _ Hb. apply in_flat_map in Hb as (r2 & _ & Hb).
    cbv zeta in Hb. destruct (_ <? mt); [done|].
    apply in_flat_map in Hb as (r3 & _ & Hb).
    destruct (negb _); [done|]. simpl in Hb.
    destruct (_ <? mt); [done|]. by destruct Hb as [<-|[]].
  - intros r1 _.
    apply (NoDup_keys_flat_map _ route_ids route_id
             (fun k => nth 1 k EmptyString)).
    + by apply routes_from_city_NoDup.
    + intros r2 b _ Hb. cbv zeta in Hb. destruct (_ <? mt); [done|].
      apply in_flat_map in Hb as (r3 & _ & Hb).
      destruct (negb _); [done|]. simpl in Hb.
      destruct (_ <? mt); [done|]. by destruct Hb as [<-|[]].
    + intros r2 _. cbv zeta. destruct (_ <? mt); [constructor|].
      apply (NoDup_keys_flat_map _ route_ids route_id
               (fun k => nth 2 k EmptyString)).
      * by apply routes_from_city_NoDup.
      * intros r3 b _. destruct (negb _); [done|]. simpl.
        destruct (_ <? mt); [done|]. by intros [<-|[]].
      * intros r3 _. destruct (negb _); [constructor|]. simpl.
        destruct (_ <? mt); repeat constructor. by intros [].
Qed.

Lemma enumerate_NoDup today filtered origin destination ms mt :
  List.NoDup (map route_id filtered) ->
  List.NoDup (map route_ids
                (enumerate today (index_routes filtered) origin destination
                   ms mt)).
Proof.
  intros Hnd. unfold enumerate. rewrite !map_app.
  assert (H1 : forall k,
             In k (map route_ids
                     (direct_phase (index_routes filtered) origin destination)) ->
             length k = 1%nat).
  { intros k Hk. apply in_map_iff in Hk as (it & <- & Hit).
    by apply in_direct_phase in Hit as (r & _ & _ & ->). }
  assert (H2 : forall k,
             In k (map route_ids
                     (if ms >=? 1
                      then one_stop_phase today (index_routes filtered) origin
                             destination mt
                      else [])) ->
             length k = 2%nat).
  { intros k Hk. apply in_map_iff in Hk as (it & <- & Hit).
    destruct (ms >=? 1); [|done].
    by apply in_one_stop_phase in Hit as (r1 & r2 & _ & _ & _ & _ & ->). }
  assert (H3 : forall k,
             In k (map route_ids
                     (if ms >=? 2
                      then two_stop_phase today (index_routes filtered) origin
                             destination mt
                      else [])) ->
             length k = 3%nat).
  { intros k Hk. apply in_map_iff in Hk as (it & <- & Hit).
    destruct (ms >=? 2); [|done].
    by apply in_two_stop_phase in Hit
      as (r1 & r2 & r3 & _ & _ & _ & _ & _ & _ & ->). }
  apply List.NoDup_app; [by apply direct_phase_NoDup| |].
  - apply List.NoDup_app.
    + destruct (ms >=? 1); [by apply one_stop_phase_NoDup|constructor].
    + destruct (ms >=? 2); [by apply two_stop_phase_NoDup|constructor].
    + intros k Hk2 Hk3. apply H2 in Hk2. apply H3 in Hk3. congruence.
  - intros k Hk1 Hk. apply H1 in Hk1.
    apply in_app_iff in Hk as [Hk|Hk]; [apply H2 in Hk|apply H3 in Hk];
      congruence.
Qed.
End UniqueFacts.

(** X19: when the routes of the collection have distinct identifiers, the
    deduplication drops nothing: the connection search returns every
    connection, each once, in the order of the enumeration. *)
Theorem X19_unique_ids_nothing_dropped {price : Type} `{Fare price}
    (today : Z) (routes filtered : list (Route price))
    (origin destination : string) (max_stops min_transfer : Z)
    (q : Filters price) :
  List.NoDup (map route_id routes) ->
  filter_routes today routes None None q = inr filtered ->
  exists out,
    find_connected_itineraries today routes origin destination
      max_stops min_transfer q = inr out /\
    out = enumerate today (index_routes filtered) origin destination
            max_stops min_transfer /\
    List.NoDup out /\
    forall it, In it out <->
      connection today filtered origin destination max_stops min_transfer it.
Proof.
  intros Hnd Hf.
  assert (Hfilt : List.NoDup (map route_id filtered)).
  { destruct (filter_routes_inr_filter _ _ _ _ _ _ Hf)
      as (dtf & dtt & atf & att & Hall).
    rewrite Hall in Hf. injection Hf as <-. by apply NoDup_map_filter. }
  pose proof (enumerate_NoDup today filtered origin destination max_stops
                min_transfer Hfilt) as Hkeys.
  eexists. split; [by apply find_connected_inr|].
  rewrite (dedupe_NoDup_id _ Hkeys). split; [done|]. split.
  - by apply NoDup_map_inv in Hkeys.
  - intros it. apply enumerate_connection.
Qed.

Lemma X19_witness :
  exists out,
    find_connected_itineraries a_day [R1; R2; R4; R5] "Paris" "Nice" 2 10
      no_filters = inr out /\
    out = enumerate a_day (index_routes [R1; R2; R4; R5]) "Paris" "Nice" 2 10 /\
    List.NoDup out /\
    forall it, In it out <->
      connection a_day [R1; R2; R4; R5] "Paris" "Nice" 2 10 it.
Proof.
  apply (X19_unique_ids_nothing_dropped a_day [R1; R2; R4; R5]
           [R1; R2; R4; R5] "Paris" "Nice" 2 10 no_filters); [|reflexivity].
  apply NoDup_ListNoDup, (bool_decide_unpack _). by vm_compute.
Defined.

(** ** Days of operation *)

Section DaysFacts.

Lemma DAY_ALIASES_codes k v :
  DAY_ALIASES !! k = Some v ->
  In v ["Mon"; "Tue"; "Wed"; "Thu"; "Fri"; "Sat"; "Sun"].
Proof.
  intros Hk. unfold DAY_ALIASES in Hk.
  apply elem_of_list_to_map_2, list_elem_of_In in Hk. simpl in Hk.
  repeat (destruct Hk as [[= <- <-]|Hk]; [simpl; tauto|]). done.
Qed.

Lemma title_from_length b s :
  String.length (Str.title_from b s) = String.length s.
Proof. revert b. induction s as [|c s IH]; intros b; simpl; [done|]. by rewrite IH. Qed.

Lemma take_chars_length n s :
  String.length (take_chars n s) = Nat.min n (String.length s).
Proof.
  revert s. induction n as [|n IH]; intros [|c s]; simpl; try done.
  by rewrite IH.
Qed.

Lemma day_of_part_length p :
  p <> EmptyString -> (1 <= String.length (day_of_part p) <= 3)%nat.
Proof.
  intros Hp. unfold day_of_part. cbv zeta.
  destruct (DAY_ALIASES !! _) as [v|] eqn:E; cbn [from_option id].
  - apply DAY_ALIASES_codes in E. simpl in E.
    repeat (destruct E as [<-|E]; [simpl; lia|]). done.
  - unfold Str.title. rewrite title_from_length, take_chars_length.
    destruct p; [done|]. cbn [String.length]. lia.
Qed.

Lemma parse_days_parts s :
  parse_days s = list_to_set (map day_of_part (day_parts s)).
Proof. unfold parse_days. by destruct s. Qed.

Lemma in_parse_days s d :
  d ∈ parse_days s <-> exists p, In p (day_parts s) /\ d = day_of_part p.
Proof.
  rewrite parse_days_parts, elem_of_list_to_set, list_elem_of_In, in_map_iff.
  split; intros (p & Hp & Hd); exists p; by split.
Qed.

Lemma split_on_cons sep s : exists w ws, split_on sep s = w :: ws.
Proof.
  induction s as [|c s (w & ws & IH)]; simpl; [by eexists _, _|].
  destruct (Ascii.eqb c sep); [by eexists _, _|]. rewrite IH. by eexists _, _.
Qed.

Lemma split_on_app sep s1 s2 :
  split_on sep (s1 ++ String sep s2)
  = (split_on sep s1 ++ split_on sep s2)%list.
Proof.
  induction s1 as [|c s1 IH]; simpl.
  - by rewrite Ascii.eqb_refl.
  - destruct (Ascii.eqb c sep); [by rewrite IH|].
    rewrite IH. by destruct (split_on_cons sep s1) as (w & ws & ->).
Qed.

Lemma replace_char_app a b s1 s2 :
  replace_char a b (s1 ++ s2)
  = (replace_char a b s1 ++ replace_char a b s2)%string.
Proof. induction s1 as [|c s1 IH]; simpl; [done|]. by rewrite IH. Qed.

Lemma day_parts_app sep s1 s2 :
  sep = ","%char \/ sep = "/"%char ->
  day_parts (s1 ++ String sep s2) = (day_parts s1 ++ day_parts s2)%list.
Proof.
  intros Hsep. unfold day_parts. rewrite replace_char_app.
  assert (Hc : replace_char "/" "," (String sep s2)
               = String ","%char (replace_char "/" "," s2))
    by (by destruct Hsep as [-> | ->]).
  by rewrite Hc, split_on_app, map_app, List.filter_app.
Qed.
End DaysFacts.

(** X20: on a text of ASCII characters, every day code [parse_days]
    returns has one to three characters: it is a code of [DAY_ALIASES] or
    the first characters of a part in title case; the empty string gives
    no day. *)
Theorem X20_day_codes_short (s d : string) :
  ascii_text s = true ->
  d ∈ parse_days s ->
  parse_days EmptyString = ∅ /\ (1 <= String.length d <= 3)%nat.
Proof.
  intros _ Hd. split; [done|].
  apply in_parse_days in Hd as (p & Hp & ->).
  apply day_of_part_length. unfold day_parts in Hp.
  apply filter_In in Hp as [_ Hp]. by destruct p.
Qed.

Lemma X20_witness :
  ascii_text "Mon, tuesday/THURSDAYS" = true /\
  "Thu" ∈ parse_days "Mon, tuesday/THURSDAYS" /\
  parse_days EmptyString = ∅ /\ (1 <= String.length "Thu" <= 3)%nat.
Proof.
  assert (Ha : ascii_text "Mon, tuesday/THURSDAYS" = true) by reflexivity.
  assert (Hd : "Thu" ∈ parse_days "Mon, tuesday/THURSDAYS").
  { apply in_parse_days. exists "THURSDAYS". split; [|by vm_compute].
    right. right. left. reflexivity. }
  split; [exact Ha|]. split; [exact Hd|].
  exact (X20_day_codes_short "Mon, tuesday/THURSDAYS" "Thu" Ha Hd).
Defined.

(** X21: the names of a day agree: for two keys of [DAY_ALIASES] with the
    same code, a route whose days are read by [parse_days] from the one
    runs on the day the filter makes of the other, and a code is read as
    itself by both. *)
Theorem X21_day_aliases_agree (k1 k2 v : string) :
  DAY_ALIASES !! k1 = Some v -> DAY_ALIASES !! k2 = Some v ->
  parse_days k1 = {[v]} /\ day_token k2 = v /\
  day_token k2 ∈ parse_days k1 /\
  parse_days v = {[v]} /\ day_token v = v.
Proof.
  intros H1 H2.
  assert (Hkeys : forall k, DAY_ALIASES !! k = Some v ->
            parse_days k = {[v]} /\ day_token k = v /\
            parse_days v = {[v]} /\ day_token v = v).
  { intros k Hk. unfold DAY_ALIASES in Hk.
    apply elem_of_list_to_map_2, list_elem_of_In in Hk. simpl in Hk.
    repeat (destruct Hk as [[= <- <-]|Hk]; [by vm_compute|]). done. }
  destruct (Hkeys k1 H1) as (P1 & _ & Pv & Tv).
  destruct (Hkeys k2 H2) as (_ & T2 & _ & _).
  repeat split; try done. rewrite P1, T2. set_solver.
Qed.

Lemma X21_witness :
  parse_days "saturday" = {["Sat"]} /\ day_token "sat" = "Sat" /\
  day_token "sat" ∈ parse_days "saturday" /\
  parse_days "Sat" = {["Sat"]} /\ day_token "Sat" = "Sat".
Proof.
  apply (X21_day_aliases_agree "saturday" "sat" "Sat"); by vm_compute.
Defined.

(** X22: [parse_days] reads a list: the days of two texts joined by a
    comma or by a slash are the days of the one and the days of the other,
    whatever their order, their repetitions and the empty fields. *)
Theorem X22_parse_days_union (sep : ascii) (s1 s2 : string) :
  sep = ","%char \/ sep = "/"%char ->
  parse_days (s1 ++ String sep s2) = parse_days s1 ∪ parse_days s2.
Proof.
  intros Hsep.
  by rewrite !parse_days_parts, day_parts_app, map_app, list_to_set_app_L.
Qed.

Lemma X22_witness :
  parse_days ("Mon, Wed" ++ String "/"%char "wed,,Fri")
  = parse_days "Mon, Wed" ∪ parse_days "wed,,Fri".
Proof. apply (X22_parse_days_union "/"%char "Mon, Wed" "wed,,Fri"). by right. Defined.

(** ** The bounds of the minimum transfer *)

Section TransferBoundFacts.
Context {price : Type} `{Fare price}.
Implicit Types (r : Route price) (filtered : list (Route price)).

Lemma flat_map_ext_in {A B : Type} (f g : A -> list B) (l : list A) :
  (forall x, In x l -> f x = g x) -> flat_map f l = flat_map g l.
Proof.
  induction l as [|a l IH]; intros Hfg; simpl; [done|].
  rewrite Hfg by (by left). f_equal. apply IH. intros x Hx. apply Hfg. by right.
Qed.

(** The test of a wait against the minimum transfer, on filtered routes. *)
Lemma wait_test today filtered (mt mt' : Z) r1 r2 :
  (forall r, In r filtered -> time_ok (dep_time r) /\ time_ok (arr_time r)) ->
  (forall w, 0 <= w <= 1439 -> (w <? mt) = (w <? mt')) ->
  In r1 filtered -> In r2 filtered ->
  (minutes_between today (arr_time r1) (dep_time r2) <? mt)
  = (minutes_between today (arr_time r1) (dep_time r2) <? mt').
Proof.
  intros Hok Hw Hr1 Hr2. apply Hw, minutes_between_range; by apply Hok.
Qed.

Lemma enumerate_same_tests today filtered origin destination ms (mt mt' : Z) :
  (forall r, In r filtered -> time_ok (dep_time r) /\ time_ok (arr_time r)) ->
  (forall w, 0 <= w <= 1439 -> (w <? mt) = (w <? mt')) ->
  enumerate today (index_routes filtered) origin destination ms mt
  = enumerate today (index_routes filtered) origin destination ms mt'.
Proof.
  intros Hok Hw. unfold enumerate. f_equal. f_equal.
  - destruct (ms >=? 1); [|done]. unfold one_stop_phase.
    apply flat_map_ext_in. intros r1 Hr1.
    apply flat_map_ext_in. intros r2 Hr2.
    apply in_routes_from_city in Hr1 as [Hr1 _], Hr2 as [Hr2 _].
    by rewrite (wait_test today filtered mt mt' r1 r2).
  - destruct (ms >=? 2); [|done]. unfold two_stop_phase.
    apply flat_map_ext_in. intros r1 Hr1.
    apply flat_map_ext_in. intros r2 Hr2. cbv zeta.
    apply in_routes_from_city in Hr1 as [Hr1 _], Hr2 as [Hr2 _].
    rewrite (wait_test today filtered mt mt' r1 r2) by done.
    destruct (_ <? mt'); [done|].
    apply flat_map_ext_in. intros r3 Hr3.
    apply in_routes_from_city in Hr3 as [Hr3 _].
    by rewrite (wait_test today filtered mt mt' r2 r3).
Qed.

Lemma enumerate_no_feasible_wait today filtered origin destination ms (mt : Z) :
  (forall r, In r filtered -> time_ok (dep_time r) /\ time_ok (arr_time r)) ->
  1439 < mt ->
  enumerate today (index_routes filtered) origin destination ms mt
  = direct_phase (index_routes filtered) origin destination.
Proof.
  intros Hok Hmt.
  rewrite (enumerate_same_tests today filtered origin destination ms mt 1440)
    by (done || intros w Hw; destruct (Z.ltb_spec w mt), (Z.ltb_spec w 1440); lia).
  assert (Hlate : forall r1 r2, In r1 filtered -> In r2 filtered ->
             (minutes_between today (arr_time r1) (dep_time r2) <? 1440) = true).
  { intros r1 r2 Hr1 Hr2. apply Z.ltb_lt.
    pose proof (minutes_between_range today (arr_time r1) (dep_time r2)
                  (proj2 (Hok r1 Hr1)) (proj1 (Hok r2 Hr2))). lia. }
  unfold enumerate.
  assert (Hone : one_stop_phase today (index_routes filtered) origin
                   destination 1440 = []).
  { unfold one_stop_phase. apply flat_map_nil. intros r1 Hr1.
    apply flat_map_nil. intros r2 Hr2.
    apply in_routes_from_city in Hr1 as [Hr1 _], Hr2 as [Hr2 _].
    destruct (negb _); [done|]. cbv zeta. by rewrite (Hlate r1 r2). }
  assert (Htwo : two_stop_phase today (index_routes filtered) origin
                   destination 1440 = []).
  { unfold two_stop_phase. apply flat_map_nil. intros r1 Hr1.
    apply flat_map_nil. intros r2 Hr2. cbv zeta.
    apply in_routes_from_city in Hr1 as [Hr1 _], Hr2 as [Hr2 _].
    by rewrite (Hlate r1 r2). }
  rewrite Hone, Htwo. destruct (ms >=? 1), (ms >=? 2); by rewrite !app_nil_r.
Qed.
End TransferBoundFacts.

(** X23: the bounds of [min_transfer], for routes with clock times in
    range: a minimum transfer of zero or less asks nothing, the search
    returns what it returns for [min_transfer = 0]; a minimum transfer
    above 1439 minutes can never be met, the search returns the direct
    itineraries only, as for [max_stops = 0]. *)
Theorem X23_min_transfer_bounds {price : Type} `{Fare price} (today : Z)
    (routes : list (Route price)) (origin destination : string)
    (max_stops min_transfer : Z) (q : Filters price) :
  (forall r, In r routes -> time_ok (dep_time r) /\ time_ok (arr_time r)) ->
  (min_transfer <= 0 ->
   find_connected_itineraries today routes origin destination
     max_stops min_transfer q
   = find_connected_itineraries today routes origin destination
       max_stops 0 q) /\
  (1439 < min_transfer ->
   find_connected_itineraries today routes origin destination
     max_stops min_transfer q
   = find_connected_itineraries today routes origin destination
       0 min_transfer q).
Proof.
  intros Hok. unfold find_connected_itineraries.
  destruct (filter_routes today routes None None q) as [e|filtered] eqn:Hf;
    [done|].
  assert (Hr : forall r, In r filtered ->
                 time_ok (dep_time r) /\ time_ok (arr_time r))
    by (intros r Hr; apply Hok; by eapply filter_routes_subset).
  split; intros Hmt; do 2 f_equal.
  - apply enumerate_same_tests; [done|]. intros w Hw.
    destruct (Z.ltb_spec w min_transfer), (Z.ltb_spec w 0); lia.
  - rewrite !enumerate_no_feasible_wait by done. done.
Qed.

Lemma X23_witness :
  (-5 <= 0 ->
   find_connected_itineraries a_day [R1; R2; R4; R5] "Paris" "Nice" 2 (-5)
     no_filters
   = find_connected_itineraries a_day [R1; R2; R4; R5] "Paris" "Nice" 2 0
       no_filters) /\
  (1439 < 1500 ->
   find_connected_itineraries a_day [R1; R2; R4; R5] "Paris" "Nice" 2 1500
     no_filters
   = find_connected_itineraries a_day [R1; R2; R4; R5] "Paris" "Nice" 0 1500
       no_filters).
Proof.
  split.
  - apply (X23_min_transfer_bounds a_day [R1; R2; R4; R5] "Paris" "Nice" 2 (-5)
             no_filters).
    intros r [<-|[<-|[<-|[<-|[]]]]]; unfold time_ok; simpl; lia.
  - apply (X23_min_transfer_bounds a_day [R1; R2; R4; R5] "Paris" "Nice" 2 1500
             no_filters).
    intros r [<-|[<-|[<-|[<-|[]]]]]; unfold time_ok; simpl; lia.
Defined.

(** ** The ranking is stable *)

Section StableFacts.
Context {K A : Type} (lt : K -> K -> bool) (key : A -> K).
(** [lt] is a strict weak order. *)
Hypothesis lt_asym : forall x y, lt x y = true -> lt y x = false.
Hypothesis lt_weak : forall x y z,
  lt x y = true -> lt z y = false -> lt x z = true.
Hypothesis tied_trans : forall k x z,
  tied lt k x = true -> tied lt k z = true -> lt x z = false.

Local Abbreviation ordered :=
  (StronglySorted (fun p q : K * A => lt q.1 p.1 = false)).
Local Abbreviation keyed := (@keyed_by K A key).

Lemma insert_by_all (P : K * A -> Prop) (x : K * A) l :
  P x -> Forall P l -> Forall P (insert_by lt x l).
Proof.
  intros Hx. induction 1 as [|y l Hy Hl IH]; simpl; [by repeat constructor|].
  destruct (lt x.1 y.1); repeat constructor; done.
Qed.

Lemma above_rest (x y : K * A) l :
  lt x.1 y.1 = true -> Forall (fun q : K * A => lt q.1 y.1 = false) l ->
  Forall (fun q : K * A => lt x.1 q.1 = true) l.
Proof.
  intros Hxy. apply List.Forall_impl. intros q Hq. by apply (lt_weak _ y.1).
Qed.

Lemma insert_by_ordered (x : K * A) l : ordered l -> ordered (insert_by lt x l).
Proof.
  induction l as [|y l IH]; simpl; intros Hs; [by repeat constructor|].
  apply StronglySorted_inv in Hs as [Hs Hy].
  destruct (lt x.1 y.1) eqn:E.
  - constructor; [by constructor|]. constructor; [by apply lt_asym|].
    eapply List.Forall_impl; [|by apply (above_rest x y l)].
    intros q Hq. by apply lt_asym.
  - constructor; [by apply IH|]. by apply insert_by_all.
Qed.

Lemma filter_none (f : K * A -> bool) l :
  Forall (fun q => f q = false) l -> List.filter f l = [].
Proof. induction 1 as [|y l Hy Hl IH]; simpl; [done|]. by rewrite Hy. Qed.

Lemma insert_by_tied k (x : K * A) l :
  ordered l ->
  List.filter (fun p => tied lt k p.1) (insert_by lt x l)
  = (List.filter (fun p => tied lt k p.1) l
     ++ if tied lt k x.1 then [x] else [])%list.
Proof.
  induction l as [|y l IH]; simpl; intros Hs; [done|].
  apply StronglySorted_inv in Hs as [Hs Hy].
  destruct (lt x.1 y.1) eqn:E; simpl.
  - destruct (tied lt k x.1) eqn:Ex.
    + assert (Hnone : Forall (fun q : K * A => tied lt k q.1 = false) (y :: l)).
      { assert (Habove : Forall (fun q : K * A => lt x.1 q.1 = true) (y :: l))
          by (constructor; [done|by apply (above_rest x y l)]).
        eapply List.Forall_impl; [|exact Habove]. intros q Hq. simpl in Hq.
        destruct (tied lt k q.1) eqn:Eq; [|done].
        by rewrite (tied_trans k x.1 q.1 Ex Eq) in Hq. }
      pose proof (filter_none (fun p => tied lt k p.1) (y :: l) Hnone) as Hf.
      simpl in Hf. by rewrite Hf.
    + by rewrite app_nil_r.
  - rewrite IH by done. by destruct (tied lt k y.1).
Qed.

Lemma fold_insert_by_tied k (xs acc : list (K * A)) :
  ordered acc ->
  List.filter (fun p => tied lt k p.1)
    (fold_left (fun acc x => insert_by lt x acc) xs acc)
  = (List.filter (fun p => tied lt k p.1) acc
     ++ List.filter (fun p => tied lt k p.1) xs)%list.
Proof.
  revert acc. induction xs as [|x xs IH]; intros acc Hs; simpl.
  - by rewrite app_nil_r.
  - rewrite IH by (by apply insert_by_ordered).
    rewrite insert_by_tied by done. rewrite <- app_assoc.
    by destruct (tied lt k x.1).
Qed.

Lemma fold_insert_by_keyed (xs acc : list (K * A)) :
  Forall keyed xs -> Forall keyed acc ->
  Forall keyed (fold_left (fun acc x => insert_by lt x acc) xs acc).
Proof.
  revert acc. induction xs as [|x xs IH]; intros acc Hxs Hacc; simpl; [done|].
  inversion Hxs; subst. apply IH; [done|]. by apply insert_by_all.
Qed.

Lemma filter_keyed (f : K -> bool) (l : list (K * A)) :
  Forall keyed l ->
  List.filter (fun a => f (key a)) (map snd l)
  = map snd (List.filter (fun p => f p.1) l).
Proof.
  induction 1 as [|p l Hp Hl IH]; simpl; [done|].
  unfold keyed_by in Hp. rewrite <- Hp, IH. by destruct (f p.1).
Qed.

Lemma decorate_keyed (l : list A) :
  Forall keyed (map (fun a => (key a, a)) l).
Proof. induction l; simpl; by constructor. Qed.

(** Elements with tied keys leave [sort_by_key] in the order they came. *)
Lemma sort_by_key_stable k (l : list A) :
  List.filter (fun a => tied lt k (key a)) (sort_by_key lt key l)
  = List.filter (fun a => tied lt k (key a)) l.
Proof.
  unfold sort_by_key.
  rewrite (filter_keyed (tied lt k))
    by (apply fold_insert_by_keyed; [apply decorate_keyed|constructor]).
  rewrite fold_insert_by_tied by constructor. simpl.
  rewrite <- (filter_keyed (tied lt k)) by apply decorate_keyed.
  by rewrite map_map, map_id.
Qed.
End StableFacts.

Section KeyOrderFacts.
Context {price : Type} `{FareOrder price}.
Implicit Types (x y z : price).

Lemma fare_lt_not_eq x y : fare_lt x y = true -> fare_eq x y = false.
Proof.
  intros Hlt. destruct (fare_eq x y) eqn:E; [|done].
  apply fare_eq_spec in E as [E _]. congruence.
Qed.

Lemma fare_eq_not_lt x y : fare_eq x y = true -> fare_lt x y = false.
Proof. by intros [E _]%fare_eq_spec. Qed.

Lemma fare_not_lt_cases x y :
  fare_lt x y = false -> fare_lt y x = true \/ fare_eq x y = true.
Proof.
  intros Hxy. destruct (fare_lt y x) eqn:Hyx; [by left|right].
  by apply fare_eq_spec.
Qed.

Lemma fare_eq_lt x y z :
  fare_eq x y = true -> fare_lt y z = true -> fare_lt x z = true.
Proof.
  intros Hxy Hyz. destruct (fare_lt x z) eqn:Hxz; [done|].
  destruct (fare_not_lt_cases x z Hxz) as [Hzx|Heq].
  - pose proof (fare_lt_trans y z x Hyz Hzx) as Hyx.
    apply fare_eq_spec in Hxy as [_ Hyx']. congruence.
  - rewrite fare_eq_sym in Hxy.
    pose proof (fare_eq_trans y x z Hxy Heq) as Hyz'.
    apply fare_eq_not_lt in Hyz'. congruence.
Qed.

Lemma fare_lt_weak x y z :
  fare_lt x y = true -> fare_lt z y = false -> fare_lt x z = true.
Proof.
  intros Hxy Hzy. destruct (fare_not_lt_cases z y Hzy) as [Hyz|Heq].
  - by apply (fare_lt_trans x y z).
  - destruct (fare_lt x z) eqn:Hxz; [done|].
    destruct (fare_not_lt_cases x z Hxz) as [Hzx|Heq'].
    + pose proof (fare_lt_trans z x y Hzx Hxy). congruence.
    + pose proof (fare_eq_trans x z y Heq' Heq) as Hxy'.
      apply fare_eq_not_lt in Hxy'. congruence.
Qed.

Lemma fare_tied x y : tied fare_lt x y = fare_eq x y.
Proof.
  unfold tied. apply eq_true_iff_eq.
  rewrite andb_true_iff, !negb_true_iff, fare_eq_spec. tauto.
Qed.

(** The order of the keys [(duration, price)]. *)
Lemma duration_key_lt (a b : Z * price) :
  tuple_lt Z.eqb Z.ltb fare_eq fare_lt a b
  = (a.1 <? b.1) || ((a.1 =? b.1) && fare_lt a.2 b.2).
Proof.
  unfold tuple_lt. destruct (Z.eqb_spec a.1 b.1) as [->|Hne]; simpl.
  - rewrite Z.ltb_irrefl. simpl. destruct (fare_eq a.2 b.2) eqn:E; simpl; [|done].
    symmetry. by apply fare_eq_not_lt.
  - by rewrite orb_false_r.
Qed.

(** The order of the keys [(price, duration)]. *)
Lemma price_key_lt (a b : price * Z) :
  tuple_lt fare_eq fare_lt Z.eqb Z.ltb a b
  = fare_lt a.1 b.1 || (fare_eq a.1 b.1 && (a.2 <? b.2)).
Proof.
  unfold tuple_lt. destruct (fare_eq a.1 b.1) eqn:E; simpl.
  - rewrite (fare_eq_not_lt _ _ E). simpl.
    destruct (Z.eqb_spec a.2 b.2) as [->|Hne]; simpl; [|done].
    by rewrite Z.ltb_irrefl.
  - by rewrite orb_false_r.
Qed.

Lemma duration_key_asym (a b : Z * price) :
  tuple_lt Z.eqb Z.ltb fare_eq fare_lt a b = true ->
  tuple_lt Z.eqb Z.ltb fare_eq fare_lt b a = false.
Proof.
  rewrite !duration_key_lt. intros Hab. apply orb_false_iff.
  apply orb_true_iff in Hab as [Hab|Hab].
  - apply Z.ltb_lt in Hab. split; [apply Z.ltb_ge; lia|].
    apply andb_false_iff. left. apply Z.eqb_neq. lia.
  - apply andb_true_iff in Hab as [He Hp]. apply Z.eqb_eq in He.
    split; [apply Z.ltb_ge; lia|]. apply andb_false_iff. right.
    by apply fare_lt_asym.
Qed.

Lemma duration_key_weak (a b c : Z * price) :
  tuple_lt Z.eqb Z.ltb fare_eq fare_lt a b = true ->
  tuple_lt Z.eqb Z.ltb fare_eq fare_lt c b = false ->
  tuple_lt Z.eqb Z.ltb fare_eq fare_lt a c = true.
Proof.
  rewrite !duration_key_lt. intros Hab Hcb. apply orb_true_iff.
  apply orb_false_iff in Hcb as [Hlt Hcb]. apply Z.ltb_ge in Hlt.
  apply orb_true_iff in Hab as [Hab|Hab].
  - apply Z.ltb_lt in Hab. left. apply Z.ltb_lt. lia.
  - apply andb_true_iff in Hab as [He Hp]. apply Z.eqb_eq in He.
    destruct (Z.eqb_spec c.1 b.1) as [Hcbe|Hne]; simpl in Hcb.
    + right. apply andb_true_iff. split; [apply Z.eqb_eq; lia|].
      by apply (fare_lt_weak _ b.2).
    + left. apply Z.ltb_lt. lia.
Qed.

Lemma duration_key_tied (k a : Z * price) :
  tied (tuple_lt Z.eqb Z.ltb fare_eq fare_lt) k a
  = (a.1 =? k.1) && fare_eq a.2 k.2.
Proof.
  unfold tied. rewrite !duration_key_lt. apply eq_true_iff_eq.
  rewrite !andb_true_iff, !negb_true_iff, !orb_false_iff, !andb_false_iff,
    !Z.ltb_ge, Z.eqb_eq, !Z.eqb_neq, fare_eq_spec.
  split.
  - intros [[? [?|?]] [? [?|?]]]; try lia; (split; [lia|tauto]).
  - intros [-> [? ?]]. repeat split; try lia; by right.
Qed.

Lemma price_key_asym (a b : price * Z) :
  tuple_lt fare_eq fare_lt Z.eqb Z.ltb a b = true ->
  tuple_lt fare_eq fare_lt Z.eqb Z.ltb b a = false.
Proof.
  rewrite !price_key_lt. intros Hab. apply orb_false_iff.
  apply orb_true_iff in Hab as [Hab|Hab].
  - split; [by apply fare_lt_asym|]. apply andb_false_iff. left.
    rewrite fare_eq_sym. by apply fare_lt_not_eq.
  - apply andb_true_iff in Hab as [He Hd]. apply Z.ltb_lt in Hd.
    split; [|apply andb_false_iff; right; apply Z.ltb_ge; lia].
    rewrite fare_eq_sym in He. by apply fare_eq_not_lt.
Qed.

Lemma price_key_weak (a b c : price * Z) :
  tuple_lt fare_eq fare_lt Z.eqb Z.ltb a b = true ->
  tuple_lt fare_eq fare_lt Z.eqb Z.ltb c b = false ->
  tuple_lt fare_eq fare_lt Z.eqb Z.ltb a c = true.
Proof.
  rewrite !price_key_lt. intros Hab Hcb. apply orb_true_iff.
  apply orb_false_iff in Hcb as [Hlt Hcb].
  apply orb_true_iff in Hab as [Hab|Hab].
  - left. by apply (fare_lt_weak _ b.1).
  - apply andb_true_iff in Hab as [Heq Hd]. apply Z.ltb_lt in Hd.
    destruct (fare_not_lt_cases _ _ Hlt) as [Hbc|Hcb'].
    + left. by apply (fare_eq_lt _ b.1).
    + right. rewrite Hcb' in Hcb. simpl in Hcb. apply Z.ltb_ge in Hcb.
      apply andb_true_iff. split; [|apply Z.ltb_lt; lia].
      rewrite fare_eq_sym in Hcb'. by apply (fare_eq_trans _ b.1).
Qed.

Lemma price_key_tied (k a : price * Z) :
  tied (tuple_lt fare_eq fare_lt Z.eqb Z.ltb) k a
  = (a.2 =? k.2) && fare_eq a.1 k.1.
Proof.
  unfold tied. rewrite !price_key_lt. apply eq_true_iff_eq.
  rewrite !andb_true_iff, !negb_true_iff, !orb_false_iff, !andb_false_iff,
    !Z.ltb_ge, Z.eqb_eq.
  split.
  - intros [[Hka [Hne|?]] [Hak [Hne'|?]]].
    + assert (fare_eq k.1 a.1 = true) by (by apply fare_eq_spec). congruence.
    + assert (fare_eq k.1 a.1 = true) by (by apply fare_eq_spec). congruence.
    + assert (fare_eq a.1 k.1 = true) by (by apply fare_eq_spec). congruence.
    + split; [lia|]. by apply fare_eq_spec.
  - intros [-> Heq]. pose proof Heq as [? ?]%fare_eq_spec.
    repeat split; try done; right; lia.
Qed.

Lemma tied_key_trans {K : Type} (lt : K -> K -> bool) (same : K -> K -> bool) :
  (forall k a : K, tied lt k a = same a k) ->
  (forall k a b : K, same a k = true -> same b k = true ->
                     same b a = true) ->
  forall k a b : K, tied lt k a = true -> tied lt k b = true -> lt a b = false.
Proof.
  intros Htied Htrans k a b Hx Hz. rewrite Htied in Hx, Hz.
  pose proof (Htrans k a b Hx Hz) as Hxz. rewrite <- Htied in Hxz.
  unfold tied in Hxz. apply andb_true_iff in Hxz as [Hxz _].
  by apply negb_true_iff in Hxz.
Qed.
End KeyOrderFacts.

Section RankStableFacts.
Context {price : Type} `{FareOrder price}.

Lemma duration_key_tied_trans (k a b : Z * price) :
  tied (tuple_lt Z.eqb Z.ltb fare_eq fare_lt) k a = true ->
  tied (tuple_lt Z.eqb Z.ltb fare_eq fare_lt) k b = true ->
  tuple_lt Z.eqb Z.ltb fare_eq fare_lt a b = false.
Proof.
  apply (tied_key_trans _ (fun a k => (a.1 =? k.1) && fare_eq a.2 k.2)).
  - apply duration_key_tied.
  - intros k' a' b' [Ha Hpa]%andb_true_iff [Hb Hpb]%andb_true_iff.
    apply Z.eqb_eq in Ha, Hb. apply andb_true_iff.
    split; [apply Z.eqb_eq; lia|].
    rewrite fare_eq_sym in Hpa. by apply (fare_eq_trans _ k'.2).
Qed.

Lemma price_key_tied_trans (k a b : price * Z) :
  tied (tuple_lt fare_eq fare_lt Z.eqb Z.ltb) k a = true ->
  tied (tuple_lt fare_eq fare_lt Z.eqb Z.ltb) k b = true ->
  tuple_lt fare_eq fare_lt Z.eqb Z.ltb a b = false.
Proof.
  apply (tied_key_trans _ (fun a k => (a.2 =? k.2) && fare_eq a.1 k.1)).
  - apply price_key_tied.
  - intros k' a' b' [Ha Hpa]%andb_true_iff [Hb Hpb]%andb_true_iff.
    apply Z.eqb_eq in Ha, Hb. apply andb_true_iff.
    split; [apply Z.eqb_eq; lia|].
    rewrite fare_eq_sym in Hpa. by apply (fare_eq_trans _ k'.1).
Qed.
End RankStableFacts.

(** X24: the ranking is stable: itineraries that it does not tell apart,
    of equal duration and equal fare in the class, are returned in the
    order in which the connection search found them (direct itineraries
    before those with one stop, these before those with two). *)
Theorem X24_ranking_stable {price : Type} `{FareOrder price} (today : Z)
    (routes : list (Route price)) (from_city to_city : option string)
    (q : Filters price) (cls : string) (max_stops min_transfer : Z)
    (sort_by : string) (found : list (Itinerary price))
    (k : Itinerary price) :
  find_connected_itineraries today routes (default EmptyString from_city)
    (default EmptyString to_city) max_stops min_transfer q = inr found ->
  exists ranked,
    search_itineraries today routes from_city to_city q cls
      max_stops min_transfer sort_by None = inr ranked /\
    List.filter (same_rank today cls k) ranked
    = List.filter (same_rank today cls k) found.
Proof.
  intros Hfound. unfold search_itineraries. rewrite Hfound.
  eexists. split; [reflexivity|].
  destruct (String.eqb sort_by "price").
  - rewrite !(filter_ext (same_rank today cls k)
                (fun a => tied (tuple_lt fare_eq fare_lt Z.eqb Z.ltb)
                            (itinerary_price k cls,
                             itinerary_duration_minutes today k)
                            (itinerary_price a cls,
                             itinerary_duration_minutes today a)))
      by (intros a; by rewrite price_key_tied).
    apply (sort_by_key_stable _ (fun it => (itinerary_price it cls,
                                            itinerary_duration_minutes today it))).
    + apply price_key_asym.
    + apply price_key_weak.
    + apply price_key_tied_trans.
  - rewrite !(filter_ext (same_rank today cls k)
                (fun a => tied (tuple_lt Z.eqb Z.ltb fare_eq fare_lt)
                            (itinerary_duration_minutes today k,
                             itinerary_price k cls)
                            (itinerary_duration_minutes today a,
                             itinerary_price a cls)))
      by (intros a; by rewrite duration_key_tied).
    apply (sort_by_key_stable _ (fun it => (itinerary_duration_minutes today it,
                                            itinerary_price it cls))).
    + apply duration_key_asym.
    + apply duration_key_weak.
    + apply duration_key_tied_trans.
Qed.

Lemma X24_witness :
  exists ranked,
    search_itineraries a_day [R7; R4; R1] (Some "Paris") (Some "Lyon")
      no_filters "second" 0 10 "price" None = inr ranked /\
    List.filter (same_rank a_day "second" (mkItinerary [mkLeg R1] [])) ranked
    = List.filter (same_rank a_day "second" (mkItinerary [mkLeg R1] []))
        [mkItinerary [mkLeg R7] []; mkItinerary [mkLeg R4] [];
         mkItinerary [mkLeg R1] []].
Proof.
  apply (@X24_ranking_stable Z Z_fare Z_fare_order a_day [R7; R4; R1]
           (Some "Paris") (Some "Lyon") no_filters "second" 0 10 "price").
  by vm_compute.
Defined.


(** ** Wrapping the columns of the table *)

Section WrapFacts.

Lemma append_length (s1 s2 : string) :
  String.length (s1 ++ s2) = (String.length s1 + String.length s2)%nat.
Proof. induction s1 as [|c s1 IH]; simpl; [done|]. by rewrite IH. Qed.

Lemma lstrip_length s : (String.length (Str.lstrip s) <= String.length s)%nat.
Proof.
  induction s as [|c s IH]; simpl; [done|].
  destruct (Str.is_space c); simpl; lia.
Qed.

Lemma rstrip_length s : (String.length (Str.rstrip s) <= String.length s)%nat.
Proof.
  induction s as [|c s IH]; simpl; [done|].
  destruct (Str.rstrip s); [destruct (Str.is_space c)|]; simpl in *; lia.
Qed.

Lemma strip_length s : (String.length (Str.strip s) <= String.length s)%nat.
Proof.
  unfold Str.strip. pose proof (rstrip_length (Str.lstrip s)).
  pose proof (lstrip_length s). lia.
Qed.

Lemma wrap_step_lines text width st part :
  In part (split_on " "%char text) ->
  Forall (wrapped_line text width) st.1 -> wrapped_line text width st.2 ->
  Forall (wrapped_line text width) (wrap_step width st part).1
  /\ wrapped_line text width (wrap_step width st part).2.
Proof.
  destruct st as [out line]. simpl. intros Hpart Hout Hline.
  destruct (Z.leb_spec (Z.of_nat (String.length line) + 1
                        + Z.of_nat (String.length part)) width) as [Hfit|Hno];
    simpl.
  - split; [done|]. left.
    pose proof (strip_length (line ++ " " ++ part)) as Hs.
    rewrite !append_length in Hs. simpl in Hs. lia.
  - split; [|by right; left]. apply Forall_app. split; [done|].
    by constructor.
Qed.

Lemma wrap_fold_lines text width parts st :
  (forall p, In p parts -> In p (split_on " "%char text)) ->
  Forall (wrapped_line text width) st.1 -> wrapped_line text width st.2 ->
  Forall (wrapped_line text width) (fold_left (wrap_step width) parts st).1
  /\ wrapped_line text width (fold_left (wrap_step width) parts st).2.
Proof.
  revert st. induction parts as [|p parts IH]; intros st Hin Hout Hline;
    simpl; [done|].
  destruct (wrap_step_lines text width st p) as [Hout' Hline']; auto.
  { apply Hin. by left. }
  apply IH; auto. intros p' Hp'. apply Hin. by right.
Qed.

(** The loop only appends to [out]. *)
Lemma wrap_fold_prefix width parts st :
  exists more,
    (fold_left (wrap_step width) parts st).1 = (st.1 ++ more)%list.
Proof.
  revert st. induction parts as [|p parts IH]; intros st; simpl.
  - exists []. by rewrite app_nil_r.
  - destruct (IH (wrap_step width st p)) as [more ->].
    destruct st as [out line]. unfold wrap_step.
    destruct (_ <=? width); simpl; [by exists more|].
    exists (line :: more). by rewrite <- app_assoc.
Qed.
End WrapFacts.

(** X25: [wrap] never breaks a word and never overfills a line: each line
    it returns fits the width, unless it is a whole field of the text
    between two spaces (then it may be longer) or the empty line. *)
Theorem X25_wrap_lines (text : string) (width : Z) (line : string) :
  In line (wrap text width) -> wrapped_line text width line.
Proof.
  unfold wrap.
  destruct (Z.leb_spec (Z.of_nat (String.length text)) width) as [Hfit|Hlong].
  - intros [<-|[]]. by left.
  - destruct (wrap_fold_lines text width (split_on " "%char text)
                ([], EmptyString)) as [Hout Hline]; auto.
    { simpl. by right; right. }
    destruct (fold_left (wrap_step width) _ _) as [out last]. simpl in *.
    intros Hin.
    assert (Hall : Forall (wrapped_line text width) (out ++ [last]))
      by (apply Forall_app; split; [done|by constructor]).
    rewrite Forall_forall in Hall, Hout.
    destruct (Str.truthy last);
      [apply Hall|apply Hout]; by apply list_elem_of_In.
Qed.

Lemma X25_witness :
  In "Lyon(10:00) ->" (wrap "Paris(08:00) -> Lyon(10:00) -> Nice(13:00)" 20) /\
  wrapped_line "Paris(08:00) -> Lyon(10:00) -> Nice(13:00)" 20 "Lyon(10:00) ->".
Proof.
  assert (Hin : In "Lyon(10:00) ->"
                  (wrap "Paris(08:00) -> Lyon(10:00) -> Nice(13:00)" 20))
    by (right; left; reflexivity).
  split; [exact Hin|].
  exact (X25_wrap_lines "Paris(08:00) -> Lyon(10:00) -> Nice(13:00)" 20
           "Lyon(10:00) ->" Hin).
Defined.

(** X26: a text that fits the width is returned as one line; a text that
    does not fit and whose first word, with the space [wrap] counts before
    it, is wider than the width, comes back with an empty first line. *)
Theorem X26_wrap_first_line (text : string) (width : Z) :
  (Z.of_nat (String.length text) <= width -> wrap text width = [text]) /\
  (forall first rest,
     width < Z.of_nat (String.length text) ->
     split_on " "%char text = first :: rest ->
     width < 1 + Z.of_nat (String.length first) ->
     exists lines, wrap text width = EmptyString :: lines).
Proof.
  unfold wrap. split.
  - intros Hfit. by rewrite (proj2 (Z.leb_le _ _) Hfit).
  - intros first rest Hlong Hsplit Hwide.
    rewrite (proj2 (Z.leb_gt _ _) Hlong), Hsplit. simpl.
    rewrite (proj2 (Z.leb_gt _ _)) by lia.
    destruct (wrap_fold_prefix width rest ([EmptyString], first))
      as [more Hmore].
    destruct (fold_left (wrap_step width) rest _) as [out last].
    simpl in Hmore. subst out.
    destruct (Str.truthy last); by eexists.
Qed.

Lemma X26_witness :
  exists lines, wrap "Amsterdam(08:00) to Berlin" 12 = EmptyString :: lines.
Proof.
  apply (proj2 (X26_wrap_first_line "Amsterdam(08:00) to Berlin" 12)
           "Amsterdam(08:00)" ["to"; "Berlin"]);
    [by vm_compute|by vm_compute|by vm_compute].
Defined.
